(** * GW_event_viz: the catalogue classifier and the page scripts

    A shallow embedding of the decision logic of the gravitational-wave
    event viewer:

    - [Classifier]: the source classification rule that the data schema
      documents for the fetch job (the [NS_THRESHOLD] rule);
    - [Docs]: the published page script, [docs/script.js], with the flat
      list of all catalogue versions and the unique-events default view;
    - [Robust]: the fail-soft revision of the script, which validates the
      document, guards every element and adds the histograms, the spin
      plot and the timeline;
    - [Plots]: the spin plot and the per-type timeline of the revision
      that sorts before it drops the undated records;
    - [Versioned]: the filter of the first revision, which keeps the
      catalogue tag in the member [version];
    - [Common]: what the revisions share word for word.

    The scripts are JavaScript over a parsed JSON document.  The model
    keeps JSON values untyped, makes member access on [null] and
    [undefined] and array methods on anything but an array throw, and
    threads the page (the DOM elements the scripts write to and the two
    globals) through a state-and-exception monad in which the writes made
    before a [throw] stay.  What the scripts use of the host (dates,
    string conversions, [+]) is a parameter, [JS.Builtins].

    The second part proves, for event records as the data schema
    describes them, what the statistics cards, the catalogue filter, the
    mass plot, the spin plot, the timeline and the loader do. *)

From Stdlib Require Import QArith ZArith Qminmax Permutation Sorted Ascii.
From stdpp Require Import gmap strings list pretty.
Set Warnings "-register-all".

(** ** Numbers

    Every finite IEEE double is a rational, and the programs only compare
    numbers and take minima and maxima, which are exact: numbers are [Q].
    [NaN] is the missing value of an [option Q]. *)

Definition Qltb (a b : Q) : bool := negb (Qle_bool b a).

(** ** The classifier (data schema, "Source Classification Logic") *)

Module Classifier.

Inductive source_type := BNS | NSBH | BBH.

Definition NS_THRESHOLD : Q := 3.

(** [if m2 < T and m1 < T: BNS  elif m2 < T and m1 > T: NSBH  else: BBH] *)
Definition classify (m1 m2 : Q) : source_type :=
  if Qltb m2 NS_THRESHOLD && Qltb m1 NS_THRESHOLD then BNS
  else if Qltb m2 NS_THRESHOLD && Qltb NS_THRESHOLD m1 then NSBH
  else BBH.

(** The rule in the words of the specification: both components at or
    above the threshold is BBH, both below is BNS, anything else NSBH. *)
Definition classify_spec (m1 m2 : Q) : source_type :=
  if Qle_bool NS_THRESHOLD m1 && Qle_bool NS_THRESHOLD m2 then BBH
  else if Qltb m1 NS_THRESHOLD && Qltb m2 NS_THRESHOLD then BNS
  else NSBH.

End Classifier.

(** ** JavaScript values and the operations the scripts use *)

Module JS.

(** A parsed JSON document, plus [undefined], which property access
    yields for a missing key.  An object is its list of members, first
    match wins. *)
Inductive value :=
| Undefined
| Null
| Boolean (b : bool)
| Num (q : Q)
| Str (s : string)
| Arr (items : list value)
| Obj (members : list (string * value)).

Inductive error :=
| TypeError
| SyntaxError
| Error (msg : string).

(** Completion of an evaluation: a value or a thrown exception. *)
Inductive result (A : Type) :=
| Ok (a : A)
| Throw (e : error).
Arguments Ok {A} a.
Arguments Throw {A} e.

#[export] Instance result_ret : MRet result := fun A a => Ok a.
#[export] Instance result_bind : MBind result := fun A B f m =>
  match m with
  | Ok a => f a
  | Throw e => Throw e
  end.

Definition of_nat (n : nat) : value := Num (inject_Z (Z.of_nat n)).

Fixpoint member (k : string) (ms : list (string * value)) : value :=
  match ms with
  | [] => Undefined
  | (k', v) :: ms' => if String.eqb k k' then v else member k ms'
  end.

(** [v.k] for the member names the scripts read (none of them is a
    property of a string, a number, a boolean or an array). *)
Definition get (v : value) (k : string) : result value :=
  match v with
  | Undefined | Null => Throw TypeError
  | Obj ms => Ok (member k ms)
  | Boolean _ | Num _ | Str _ | Arr _ => Ok Undefined
  end.

(** [v.length]; the length of a string is never used as a number by
    the scripts, which fail on the next array method. *)
Definition length_of (v : value) : result value :=
  match v with
  | Undefined | Null => Throw TypeError
  | Arr l => Ok (of_nat (length l))
  | Str s => Ok (of_nat (String.length s))
  | Obj ms => Ok (member "length" ms)
  | Boolean _ | Num _ => Ok Undefined
  end.

(** The receiver of [.filter], [.map], [.forEach] or [.sort]: only an
    array has these methods; on anything else the call is a
    [TypeError]. *)
Definition array_of (v : value) : result (list value) :=
  match v with
  | Arr l => Ok l
  | _ => Throw TypeError
  end.

(** [Array.isArray(v)] *)
Definition isArray (v : value) : bool :=
  match v with
  | Arr _ => true
  | _ => false
  end.

(** ToBoolean *)
Definition truthy (v : value) : bool :=
  match v with
  | Undefined | Null => false
  | Boolean b => b
  | Num q => negb (Qeq_bool q 0)
  | Str s => negb (String.eqb s EmptyString)
  | Arr _ | Obj _ => true
  end.

(** [a === b].  Two objects are equal only when they are the same
    reference; the scripts always have a primitive on one side, so the
    object-to-object case is never reached. *)
Definition strict_eq (a b : value) : bool :=
  match a, b with
  | Undefined, Undefined => true
  | Null, Null => true
  | Boolean x, Boolean y => Bool.eqb x y
  | Num x, Num y => Qeq_bool x y
  | Str x, Str y => String.eqb x y
  | _, _ => false
  end.

(** [a || b] and [a && b] *)
Definition or_else (a b : value) : value := if truthy a then a else b.
Definition and_then (a b : value) : value := if truthy a then b else a.

(** What the scripts use of the host: conversions to and from strings,
    [+], dates and the comparator-less sort. *)
Class Builtins := {
  (** ToString of a value that is not a string *)
  ToString_ext : value -> string;
  (** ToNumber on a string, an array or an object; [None] is [NaN] *)
  ToNumber_ext : value -> option Q;
  (** [a + b] *)
  js_plus : value -> value -> value;
  (** the time value of [new Date(v)]; [None] for an invalid date *)
  Date_time : value -> option Z;
  (** [new Date(v).toLocaleString('en-US', ...)] *)
  Date_toLocaleString : value -> string;
  (** [.sort()] without a comparator *)
  sort_default : list value -> list value
}.

(** ToString, as in a template literal or a property key *)
Definition ToString `{Builtins} (v : value) : string :=
  match v with
  | Str s => s
  | _ => ToString_ext v
  end.

(** ToNumber *)
Definition ToNumber `{Builtins} (v : value) : option Q :=
  match v with
  | Undefined => None
  | Null => Some 0%Q
  | Boolean b => Some (if b then 1%Q else 0%Q)
  | Num q => Some q
  | Str _ | Arr _ | Obj _ => ToNumber_ext v
  end.

(** [Math.min(a, b)] and [Math.max(a, b)] on converted arguments *)
Definition Math_min (a b : option Q) : option Q :=
  match a, b with
  | Some x, Some y => Some (Qmin x y)
  | _, _ => None
  end.

Definition Math_max (a b : option Q) : option Q :=
  match a, b with
  | Some x, Some y => Some (Qmax x y)
  | _, _ => None
  end.

(** [l.filter(p)] and [l.map(f)] with callbacks that may throw *)
Fixpoint filterM {A} (p : A -> result bool) (l : list A) : result (list A) :=
  match l with
  | [] => Ok []
  | a :: l' =>
      b ← p a;
      r ← filterM p l';
      Ok (if (b : bool) then a :: r else r)
  end.

Fixpoint mapM {A B} (f : A -> result B) (l : list A) : result (list B) :=
  match l with
  | [] => Ok []
  | a :: l' =>
      b ← f a;
      r ← mapM f l';
      Ok (b :: r)
  end.

(** [[...new Set(l)]]: first occurrences, compared by SameValueZero,
    under which two distinct parsed arrays or objects never coincide. *)
Fixpoint set_of (seen l : list value) : list value :=
  match l with
  | [] => []
  | v :: l' =>
      if existsb (strict_eq v) seen then set_of seen l'
      else v :: set_of (v :: seen) l'
  end.

(** [[...v]]: an array spreads into its elements, a string into its
    characters; the other values are not iterable. *)
Definition spread (v : value) : result (list value) :=
  match v with
  | Arr l => Ok l
  | Str s => Ok (map (fun c => Str (String c EmptyString)) (String.list_ascii_of_string s))
  | _ => Throw TypeError
  end.

(** [l.sort(cmp)].  The standard asks for a stable sort and reads a
    [NaN] from the comparator as [0]; when the comparator is a consistent
    order on the elements exactly one result is allowed, and this
    insertion sort computes it.  [cmp a b] is the difference the
    comparator returns, [None] for [NaN]. *)
Definition negative (d : option Z) : bool :=
  match d with
  | Some z => (z <? 0)%Z
  | None => false
  end.

Fixpoint insert_sorted (cmp : value -> value -> result (option Z))
    (a : value) (l : list value) : result (list value) :=
  match l with
  | [] => Ok [a]
  | b :: l' =>
      d ← cmp b a;
      if negative d then r ← insert_sorted cmp a l'; Ok (b :: r)
      else Ok (a :: b :: l')
  end.

Fixpoint sort_by (cmp : value -> value -> result (option Z))
    (l : list value) : result (list value) :=
  match l with
  | [] => Ok []
  | a :: l' => r ← sort_by cmp l'; insert_sorted cmp a r
  end.

End JS.

(** ** The page: the DOM the scripts write to and their globals *)

Module Page.
Import JS.

(** A Plotly trace: the attributes that carry data or tell the traces
    apart.  Layout, styling constants and hover text are presentation
    and are left out. *)
Record trace := {
  tr_x : list value;
  tr_y : option (list value);
  tr_type : string;
  tr_mode : option string;
  tr_name : option string;
  (** [marker.size], [None] inside the list for [NaN] *)
  tr_size : option (list (option Q));
  (** [marker.color] *)
  tr_color : option string
}.

(** The last thing a script put into an element. *)
Inductive content :=
| Static
| InnerHTML (markup : string)
| TextContent (v : value)
| Plotly (data : list trace).

(** An [<option>] built by [document.createElement('option')] *)
Record option_element := { opt_value : value; opt_text : value }.

Record element := {
  shown : content;
  (** children added with [appendChild] *)
  appended : list option_element;
  (** handlers registered with [addEventListener] or [on] *)
  listeners : nat
}.

Record page := {
  document : gmap string element;
  allEventsData : value;
  allEventsList : value
}.

(** The page before any script ran on it. *)
Definition blank : element :=
  {| shown := Static; appended := []; listeners := 0 |}.

(** A computation on the page.  The page comes back also when the
    computation throws: DOM writes are not undone by an exception. *)
Definition M (A : Type) : Type := page -> result A * page.

#[export] Instance M_ret : MRet M := fun A a pg => (Ok a, pg).
#[export] Instance M_bind : MBind M := fun A B f m pg =>
  match m pg with
  | (Ok a, pg') => f a pg'
  | (Throw e, pg') => (Throw e, pg')
  end.

Definition lift {A} (r : result A) : M A := fun pg => (r, pg).
Definition throw {A} (e : error) : M A := fun pg => (Throw e, pg).

(** [try { body } catch (error) { handler }] *)
Definition try_catch {A} (body : M A) (handler : error -> M A) : M A :=
  fun pg =>
    match body pg with
    | (Ok a, pg') => (Ok a, pg')
    | (Throw e, pg') => handler e pg'
    end.

(** [document.getElementById(id)]: [None] is [null] *)
Definition getElementById (id : string) : M (option element) :=
  fun pg => (Ok (document pg !! id), pg).

Definition read_allEventsData : M value :=
  fun pg => (Ok (allEventsData pg), pg).
Definition read_allEventsList : M value :=
  fun pg => (Ok (allEventsList pg), pg).

Definition assign_allEventsData (v : value) : M unit :=
  fun pg => (Ok tt, {| document := document pg; allEventsData := v;
                       allEventsList := allEventsList pg |}).
Definition assign_allEventsList (v : value) : M unit :=
  fun pg => (Ok tt, {| document := document pg;
                       allEventsData := allEventsData pg;
                       allEventsList := v |}).

(** The page with the element [id], if there is one, changed by [f]. *)
Definition write (id : string) (f : element -> element) (pg : page) : page :=
  {| document := alter f id (document pg);
     allEventsData := allEventsData pg;
     allEventsList := allEventsList pg |}.

(** A member assignment or method call on [getElementById(id)] without
    a null check: on a missing element it is a [TypeError]. *)
Definition update (id : string) (f : element -> element) : M unit :=
  fun pg =>
    match document pg !! id with
    | Some _ => (Ok tt, write id f pg)
    | None => (Throw TypeError, pg)
    end.

(** [el.textContent = v], [el.innerHTML = s], [Plotly.newPlot(el, data,
    ...)], [el.appendChild(option)] and [el.addEventListener(...)] *)
Definition set_textContent (v : value) (el : element) : element :=
  {| shown := TextContent v; appended := []; listeners := listeners el |}.
Definition set_innerHTML (s : string) (el : element) : element :=
  {| shown := InnerHTML s; appended := []; listeners := listeners el |}.
Definition newPlot (data : list trace) (el : element) : element :=
  {| shown := Plotly data; appended := []; listeners := listeners el |}.
Definition appendChild (o : option_element) (el : element) : element :=
  {| shown := shown el; appended := appended el ++ [o];
     listeners := listeners el |}.
Definition addEventListener (el : element) : element :=
  {| shown := shown el; appended := appended el;
     listeners := S (listeners el) |}.

(** [l.forEach(f)] with a callback that writes to the page *)
Fixpoint forEach {A} (f : A -> M unit) (l : list A) : M unit :=
  match l with
  | [] => mret tt
  | a :: l' => f a ;; forEach f l'
  end.

(** What [fetch] followed by [response.json()] can deliver. *)
Inductive body :=
| NotJson
| Json (data : value).

Inductive fetched :=
| NetworkFailure
| Response (ok : bool) (b : body).

(** The double quote of an HTML attribute. *)
Definition dq : string := String (Ascii.ascii_of_nat 34) EmptyString.

End Page.

(** ** What the revisions of the script have in common *)

Module Common.
Import JS Page.

Section Script.
Context `{Builtins}.

(** [e => e.source_type === type] *)
Definition has_type (type : string) (e : value) : result bool :=
  t ← get e "source_type"; Ok (strict_eq t (Str type)).

(** [Math.max(8, Math.min(25, e.snr || 10))] *)
Definition marker_size (e : value) : result (option Q) :=
  snr ← get e "snr";
  Ok (Math_max (Some 8%Q)
        (Math_min (Some 25%Q) (ToNumber (or_else snr (Num 10%Q))))).

Definition createTrace (events : list value) (name color : string)
    : result trace :=
  xs ← mapM (fun e => get e "m1") events;
  ys ← mapM (fun e => get e "m2") events;
  sizes ← mapM marker_size events;
  Ok {| tr_x := xs; tr_y := Some ys; tr_type := "scatter";
        tr_mode := Some "markers"; tr_name := Some name;
        tr_size := Some sizes; tr_color := Some color |}.

(** [events.filter(e => e.source_type === type).length] *)
Definition count_type (type : string) (events : value) : result value :=
  l ← array_of events;
  r ← filterM (has_type type) l;
  Ok (of_nat (length r)).

End Script.
End Common.

(** ** The fail-soft revision of the script ("Robust, fail-soft version") *)

Module Robust.
Import JS Page Common.

Section Script.
Context `{Builtins}.

Definition failure_notice : string :=
  "<div class=" +:+ dq +:+ "loading" +:+ dq +:+ ">Failed to load data.</div>".

Definition no_spin_notice : string :=
  "<div style=" +:+ dq +:+ "text-align:center;padding:2rem;color:#999;"
    +:+ dq +:+ ">No spin data</div>".

(** [function setText(id, value)] *)
Definition setText (id : string) (v : value) : M unit :=
  el ← getElementById id;
  match el with
  | Some _ => update id (set_textContent v)
  | None => mret tt
  end.

Definition updateStats (events : value) : M unit :=
  n ← lift (length_of events);
  setText "totalEvents" n;;
  bbh ← lift (count_type "BBH" events);
  setText "bbhCount" bbh;;
  nsbh ← lift (count_type "NSBH" events);
  setText "nsbhCount" nsbh;;
  bns ← lift (count_type "BNS" events);
  setText "bnsCount" bns.

Definition updateFilterInfo (displayed total : value) : M unit :=
  info ← getElementById "filterInfo";
  match info with
  | None => mret tt
  | Some _ =>
      update "filterInfo" (set_textContent (Str
        (if strict_eq displayed total
         then "Showing all " +:+ ToString total +:+ " events"
         else "Showing " +:+ ToString displayed +:+ " of "
                +:+ ToString total +:+ " events")))
  end.

(** The [groups] table of [createPlot], in key order. *)
Definition groups : list (string * (string * string)) :=
  [ ("BBH", ("BBH (Binary Black Hole)", "#9b59b6"));
    ("NSBH", ("NSBH (NS-BH)", "#e67e22"));
    ("BNS", ("BNS (Binary NS)", "#3498db")) ].

(** The body of [Object.keys(groups).forEach(type => ...)]: the traces
    pushed for the remaining keys, after those in [traces]. *)
Fixpoint push_traces (events : list value)
    (gs : list (string * (string * string))) (traces : list trace)
    : result (list trace) :=
  match gs with
  | [] => Ok traces
  | (type, (label, color)) :: gs' =>
      subset ← filterM (has_type type) events;
      match subset with
      | [] => push_traces events gs' traces
      | _ :: _ =>
          t ← createTrace subset label color;
          push_traces events gs' (traces ++ [t])
      end
  end.

Definition createPlot (events : value) : M unit :=
  container ← getElementById "massPlot";
  match container with
  | None => mret tt
  | Some _ =>
      traces ← lift (l ← array_of events; push_traces l groups []);
      update "massPlot" (newPlot traces)
  end.

Definition histogram (xs : list value) (name : option string) : trace :=
  {| tr_x := xs; tr_y := None; tr_type := "histogram"; tr_mode := None;
     tr_name := name; tr_size := None; tr_color := None |}.

Definition createMassHistograms (events : value) : M unit :=
  container ← getElementById "massHistogram";
  match container with
  | None => mret tt
  | Some _ =>
      traces ← lift (
        l ← array_of events;
        m1s ← mapM (fun e => get e "m1") l;
        m2s ← mapM (fun e => get e "m2") l;
        totals ← mapM (fun e => a ← get e "m1"; b ← get e "m2";
                                Ok (js_plus a b)) l;
        Ok [ histogram m1s (Some "M₁"); histogram m2s (Some "M₂");
             histogram totals (Some "M_total") ]);
      update "massHistogram" (newPlot traces)
  end.

(** [v => v !== null && v !== undefined] *)
Definition has_value (v : value) : bool :=
  negb (strict_eq v Null) && negb (strict_eq v Undefined).

Definition createSpinPlot (events : value) : M unit :=
  container ← getElementById "spinPlot";
  match container with
  | None => mret tt
  | Some _ =>
      values ← lift (
        l ← array_of events;
        chis ← mapM (fun e => get e "chi_eff") l;
        Ok (List.filter has_value chis));
      match values with
      | [] => update "spinPlot" (set_innerHTML no_spin_notice)
      | _ :: _ => update "spinPlot" (newPlot [histogram values None])
      end
  end.

(** [e => e.detection_date && e.detection_date !== 'Unknown'] *)
Definition has_date (e : value) : result bool :=
  d ← get e "detection_date";
  Ok (truthy (and_then d (Boolean (negb (strict_eq d (Str "Unknown")))))).

(** [(a, b) => new Date(a.detection_date) - new Date(b.detection_date)].
    The two time values are integers; their difference as a double has
    the sign of the exact difference. *)
Definition by_date (a b : value) : result (option Z) :=
  da ← get a "detection_date";
  db ← get b "detection_date";
  Ok (match Date_time da, Date_time db with
      | Some ta, Some tb => Some (ta - tb)%Z
      | _, _ => None
      end).

(** The [sorted.forEach] loop: [dates] and [totals] after the loop,
    entered with the counter at [count]. *)
Fixpoint accumulate (sorted : list value) (count : nat)
    (dates totals : list value) : result (list value * list value) :=
  match sorted with
  | [] => Ok (dates, totals)
  | e :: rest =>
      d ← get e "detection_date";
      accumulate rest (S count) (dates ++ [d]) (totals ++ [of_nat (S count)])
  end.

(** [const sorted = [...events].filter(...).sort(...)] *)
Definition sorted_events (events : value) : result (list value) :=
  l ← spread events;
  kept ← filterM has_date l;
  sort_by by_date kept.

Definition timeline (events : value) : result trace :=
  sorted ← sorted_events events;
  '(dates, totals) ← accumulate sorted 0 [] [];
  Ok {| tr_x := dates; tr_y := Some totals; tr_type := "scatter";
        tr_mode := Some "lines"; tr_name := Some "Cumulative detections";
        tr_size := None; tr_color := None |}.

Definition createTimelinePlot (events : value) : M unit :=
  container ← getElementById "timelinePlot";
  match container with
  | None => mret tt
  | Some _ =>
      t ← lift (timeline events);
      update "timelinePlot" (newPlot [t])
  end.

Definition displayEvents (events : value) : M unit :=
  updateStats events;;
  displayed ← lift (length_of events);
  data ← read_allEventsData;
  total ← lift (all ← get data "events"; length_of all);
  updateFilterInfo displayed total;;
  createPlot events;;
  createMassHistograms events;;
  createSpinPlot events;;
  createTimelinePlot events.

Definition updateLastUpdate (updated : value) : M unit :=
  el ← getElementById "lastUpdate";
  match el with
  | None => mret tt
  | Some _ =>
      if truthy updated
      then update "lastUpdate"
             (set_textContent (Str (Date_toLocaleString updated +:+ " UTC")))
      else mret tt
  end.

(** The handler of the filter's [change] event, [selected] being
    [e.target.value]. *)
Definition onCatalogChange (selected : string) : M unit :=
  data ← read_allEventsData;
  if strict_eq (Str selected) (Str "all")
  then events ← lift (get data "events"); displayEvents events
  else
    filtered ← lift (
      events ← get data "events";
      l ← array_of events;
      filterM (fun ev => c ← get ev "catalog";
                         Ok (strict_eq c (Str selected))) l);
    displayEvents (Arr filtered).

(** [c => c && c !== 'unknown'] *)
Definition named_catalog (c : value) : bool :=
  truthy (and_then c (Boolean (negb (strict_eq c (Str "unknown"))))).

Definition populateCatalogFilter (events : value) : M unit :=
  select ← getElementById "catalogFilter";
  match select with
  | None => mret tt
  | Some _ =>
      catalogs ← lift (
        l ← array_of events;
        cs ← mapM (fun e => get e "catalog") l;
        Ok (sort_default (List.filter named_catalog (set_of [] cs))));
      forEach (fun catalog =>
        update "catalogFilter"
          (appendChild {| opt_value := catalog; opt_text := catalog |}))
        catalogs;;
      update "catalogFilter" addEventListener
  end.

(** [!data || !Array.isArray(data.events)] *)
Definition invalid (data : value) : result bool :=
  if negb (truthy data) then Ok true
  else events ← get data "events"; Ok (negb (isArray events)).

(** The [try] block of [loadData]. *)
Definition loadData_try (response : fetched) : M unit :=
  data ← match response with
         | NetworkFailure => throw TypeError
         | Response false _ => throw (Error "HTTP error")
         | Response true NotJson => throw SyntaxError
         | Response true (Json data) => mret data
         end;
  bad ← lift (invalid data);
  if bad : bool then throw (Error "Invalid data format")
  else
    assign_allEventsData data;;
    events ← lift (get data "events");
    populateCatalogFilter events;;
    displayEvents events;;
    updated ← lift (get data "updated");
    updateLastUpdate updated.

(** The [catch] block of [loadData]. *)
Definition loadData_catch (e : error) : M unit :=
  plot ← getElementById "massPlot";
  match plot with
  | Some _ => update "massPlot" (set_innerHTML failure_notice)
  | None => mret tt
  end.

Definition loadData (response : fetched) : M unit :=
  try_catch (loadData_try response) loadData_catch.

End Script.
End Robust.

(** ** The published script, [docs/script.js] *)

Module Docs.
Import JS Page Common.

Section Script.
Context `{Builtins}.

Definition failure_notice : string :=
  "<div class=" +:+ dq +:+ "loading" +:+ dq
    +:+ ">Failed to load data. Please refresh the page.</div>".

Definition all_option : string :=
  "<option value=" +:+ dq +:+ "all" +:+ dq
    +:+ ">All Catalogs (Unique Events)</option>".

(** The [catalogInfo] table: display name and priority of the known
    catalogues. *)
Definition catalogInfo : list (string * (string * Z)) :=
  [ ("all", ("All Catalogs (Unique Events)", 0%Z));
    ("GWTC-4.0", ("GWTC-4.0 (O4 Run)", 1%Z));
    ("GWTC-3-confident", ("GWTC-3 Confident (O3 Run)", 2%Z));
    ("GWTC-2.1-confident", ("GWTC-2.1 Confident (O2 Run)", 3%Z));
    ("GWTC-1-confident", ("GWTC-1 Confident (O1 Run)", 4%Z));
    ("O4_Discovery_Papers", ("O4 Discovery Papers (Preliminary)", 5%Z)) ].

(** [catalogInfo[c]], own members only *)
Definition info_of (c : value) : option (string * Z) :=
  snd <$> List.find (fun entry => String.eqb (ToString c) (fst entry))
            catalogInfo.

(** [(a, b) => catalogInfo[a].priority - catalogInfo[b].priority] *)
Definition by_priority (a b : value) : result (option Z) :=
  match info_of a, info_of b with
  | Some (_, pa), Some (_, pb) => Ok (Some (pa - pb)%Z)
  | _, _ => Throw TypeError
  end.

Definition updateStats (events : value) : M unit :=
  totalCount ← lift (length_of events);
  bbhCount ← lift (count_type "BBH" events);
  nsbhCount ← lift (count_type "NSBH" events);
  bnsCount ← lift (count_type "BNS" events);
  update "totalEvents" (set_textContent totalCount);;
  update "bbhCount" (set_textContent bbhCount);;
  update "nsbhCount" (set_textContent nsbhCount);;
  update "bnsCount" (set_textContent bnsCount).

(** The three conditional [traces.push(createTrace(...))] of
    [createPlot]. *)
Definition push_trace (subset : list value) (name color : string)
    (traces : list trace) : result (list trace) :=
  match subset with
  | [] => Ok traces
  | _ :: _ => t ← createTrace subset name color; Ok (traces ++ [t])
  end.

Definition mass_traces (events : value) : result (list trace) :=
  l ← array_of events;
  bbhEvents ← filterM (has_type "BBH") l;
  nsbhEvents ← filterM (has_type "NSBH") l;
  bnsEvents ← filterM (has_type "BNS") l;
  traces ← push_trace bbhEvents "BBH (Binary Black Hole)" "#9b59b6" [];
  traces ← push_trace nsbhEvents "NSBH (NS-BH)" "#e67e22" traces;
  push_trace bnsEvents "BNS (Binary NS)" "#3498db" traces.

(** [Plotly.newPlot('massPlot', ...)] looks the element up by its id
    and throws when there is none; the click handler is registered on
    the plotted element. *)
Definition createPlot (events : value) : M unit :=
  traces ← lift (mass_traces events);
  plot ← getElementById "massPlot";
  match plot with
  | None => throw (Error "No DOM element with id 'massPlot'")
  | Some _ =>
      update "massPlot" (newPlot traces);;
      update "massPlot" addEventListener
  end.

Definition updateFilterInfo (displayed total : value) : M unit :=
  data ← read_allEventsData;
  unique_events ← lift (get data "unique_events");
  let uniqueCount := or_else unique_events total in
  update "filterInfo" (set_textContent (Str
    (if strict_eq displayed uniqueCount
     then "Showing all " +:+ ToString uniqueCount +:+ " unique events"
     else "Showing " +:+ ToString displayed +:+ " of "
            +:+ ToString uniqueCount +:+ " events"))).

Definition displayEvents (events : value) : M unit :=
  updateStats events;;
  createPlot events;;
  displayed ← lift (length_of events);
  data ← read_allEventsData;
  total ← lift (get data "event_count");
  updateFilterInfo displayed total.

(** [allEventsList.filter(event => event.catalog === selectedCatalog)] *)
Definition in_catalog (selectedCatalog : string) (event : value)
    : result bool :=
  c ← get event "catalog"; Ok (strict_eq c (Str selectedCatalog)).

(** The sequence the [change] handler passes on for the selection
    [e.target.value]. *)
Definition selected_events (selectedCatalog : string) : M value :=
  if strict_eq (Str selectedCatalog) (Str "all")
  then data ← read_allEventsData; lift (get data "events")
  else
    all ← read_allEventsList;
    lift (l ← array_of all;
          filtered ← filterM (in_catalog selectedCatalog) l;
          Ok (Arr filtered)).

Definition onCatalogChange (selectedCatalog : string) : M unit :=
  events ← selected_events selectedCatalog;
  displayEvents events.

(** [c => c && c !== 'unknown'] *)
Definition named_catalog (c : value) : bool :=
  truthy (and_then c (Boolean (negb (strict_eq c (Str "unknown"))))).

Definition populateCatalogFilter (events : value) : M unit :=
  all ← read_allEventsList;
  sortedCatalogs ← lift (
    l ← array_of all;
    cs ← mapM (fun e => get e "catalog") l;
    let uniqueCatalogs := List.filter named_catalog (set_of [] cs) in
    sort_by by_priority
      (List.filter (fun c => bool_decide (is_Some (info_of c))) uniqueCatalogs));
  update "catalogFilter" (set_innerHTML all_option);;
  forEach (fun catalog =>
    match info_of catalog with
    | Some (display, _) =>
        update "catalogFilter"
          (appendChild {| opt_value := catalog; opt_text := Str display |})
    | None => throw TypeError
    end) sortedCatalogs;;
  update "catalogFilter" addEventListener.

(** The [try] block of [loadData]. *)
Definition loadData_try (response : fetched) : M unit :=
  data ← match response with
         | NetworkFailure => throw TypeError
         | Response false _ => throw (Error "Failed to load data")
         | Response true NotJson => throw SyntaxError
         | Response true (Json data) => mret data
         end;
  assign_allEventsData data;;
  all_events ← lift (get data "all_events");
  all ← (if truthy all_events then mret all_events
         else lift (get data "events"));
  assign_allEventsList all;;
  events ← lift (get data "events");
  populateCatalogFilter events;;
  displayEvents events;;
  updated ← lift (get data "updated");
  update "lastUpdate"
    (set_textContent (Str (Date_toLocaleString updated +:+ " UTC")));;
  update "closeDetailPanel" addEventListener.

(** The [catch] block of [loadData]. *)
Definition loadData_catch (e : error) : M unit :=
  update "massPlot" (set_innerHTML failure_notice).

Definition loadData (response : fetched) : M unit :=
  try_catch (loadData_try response) loadData_catch.

End Script.
End Docs.

(** ** The revision with the per-type timeline *)

Module Plots.
Import JS Page Common.

Section Script.
Context `{Builtins}.

Definition no_spin_notice : string :=
  "<div style=" +:+ dq +:+ "text-align:center;padding:2rem;color:#999;"
    +:+ dq +:+ ">No spin data available for current selection</div>".

(** [e => e.chi_eff !== null && e.chi_eff !== undefined] *)
Definition has_spin (e : value) : result bool :=
  chi ← get e "chi_eff";
  Ok (negb (strict_eq chi Null) && negb (strict_eq chi Undefined)).

Definition histogram (xs : list value) : trace :=
  {| tr_x := xs; tr_y := None; tr_type := "histogram"; tr_mode := None;
     tr_name := None; tr_size := None; tr_color := Some "#9b59b6" |}.

Definition createSpinPlot (events : value) : M unit :=
  eventsWithSpin ← lift (l ← array_of events; filterM has_spin l);
  match eventsWithSpin with
  | [] => update "spinPlot" (set_innerHTML no_spin_notice)
  | _ :: _ =>
      spinValues ← lift (mapM (fun e => get e "chi_eff") eventsWithSpin);
      plot ← getElementById "spinPlot";
      match plot with
      | None => throw (Error "No DOM element with id 'spinPlot'")
      | Some _ => update "spinPlot" (newPlot [histogram spinValues])
      end
  end.

(** [(a, b) => new Date(a.detection_date) - new Date(b.detection_date)] *)
Definition by_date (a b : value) : result (option Z) :=
  da ← get a "detection_date";
  db ← get b "detection_date";
  Ok (match Date_time da, Date_time db with
      | Some ta, Some tb => Some (ta - tb)%Z
      | _, _ => None
      end).

(** The arrays and counters of the [sortedEvents.forEach] loop. *)
Record tally := {
  dates : list value;
  counts : list value;
  bbhCounts : list value;
  nsbhCounts : list value;
  bnsCounts : list value;
  totalCount : nat;
  bbhCount : nat;
  nsbhCount : nat;
  bnsCount : nat
}.

Definition start : tally :=
  {| dates := []; counts := []; bbhCounts := []; nsbhCounts := [];
     bnsCounts := []; totalCount := 0; bbhCount := 0; nsbhCount := 0;
     bnsCount := 0 |}.

(** One round of the loop body. *)
Definition step (t : tally) (event : value) : result tally :=
  d ← get event "detection_date";
  if strict_eq d (Str "Unknown") then Ok t
  else
    st ← get event "source_type";
    let total := S (totalCount t) in
    let bbh := if strict_eq st (Str "BBH") then S (bbhCount t) else bbhCount t in
    let nsbh := if strict_eq st (Str "NSBH") then S (nsbhCount t) else nsbhCount t in
    let bns := if strict_eq st (Str "BNS") then S (bnsCount t) else bnsCount t in
    Ok {| dates := dates t ++ [d];
          counts := counts t ++ [of_nat total];
          bbhCounts := bbhCounts t ++ [of_nat bbh];
          nsbhCounts := nsbhCounts t ++ [of_nat nsbh];
          bnsCounts := bnsCounts t ++ [of_nat bns];
          totalCount := total; bbhCount := bbh; nsbhCount := nsbh;
          bnsCount := bns |}.

Fixpoint run (sortedEvents : list value) (t : tally) : result tally :=
  match sortedEvents with
  | [] => Ok t
  | event :: rest => t' ← step t event; run rest t'
  end.

Definition line (xs ys : list value) (name : string) : trace :=
  {| tr_x := xs; tr_y := Some ys; tr_type := "scatter";
     tr_mode := Some "lines"; tr_name := Some name; tr_size := None;
     tr_color := None |}.

(** In this revision the records without a date are still in the array
    when it is sorted; they are skipped in the loop that follows. *)
Definition timeline (events : value) : result (list trace) :=
  l ← spread events;
  sortedEvents ← sort_by by_date l;
  t ← run sortedEvents start;
  Ok [ line (dates t) (counts t) "Total";
       line (dates t) (bbhCounts t) "BBH";
       line (dates t) (nsbhCounts t) "NSBH";
       line (dates t) (bnsCounts t) "BNS" ].

Definition createTimelinePlot (events : value) : M unit :=
  traces ← lift (timeline events);
  plot ← getElementById "timelinePlot";
  match plot with
  | None => throw (Error "No DOM element with id 'timelinePlot'")
  | Some _ => update "timelinePlot" (newPlot traces)
  end.

End Script.
End Plots.

(** ** The first revision, where the catalogue tag is the [version] member *)

Module Versioned.
Import JS Page.

(** [allEventsData.events.filter(event => event.version ===
    selectedCatalog)] *)
Definition in_catalog (selectedCatalog : string) (event : value)
    : result bool :=
  v ← get event "version"; Ok (strict_eq v (Str selectedCatalog)).

(** The sequence the [change] handler passes to [displayEvents]. *)
Definition selected_events (selectedCatalog : string) : M value :=
  data ← read_allEventsData;
  events ← lift (get data "events");
  if strict_eq (Str selectedCatalog) (Str "all") then mret events
  else
    lift (l ← array_of events;
          filtered ← filterM (in_catalog selectedCatalog) l;
          Ok (Arr filtered)).

End Versioned.

(** ** Event records, read without effects

    The data schema makes every element of the event arrays a JSON
    object.  On such records member access cannot throw, and the views
    below say what the scripts compute. *)

Module Records.
Import JS.

Definition is_record (v : value) : bool :=
  match v with
  | Obj _ => true
  | _ => false
  end.

Definition records (l : list value) : Prop :=
  Forall (fun e => is_record e = true) l.

(** [e.k] on a record *)
Definition field (k : string) (e : value) : value :=
  match e with
  | Obj ms => member k ms
  | _ => Undefined
  end.

(** The record's [source_type] is exactly the string [type]. *)
Definition typed (type : string) (e : value) : bool :=
  strict_eq (field "source_type" e) (Str type).

Definition known (e : value) : bool :=
  typed "BBH" e || typed "NSBH" e || typed "BNS" e.

Definition of_type (type : string) (l : list value) : list value :=
  List.filter (typed type) l.

(** The elements [id] that a script writes without a null check. *)
Definition present (ids : list string) (pg : Page.page) : Prop :=
  Forall (fun id => is_Some (Page.document pg !! id)) ids.

(** What the script last put into the element [id]. *)
Definition showing (pg : Page.page) (id : string) : option Page.content :=
  Page.shown <$> Page.document pg !! id.

(** The signal-to-noise ratio of the schema: a number, [null] or
    absent. *)
Definition snr_of_schema (e : value) : Prop :=
  field "snr" e = Undefined \/ field "snr" e = Null
  \/ exists q, field "snr" e = Num q.

(** The ratio that sizes the marker: the record's [snr] when it is
    there and not zero, ten otherwise. *)
Definition effective_snr (e : value) : Q :=
  match field "snr" e with
  | Num q => if Qeq_bool q 0 then 10%Q else q
  | _ => 10%Q
  end.

Definition clamp (s : Q) : Q := Qmax 8 (Qmin 25 s).

Section Views.
Context `{Builtins}.

(** The marker size of a record, whatever its [snr] is. *)
Definition size_of (e : value) : option Q :=
  Math_max (Some 8%Q)
    (Math_min (Some 25%Q) (ToNumber (or_else (field "snr" e) (Num 10%Q)))).

(** The scatter trace of a list of records. *)
Definition scatter (events : list value) (name color : string)
    : Page.trace :=
  {| Page.tr_x := List.map (field "m1") events;
     Page.tr_y := Some (List.map (field "m2") events);
     Page.tr_type := "scatter";
     Page.tr_mode := Some "markers";
     Page.tr_name := Some name;
     Page.tr_size := Some (List.map size_of events);
     Page.tr_color := Some color |}.

(** The trace of one source type: none when no record has the type. *)
Definition trace_of (events : list value) (type name color : string)
    : list Page.trace :=
  match of_type type events with
  | [] => []
  | _ :: _ => [scatter (of_type type events) name color]
  end.

(** The traces of the mass plot, in the order BBH, NSBH, BNS. *)
Definition mass_plot (events : list value) : list Page.trace :=
  trace_of events "BBH" "BBH (Binary Black Hole)" "#9b59b6"
  ++ trace_of events "NSBH" "NSBH (NS-BH)" "#e67e22"
  ++ trace_of events "BNS" "BNS (Binary NS)" "#3498db".

End Views.

(** The number of points plotted by a list of traces. *)
Definition points (traces : list Page.trace) : nat :=
  list_sum (List.map (fun t => length (Page.tr_x t)) traces).

(** *** Dates *)

Section Dates.
Context `{Builtins}.

(** The schema's [detection_date]: the sentinel, or a calendar date,
    that is a string the host parses. *)
Definition undated (e : value) : Prop :=
  field "detection_date" e = Str "Unknown".

Definition calendar_dated (e : value) : Prop :=
  exists s, field "detection_date" e = Str s /\ s <> EmptyString
            /\ s <> "Unknown" /\ is_Some (Date_time (Str s)).

Definition schema_dated (e : value) : Prop :=
  undated e \/ calendar_dated e.

(** The record's date is not the sentinel. *)
Definition dated (e : value) : bool :=
  negb (strict_eq (field "detection_date" e) (Str "Unknown")).

(** The record's date as a time value, in milliseconds. *)
Definition time_of (e : value) : Z :=
  default 0%Z (Date_time (field "detection_date" e)).

End Dates.

(** Insertion sort on an integer key, stable: the reference for
    [sort_by] on a comparator that is the difference of keys. *)
Fixpoint insert_on (key : value -> Z) (a : value) (l : list value)
    : list value :=
  match l with
  | [] => [a]
  | b :: l' =>
      if (key b <? key a)%Z then b :: insert_on key a l'
      else a :: b :: l'
  end.

Fixpoint sort_on (key : value -> Z) (l : list value) : list value :=
  match l with
  | [] => []
  | a :: l' => insert_on key a (sort_on key l')
  end.

(** The order of the keys. *)
Definition le_on (key : value -> Z) (a b : value) : Prop :=
  (key a <= key b)%Z.

(** *** The shape of a catalogue document *)



(** The page after the four statistics cards have been written. *)
Definition stats_page (events : list value) (pg : Page.page) : Page.page :=
  Page.write "bnsCount"
    (Page.set_textContent (of_nat (length (of_type "BNS" events))))
    (Page.write "nsbhCount"
       (Page.set_textContent (of_nat (length (of_type "NSBH" events))))
       (Page.write "bbhCount"
          (Page.set_textContent (of_nat (length (of_type "BBH" events))))
          (Page.write "totalEvents"
             (Page.set_textContent (of_nat (length events))) pg))).

(** *** The default view *)

(** One record per event name. *)
Definition one_per_name (l : list value) : Prop :=
  NoDup (List.map (field "name") l).

(** [allEventsData.unique_events || allEventsData.event_count] *)
Definition unique_count (data : value) : value :=
  or_else (field "unique_events" data) (field "event_count" data).

(** The text of the filter line of [docs/script.js]. *)
Definition info_line `{Builtins} (displayed uniqueCount : value) : string :=
  if strict_eq displayed uniqueCount
  then "Showing all " +:+ ToString uniqueCount +:+ " unique events"
  else "Showing " +:+ ToString displayed +:+ " of "
         +:+ ToString uniqueCount +:+ " events".

(** The elements [displayEvents] of [docs/script.js] writes to. *)
Definition view_ids : list string :=
  [ "totalEvents"; "bbhCount"; "nsbhCount"; "bnsCount"; "massPlot";
    "filterInfo" ].

(** The page after [displayEvents] of [docs/script.js] has shown the
    records [events] of the snapshot [data]. *)
Definition docs_view `{Builtins} (events : list value) (data : value)
    (pg : Page.page) : Page.page :=
  Page.write "filterInfo"
    (Page.set_textContent
       (Str (info_line (of_nat (length events)) (unique_count data))))
    (Page.write "massPlot" Page.addEventListener
       (Page.write "massPlot" (Page.newPlot (mass_plot events))
          (stats_page events pg))).

(** The elements outside [ids] are as they were. *)
Definition unchanged_outside (ids : list string) (pg pg' : Page.page)
    : Prop :=
  forall id, ~ In id ids -> Page.document pg' !! id = Page.document pg !! id.

End Records.

(** ** A host and pages for worked examples *)

Module Host.
Import JS.

Definition digit (c : Ascii.ascii) : option Z :=
  let n := Z.of_nat (Ascii.nat_of_ascii c) in
  if (48 <=? n)%Z && (n <=? 57)%Z then Some (n - 48)%Z else None.

Fixpoint number (cs : list Ascii.ascii) (acc : Z) : option Z :=
  match cs with
  | [] => Some acc
  | c :: cs' => d ← digit c; number cs' (10 * acc + d)%Z
  end.

(** Days from 1970-01-01 to the day [d] of month [m] of year [y]. *)
Definition days_from_civil (y m d : Z) : Z :=
  let y' := (if m <=? 2 then y - 1 else y)%Z in
  let era := (y' / 400)%Z in
  let yoe := (y' - era * 400)%Z in
  let mp := ((m + 9) mod 12)%Z in
  let doy := ((153 * mp + 2) / 5 + d - 1)%Z in
  let doe := (yoe * 365 + yoe / 4 - yoe / 100 + doy)%Z in
  (era * 146097 + doe - 719468)%Z.

(** The time value of a date written [YYYY-MM-DD]. *)
Definition iso_date (s : string) : option Z :=
  match String.list_ascii_of_string s with
  | [y1; y2; y3; y4; h1; m1; m2; h2; d1; d2] =>
      if Ascii.eqb h1 "-"%char && Ascii.eqb h2 "-"%char then
        y ← number [y1; y2; y3; y4] 0%Z;
        m ← number [m1; m2] 0%Z;
        d ← number [d1; d2] 0%Z;
        if (1 <=? m)%Z && (m <=? 12)%Z && (1 <=? d)%Z && (d <=? 31)%Z
        then Some (days_from_civil y m d * 86400000)%Z
        else None
      else None
  | _ => None
  end.

(** A host that reads ISO dates and prints whole numbers; the other
    conversions are not exercised by the examples. *)
Definition sample : Builtins := {|
  ToString_ext := fun v =>
    match v with
    | Num q => if (Z.pos (Qden q) =? 1)%Z then pretty (Qnum q) else "NaN"
    | Null => "null"
    | Undefined => "undefined"
    | Boolean b => if b then "true" else "false"
    | _ => "[object Object]"
    end;
  ToNumber_ext := fun _ => None;
  js_plus := fun a b =>
    match a, b with
    | Num x, Num y => Num (x + y)%Q
    | _, _ => Undefined
    end;
  Date_time := fun v =>
    match v with
    | Str s => iso_date s
    | _ => None
    end;
  Date_toLocaleString := fun _ => "Invalid Date";
  sort_default := fun l => l
|}.

End Host.

Module Samples.
Import JS Page.

(** A page with every element the scripts look up, untouched. *)
Definition ids : list string :=
  [ "massPlot"; "totalEvents"; "bbhCount"; "nsbhCount"; "bnsCount";
    "filterInfo"; "catalogFilter"; "lastUpdate"; "closeDetailPanel";
    "massHistogram"; "spinPlot"; "timelinePlot" ].

Definition fresh : page :=
  {| document := list_to_map (List.map (fun id => (id, blank)) ids);
     allEventsData := Null;
     allEventsList := Arr [] |}.

Definition event (name type catalog date : string) (m1 m2 : Q)
    (snr chi_eff : value) : value :=
  Obj [ ("name", Str name); ("m1", Num m1); ("m2", Num m2); ("snr", snr);
        ("source_type", Str type); ("catalog", Str catalog);
        ("detection_date", Str date); ("chi_eff", chi_eff) ].

Definition gw150914 : value :=
  event "GW150914" "BBH" "GWTC-1-confident" "2015-09-14"
    (362 # 10) (291 # 10) (Num (237 # 10)) (Num (-1 # 100)).

Definition gw170817 : value :=
  event "GW170817" "BNS" "GWTC-1-confident" "Unknown"
    (146 # 100) (127 # 100) Null Null.

Definition gw200115 : value :=
  event "GW200115" "NSBH" "GWTC-3-confident" "2020-01-01"
    (59 # 10) (14 # 10) (Num 0) Undefined.

Definition gw230529 : value :=
  event "GW230529" "nsbh" "GWTC-4.0" "2023-05-01"
    (36 # 10) (14 # 10) (Num 30) (Num (1 # 10)).

(** The dates of the specification's timeline example, in its order. *)
Definition events : list value :=
  [ gw230529; gw170817; gw200115; gw150914 ].

Definition snapshot : value :=
  Obj [ ("updated", Str "2024-01-01T00:00:00Z"); ("event_count", Num 4);
        ("events", Arr events) ].

(** Two catalogue versions of one event listed in [events] itself. *)
Definition gw190521_v1 : value :=
  event "GW190521" "BBH" "GWTC-2.1-confident" "2019-05-21"
    (985 # 10) (571 # 10) (Num (146 # 10)) (Num (3 # 100)).

Definition gw190521_v2 : value :=
  event "GW190521" "BBH" "GWTC-3-confident" "2019-05-21"
    (951 # 10) (690 # 10) (Num (143 # 10)) (Num (6 # 100)).

Definition repeated : value :=
  Obj [ ("updated", Str "2024-01-01T00:00:00Z"); ("event_count", Num 2);
        ("unique_events", Num 1);
        ("events", Arr [gw190521_v1; gw190521_v2]);
        ("all_events", Arr [gw190521_v1; gw190521_v2]) ].

(** The page once [docs/script.js] has loaded a document. *)
Definition loaded (data : value) : page :=
  snd (Docs.loadData (H := Host.sample) (Response true (Json data)) fresh).

End Samples.

(** ** The click handler of the published script

    [createPlot] of [docs/script.js] registers a [plotly_click] handler
    that finds the clicked record again from the number of the trace and
    the index of the point, in the three lists it plotted from. *)

Module Click.
Import JS Page Common.

(** [l[i]]: [undefined] past the end *)
Definition at_index (l : list value) (i : nat) : value :=
  default Undefined (l !! i).

(** The record the handler passes to [showEventDetails]. *)
Definition clickedEvent (bbhEvents nsbhEvents bnsEvents : list value)
    (curveNumber pointIndex : nat) : value :=
  if (curveNumber =? 0) && (0 <? length bbhEvents)
  then at_index bbhEvents pointIndex
  else if ((curveNumber =? 1) && (0 <? length nsbhEvents))
          || ((curveNumber =? 0) && (length bbhEvents =? 0))
  then at_index nsbhEvents pointIndex
  else at_index bnsEvents pointIndex.

(** The handler on the plot that [createPlot(events)] made: the three
    lists are the ones the closure captured. *)
Definition onPlotClick (events : value) (curveNumber pointIndex : nat)
    : result value :=
  l ← array_of events;
  bbhEvents ← filterM (has_type "BBH") l;
  nsbhEvents ← filterM (has_type "NSBH") l;
  bnsEvents ← filterM (has_type "BNS") l;
  Ok (clickedEvent bbhEvents nsbhEvents bnsEvents curveNumber pointIndex).

End Click.

(** ** The catalogue selector of the published script *)

Module Selector.
Import JS Page Records.

(** The names every JavaScript object inherits from [Object.prototype]:
    [catalogInfo[c]] finds a value for them although the table does not
    list them. *)
Definition inherited : list string :=
  [ "constructor"; "hasOwnProperty"; "isPrototypeOf";
    "propertyIsEnumerable"; "toLocaleString"; "toString"; "valueOf";
    "__proto__"; "__defineGetter__"; "__defineSetter__";
    "__lookupGetter__"; "__lookupSetter__" ].

(** The [catalog] member of the schema: absent, [null] or a string,
    which is a tag of a catalogue and no inherited name. *)
Definition catalog_of_schema (e : value) : Prop :=
  field "catalog" e = Undefined \/ field "catalog" e = Null
  \/ exists s, field "catalog" e = Str s /\ ~ In s inherited.

(** A value that [===] compares by content. *)
Definition simple (v : value) : Prop :=
  match v with
  | Undefined | Null | Str _ => True
  | _ => False
  end.

(** The tags of the [catalogInfo] table. *)
Definition listed_tags : list string := List.map fst Docs.catalogInfo.

(** The element with the options [os] appended. *)
Definition append_all (os : list option_element) (el : element) : element :=
  {| shown := shown el; appended := appended el ++ os;
     listeners := listeners el |}.

(** The records the [change] handler shows for the tag [s]. *)
Definition carrying (s : string) (all : list value) : list value :=
  List.filter (fun e => strict_eq (field "catalog" e) (Str s)) all.

Section Views.
Context `{Builtins}.

(** [c => catalogInfo[c]] as a test *)
Definition listed (c : value) : bool :=
  bool_decide (is_Some (Docs.info_of c)).

(** [catalogInfo[c].priority] and [catalogInfo[c].display] of a listed
    catalogue *)
Definition priority (c : value) : Z :=
  match Docs.info_of c with
  | Some (_, p) => p
  | None => 0%Z
  end.

Definition display (c : value) : value :=
  match Docs.info_of c with
  | Some (d, _) => Str d
  | None => Undefined
  end.

(** The catalogues offered for the records [all], in the order of the
    options. *)
Definition offered (all : list value) : list value :=
  sort_on priority
    (List.filter listed
       (List.filter Docs.named_catalog
          (set_of [] (List.map (field "catalog") all)))).

Definition option_of (c : value) : option_element :=
  {| opt_value := c; opt_text := display c |}.

(** The selector once [populateCatalogFilter] has run on the element
    [el]. *)
Definition selector (all : list value) (el : element) : element :=
  {| shown := InnerHTML Docs.all_option;
     appended := List.map option_of (offered all);
     listeners := S (listeners el) |}.

End Views.
End Selector.

(** ** What the fail-soft script displays *)

Module Display.
Import JS Page Records.

(** [l.sort(cmp)] for a comparator that does not throw: [d a b] is the
    difference it returns, [None] for [NaN]. *)
Fixpoint insert_with (d : value -> value -> option Z) (a : value)
    (l : list value) : list value :=
  match l with
  | [] => [a]
  | b :: l' =>
      if negative (d b a) then b :: insert_with d a l' else a :: b :: l'
  end.

Fixpoint sort_with (d : value -> value -> option Z) (l : list value)
    : list value :=
  match l with
  | [] => []
  | a :: l' => insert_with d a (sort_with d l')
  end.

(** The elements the fail-soft [displayEvents] writes to, and all those
    its loader writes to. *)
Definition view_ids : list string :=
  [ "totalEvents"; "bbhCount"; "nsbhCount"; "bnsCount"; "filterInfo";
    "massPlot"; "massHistogram"; "spinPlot"; "timelinePlot" ].

Definition loader_ids : list string :=
  "catalogFilter" :: "lastUpdate" :: view_ids.

(** Between two pages the script only wrote to elements of [ids]: the
    others are as they were and no element appeared or disappeared. *)
Definition wrote_only (ids : list string) (pg pg' : page) : Prop :=
  unchanged_outside ids pg pg' /\
  forall id, document pg' !! id = None <-> document pg !! id = None.

Section Views.
Context `{Builtins}.

(** [e.detection_date && e.detection_date !== 'Unknown'] on a record *)
Definition has_date (e : value) : bool :=
  truthy (and_then (field "detection_date" e)
            (Boolean (negb (strict_eq (field "detection_date" e)
                              (Str "Unknown"))))).

(** [new Date(a.detection_date) - new Date(b.detection_date)] on
    records *)
Definition date_difference (a b : value) : option Z :=
  match Date_time (field "detection_date" a),
        Date_time (field "detection_date" b) with
  | Some ta, Some tb => Some (ta - tb)%Z
  | _, _ => None
  end.

(** The records of the timeline, in its order. *)
Definition on_timeline (events : list value) : list value :=
  sort_with date_difference (List.filter has_date events).

Definition timeline (events : list value) : trace :=
  {| tr_x := List.map (field "detection_date") (on_timeline events);
     tr_y := Some (List.map of_nat (seq 1 (length (on_timeline events))));
     tr_type := "scatter";
     tr_mode := Some "lines";
     tr_name := Some "Cumulative detections";
     tr_size := None;
     tr_color := None |}.

Definition histograms (events : list value) : list trace :=
  [ Robust.histogram (List.map (field "m1") events) (Some "M₁");
    Robust.histogram (List.map (field "m2") events) (Some "M₂");
    Robust.histogram
      (List.map (fun e => js_plus (field "m1" e) (field "m2" e)) events)
      (Some "M_total") ].

Definition spin_values (events : list value) : list value :=
  List.filter Robust.has_value (List.map (field "chi_eff") events).

Definition spin (events : list value) : element -> element :=
  match spin_values events with
  | [] => set_innerHTML Robust.no_spin_notice
  | _ :: _ => newPlot [Robust.histogram (spin_values events) None]
  end.

Definition filter_line (displayed total : value) : string :=
  if strict_eq displayed total
  then "Showing all " +:+ ToString total +:+ " events"
  else "Showing " +:+ ToString displayed +:+ " of "
         +:+ ToString total +:+ " events".

(** The page after the fail-soft [displayEvents] has shown the records
    [events] out of [total]. *)
Definition view (events : list value) (total : value) (pg : page) : page :=
  write "timelinePlot" (newPlot [timeline events])
    (write "spinPlot" (spin events)
       (write "massHistogram" (newPlot (histograms events))
          (write "massPlot" (newPlot (mass_plot events))
             (write "filterInfo"
                (set_textContent
                   (Str (filter_line (of_nat (length events)) total)))
                (stats_page events pg))))).

(** The records the fail-soft [change] handler shows for [selected]. *)
Definition selection (selected : string) (events : list value)
    : list value :=
  if strict_eq (Str selected) (Str "all") then events
  else List.filter
         (fun e => strict_eq (field "catalog" e) (Str selected)) events.

(** The options the fail-soft [populateCatalogFilter] appends: value
    and label are the tag itself. *)
Definition own_option (c : value) : option_element :=
  {| opt_value := c; opt_text := c |}.

Definition offered (events : list value) : list value :=
  sort_default
    (List.filter Robust.named_catalog
       (set_of [] (List.map (field "catalog") events))).

Definition selector (events : list value) (el : element) : element :=
  {| shown := shown el;
     appended := appended el ++ List.map own_option (offered events);
     listeners := S (listeners el) |}.


(** A fetch that delivers no document: the request fails or the status
    is not a success. *)
Definition unreachable (response : fetched) : Prop :=
  match response with
  | NetworkFailure => True
  | Response ok _ => ok = false
  end.

End Views.
End Display.

(** ** What a computation leaves alone *)

Module Frame.
Import JS Page Records.

(** Every run of [m], normal or not, relates the page before to the
    page after by [R]. *)
Definition stays {A} (R : page -> page -> Prop) (m : M A) : Prop :=
  forall pg r pg', m pg = (r, pg') -> R pg pg'.

(** Only elements of [ids] were written to, none appeared or
    disappeared, and the flat list of all versions is the same. *)
Definition within (ids : list string) (pg pg' : page) : Prop :=
  Display.wrote_only ids pg pg' /\ allEventsList pg' = allEventsList pg.

(** The elements the published script writes to. *)
Definition docs_ids : list string :=
  "catalogFilter" :: "lastUpdate" :: "closeDetailPanel" :: Records.view_ids.

(** The same, and the loaded document is the same as well. *)
Definition display_only (ids : list string) (pg pg' : page) : Prop :=
  within ids pg pg' /\ allEventsData pg' = allEventsData pg.

End Frame.

(** ** The lines of the per-type timeline *)

Module Tallies.
Import JS Page Records.

(** A per-type line: the number of records of [type] so far, after each
    record of [l], counted on from [c]. *)
Fixpoint running (type : string) (c : nat) (l : list value) : list value :=
  match l with
  | [] => []
  | e :: l' =>
      let c' := if typed type e then S c else c in
      of_nat c' :: running type c' l'
  end.

Section Views.
Context `{Builtins}.

(** The records on the per-type timeline, in its order: sorted first,
    then those dated 'Unknown' skipped. *)
Definition plotted (events : list value) : list value :=
  List.filter dated (Display.sort_with Display.date_difference events).

Definition lines (events : list value) : list trace :=
  let ds := List.map (field "detection_date") (plotted events) in
  [ Plots.line ds (List.map of_nat (seq 1 (length (plotted events))))
      "Total";
    Plots.line ds (running "BBH" 0 (plotted events)) "BBH";
    Plots.line ds (running "NSBH" 0 (plotted events)) "NSBH";
    Plots.line ds (running "BNS" 0 (plotted events)) "BNS" ].

End Views.
End Tallies.

(** ** Array elements that are no records *)

Module Shape.
Import JS.

(** An array element that is no object at all. *)
Definition no_object (e : value) : Prop := e = Null \/ e = Undefined.

End Shape.

(** ** The detail panel of the published script

    [showEventDetails] fills the panel of one event.  The panel's
    elements are outside the contents the page model keeps: what the
    function puts into them is returned as a [detail], the data the
    markup is built from, and of the elements only their presence
    matters, an assignment to a member of a missing one being a
    TypeError. *)

Module Details.
Import JS Page Common.

(** One card of the list of versions. *)
Record card := {
  card_catalog : value;
  (** [version.catalog === event.catalog] *)
  card_primary : bool;
  card_m1 : value;
  card_m2 : value;
  (** the lines a card has only for some versions *)
  card_total : option value;
  card_distance : option value;
  card_chi_eff : option value;
  card_final_mass : option value
}.

Record detail := {
  detail_name : value;
  (** label and value of each parameter, in the order of the panel *)
  detail_parameters : list (string * value);
  (** the cards of the versions; [None] when the section is hidden *)
  detail_versions : option (list card)
}.

(** The elements of the panel. *)
Definition detail_ids : list string :=
  [ "eventDetailPanel"; "detailEventName"; "primaryParameters";
    "versionsSection"; "versionsList" ].

(** An assignment to a member of [getElementById(id)] *)
Definition assigned (el : option element) : M unit :=
  match el with
  | Some _ => mret tt
  | None => throw TypeError
  end.

Definition shown_if (b : bool) (v : value) : option value :=
  if b then Some v else None.

Section Script.
Context `{Builtins}.

(** [`${v} M☉`] and the like *)
Definition with_unit (v : value) (unit : string) : value :=
  Str (ToString v +:+ unit).

(** [v ? `${v} M☉` : 'N/A'] *)
Definition measured (v : value) (unit : string) : value :=
  if truthy v then with_unit v unit else Str "N/A".

(** [v !== null ? v : 'N/A'] *)
Definition unless_null (v : value) : value :=
  if strict_eq v Null then Str "N/A" else v.

(** The [parameters] array. *)
Definition parameters (event : value) : result (list (string * value)) :=
  name ← get event "name";
  detection_date ← get event "detection_date";
  source_type ← get event "source_type";
  m1 ← get event "m1";
  m2 ← get event "m2";
  snr ← get event "snr";
  total_mass_source ← get event "total_mass_source";
  chirp_mass_source ← get event "chirp_mass_source";
  luminosity_distance ← get event "luminosity_distance";
  redshift ← get event "redshift";
  chi_eff ← get event "chi_eff";
  final_mass_source ← get event "final_mass_source";
  final_spin ← get event "final_spin";
  catalog ← get event "catalog";
  Ok [ ("Event Name", name);
       ("Detection Date", detection_date);
       ("Source Type", source_type);
       ("Primary Mass (M₁)", with_unit m1 " M☉");
       ("Secondary Mass (M₂)", with_unit m2 " M☉");
       ("SNR", or_else snr (Str "N/A"));
       ("Total Mass", measured total_mass_source " M☉");
       ("Chirp Mass", measured chirp_mass_source " M☉");
       ("Distance", measured luminosity_distance " Mpc");
       ("Redshift", or_else redshift (Str "N/A"));
       ("Effective Spin (χₑff)", unless_null chi_eff);
       ("Final Mass", measured final_mass_source " M☉");
       ("Final Spin", unless_null final_spin);
       ("Primary Catalog", catalog) ].

(** [e => e.name === event.name] *)
Definition same_name (event e : value) : result bool :=
  a ← get e "name";
  b ← get event "name";
  Ok (strict_eq a b).

(** The callback of [allVersions.map]. *)
Definition version_card (event version : value) : result card :=
  catalog ← get version "catalog";
  primary ← get event "catalog";
  m1 ← get version "m1";
  m2 ← get version "m2";
  total_mass_source ← get version "total_mass_source";
  luminosity_distance ← get version "luminosity_distance";
  chi_eff ← get version "chi_eff";
  final_mass_source ← get version "final_mass_source";
  Ok {| card_catalog := catalog;
        card_primary := strict_eq catalog primary;
        card_m1 := m1;
        card_m2 := m2;
        card_total := shown_if (truthy total_mass_source) total_mass_source;
        card_distance :=
          shown_if (truthy luminosity_distance) luminosity_distance;
        card_chi_eff := shown_if (negb (strict_eq chi_eff Null)) chi_eff;
        card_final_mass :=
          shown_if (truthy final_mass_source) final_mass_source |}.

Definition showEventDetails (event : value) : M detail :=
  panel ← getElementById "eventDetailPanel";
  eventName ← getElementById "detailEventName";
  primaryParams ← getElementById "primaryParameters";
  versionsSection ← getElementById "versionsSection";
  versionsList ← getElementById "versionsList";
  name ← lift (get event "name");
  assigned eventName;;
  params ← lift (parameters event);
  assigned primaryParams;;
  all ← read_allEventsList;
  allVersions ← lift (l ← array_of all; filterM (same_name event) l);
  versions ← (if 1 <? length allVersions
              then assigned versionsSection;;
                   cards ← lift (mapM (version_card event) allVersions);
                   assigned versionsList;;
                   mret (Some cards)
              else assigned versionsSection;; mret None);
  assigned panel;;
  mret {| detail_name := name; detail_parameters := params;
          detail_versions := versions |}.

(** The [plotly_click] handler on the plot of [events]. *)
Definition onClick (events : value) (curveNumber pointIndex : nat)
    : M detail :=
  clickedEvent ← lift (Click.onPlotClick events curveNumber pointIndex);
  showEventDetails clickedEvent.

End Script.

(** The records of [all] that have the name [s]. *)
Definition named (s : string) (all : list value) : list value :=
  List.filter (fun e => strict_eq (Records.field "name" e) (Str s)) all.

(** A page that has the panel, with the flat list [all] loaded. *)
Definition panel_page (all : list value) : page :=
  {| document := list_to_map (List.map (fun id => (id, blank)) detail_ids);
     allEventsData := Null;
     allEventsList := Arr all |}.

End Details.

(** * Properties *)

Lemma Qltb_lt (a b : Q) : Qltb a b = true <-> (a < b)%Q.
Proof.
  unfold Qltb. rewrite negb_true_iff. split; intros H.
  - apply Qnot_le_lt. intros Hle. apply Qle_bool_iff in Hle. congruence.
  - destruct (Qle_bool b a) eqn:E; [|reflexivity].
    apply Qle_bool_iff in E. exfalso. eapply Qlt_not_le; eauto.
Qed.

Lemma Qltb_ge (a b : Q) : Qltb a b = false <-> (b <= a)%Q.
Proof.
  unfold Qltb. rewrite negb_false_iff. apply Qle_bool_iff.
Qed.

Module ClassifierFacts.
Import Classifier.

(** The classifier and the specified rule agree on every ordered pair
    whose primary mass is not exactly the threshold. *)
Lemma classify_agrees_off_threshold (m1 m2 : Q) :
  (m2 <= m1)%Q -> ~ (m1 == NS_THRESHOLD)%Q ->
  classify m1 m2 = classify_spec m1 m2.
Proof.
  intros Hord Hne. unfold classify, classify_spec.
  destruct (Qltb m2 NS_THRESHOLD) eqn:E2, (Qltb m1 NS_THRESHOLD) eqn:E1;
    cbn [andb].
  - apply Qltb_lt in E1. destruct (Qle_bool NS_THRESHOLD m1) eqn:L1; [|reflexivity].
    apply Qle_bool_iff in L1. exfalso. eapply Qlt_not_le; eauto.
  - apply Qltb_ge in E1. apply Qltb_lt in E2.
    assert (Hlt : (NS_THRESHOLD < m1)%Q).
    { apply Qle_lteq in E1. destruct E1 as [E1|E1]; [exact E1|].
      exfalso. apply Hne. symmetry. exact E1. }
    apply Qltb_lt in Hlt. rewrite Hlt.
    destruct (Qle_bool NS_THRESHOLD m2) eqn:L2.
    + apply Qle_bool_iff in L2. exfalso. eapply Qlt_not_le; eauto.
    + rewrite andb_false_r. reflexivity.
  - apply Qltb_lt in E1. apply Qltb_ge in E2. exfalso.
    eapply Qlt_not_le; [exact E1|]. eapply Qle_trans; eauto.
  - apply Qltb_ge in E1. apply Qltb_ge in E2.
    apply Qle_bool_iff in E1. apply Qle_bool_iff in E2.
    rewrite E1, E2. reflexivity.
Qed.

(** The four sample classifications of the specification. *)
Lemma classify_samples :
  classify (362 # 10) (291 # 10) = BBH /\
  classify (14 # 10) (13 # 10) = BNS /\
  classify 5 (14 # 10) = NSBH /\
  classify 3 3 = BBH.
Proof. repeat split; reflexivity. Qed.

(** C1.  With a primary of exactly three solar masses and a lighter
    secondary below the threshold the classifier answers BBH, where the
    specified rule (one component at or above the threshold, one below)
    answers NSBH. *)
Theorem classify_primary_at_threshold :
  classify 3 (14 # 10) = BBH /\ classify_spec 3 (14 # 10) = NSBH.
Proof. split; reflexivity. Qed.

End ClassifierFacts.

(** ** Writing to the page *)

Module PageFacts.
Import JS Page Records.

Lemma update_present (id : string) (f : element -> element) (pg : page) :
  is_Some (document pg !! id) -> update id f pg = (Ok tt, write id f pg).
Proof. intros [el Hel]. unfold update. rewrite Hel. reflexivity. Qed.

Lemma showing_write (id : string) (f : element -> element) (pg : page)
    (el : element) :
  document pg !! id = Some el ->
  showing (write id f pg) id = Some (shown (f el)).
Proof.
  intros Hel. unfold showing, write. simpl.
  rewrite lookup_alter_eq, Hel. reflexivity.
Qed.

Lemma showing_write_const (id : string) (f : element -> element)
    (c : content) (pg : page) :
  (forall el, shown (f el) = c) -> is_Some (document pg !! id) ->
  showing (write id f pg) id = Some c.
Proof.
  intros Hf [el Hel]. rewrite (showing_write _ _ _ _ Hel), Hf. reflexivity.
Qed.

Lemma document_write_ne (id id' : string) (f : element -> element)
    (pg : page) :
  id <> id' -> document (write id f pg) !! id' = document pg !! id'.
Proof. intros Hne. unfold write. simpl. apply lookup_alter_ne, Hne. Qed.

Lemma showing_write_ne (id id' : string) (f : element -> element)
    (pg : page) :
  id <> id' -> showing (write id f pg) id' = showing pg id'.
Proof. intros Hne. unfold showing. rewrite document_write_ne; done. Qed.

Lemma showing_write_keeps (id id' : string) (f : element -> element)
    (pg : page) :
  (forall el, shown (f el) = shown el) ->
  showing (write id f pg) id' = showing pg id'.
Proof.
  intros Hf. unfold showing, write. simpl.
  destruct (decide (id = id')) as [<-|Hne].
  - rewrite lookup_alter_eq. destruct (document pg !! id); simpl; [|reflexivity].
    rewrite Hf. reflexivity.
  - rewrite lookup_alter_ne by done. reflexivity.
Qed.

Lemma is_Some_write (id id' : string) (f : element -> element) (pg : page) :
  is_Some (document pg !! id') -> is_Some (document (write id f pg) !! id').
Proof.
  intros [el Hel]. unfold write. simpl.
  destruct (decide (id = id')) as [->|Hne].
  - rewrite lookup_alter_eq, Hel. eauto.
  - rewrite lookup_alter_ne by done. eauto.
Qed.


Lemma write_absent (id : string) (f : element -> element) (pg : page) :
  document pg !! id = None -> write id f pg = pg.
Proof.
  intros Hno. destruct pg as [doc d l]. unfold write. simpl in *.
  f_equal. apply map_eq. intros j.
  destruct (decide (id = j)) as [<-|Hne].
  - rewrite lookup_alter_eq, Hno. reflexivity.
  - apply lookup_alter_ne, Hne.
Qed.

(** A write behind a null check. *)
Lemma guarded_write (id : string) (f : element -> element) (pg : page) :
  match document pg !! id with
  | Some _ => update id f
  | None => mret tt
  end pg = (Ok tt, write id f pg).
Proof.
  destruct (document pg !! id) as [el|] eqn:E.
  - apply update_present. rewrite E. eauto.
  - rewrite (write_absent _ _ _ E). reflexivity.
Qed.

Lemma present_In (ids : list string) (id : string) (pg : page) :
  present ids pg -> In id ids -> is_Some (document pg !! id).
Proof. unfold present. rewrite List.Forall_forall. auto. Qed.

Lemma present_incl (ids ids' : list string) (pg : page) :
  present ids pg -> incl ids' ids -> present ids' pg.
Proof.
  unfold present. rewrite !List.Forall_forall. intros Hpre Hincl id Hid.
  apply Hpre, Hincl, Hid.
Qed.

End PageFacts.

(** The element is on the page, also after the writes made so far. *)
Ltac there :=
  repeat apply PageFacts.is_Some_write;
  eapply PageFacts.present_In; [eassumption | simpl; tauto].

(** ** Reading records *)

Module RecordFacts.
Import JS Page Common Records.

Lemma strict_eq_Str (v : value) (s : string) :
  strict_eq v (Str s) = true <-> v = Str s.
Proof.
  destruct v; simpl; try (split; [discriminate | intros [=]]).
  rewrite String.eqb_eq. split; [intros ->; reflexivity | intros [=]; assumption].
Qed.

Lemma get_record (e : value) (k : string) :
  is_record e = true -> get e k = Ok (field k e).
Proof. destruct e; simpl; intros; try discriminate; reflexivity. Qed.

Lemma filterM_pure {A} (p : A -> result bool) (q : A -> bool) (l : list A) :
  Forall (fun a => p a = Ok (q a)) l -> filterM p l = Ok (List.filter q l).
Proof.
  induction 1 as [|a l Ha _ IH]; simpl; [reflexivity|].
  rewrite Ha, IH. simpl. destruct (q a); reflexivity.
Qed.

Lemma mapM_pure {A B} (f : A -> result B) (g : A -> B) (l : list A) :
  Forall (fun a => f a = Ok (g a)) l -> mapM f l = Ok (List.map g l).
Proof.
  induction 1 as [|a l Ha _ IH]; simpl; [reflexivity|].
  rewrite Ha, IH. reflexivity.
Qed.

Lemma records_filter (q : value -> bool) (l : list value) :
  records l -> records (List.filter q l).
Proof.
  unfold records. rewrite !List.Forall_forall. intros Hl e He.
  apply List.filter_In in He. apply Hl, He.
Qed.

Section WithHost.
Context `{Builtins}.

Lemma has_type_record (type : string) (e : value) :
  is_record e = true -> has_type type e = Ok (typed type e).
Proof. intros He. unfold has_type. rewrite (get_record _ _ He). reflexivity. Qed.

Lemma filter_type_records (type : string) (l : list value) :
  records l -> filterM (has_type type) l = Ok (of_type type l).
Proof.
  intros Hl. apply filterM_pure. eapply List.Forall_impl; [|exact Hl].
  intros e He. apply has_type_record, He.
Qed.

Lemma count_type_records (type : string) (l : list value) :
  records l ->
  count_type type (Arr l) = Ok (of_nat (length (of_type type l))).
Proof.
  intros Hl. unfold count_type. simpl. rewrite (filter_type_records _ _ Hl).
  reflexivity.
Qed.

End WithHost.

(** A record has at most one of the three types. *)
Lemma typed_exclusive (e : value) (s t : string) :
  typed s e = true -> typed t e = true -> s = t.
Proof.
  unfold typed. rewrite !strict_eq_Str. intros -> [=]. assumption.
Qed.

Lemma partition_by_type (l : list value) :
  length (of_type "BBH" l) + length (of_type "NSBH" l)
    + length (of_type "BNS" l)
    + length (List.filter (fun e => negb (known e)) l) = length l.
Proof.
  unfold of_type, known. induction l as [|e l IH]; [reflexivity|].
  simpl.
  destruct (typed "BBH" e) eqn:E1, (typed "NSBH" e) eqn:E2,
    (typed "BNS" e) eqn:E3; simpl;
    try (pose proof (typed_exclusive _ _ _ E1 E2); discriminate);
    try (pose proof (typed_exclusive _ _ _ E1 E3); discriminate);
    try (pose proof (typed_exclusive _ _ _ E2 E3); discriminate);
    lia.
Qed.

Lemma unknown_none (l : list value) :
  length (List.filter (fun e => negb (known e)) l) = 0
  <-> Forall (fun e => known e = true) l.
Proof.
  induction l as [|e l IH]; simpl.
  - split; [constructor | reflexivity].
  - destruct (known e) eqn:E; simpl.
    + rewrite IH. split; [intros; constructor; assumption | inversion 1; assumption].
    + split; [discriminate | inversion 1; congruence].
Qed.

End RecordFacts.

(** ** The statistics cards *)

Module Aggregator.
Import JS Page Common Records RecordFacts PageFacts.

Lemma known_iff (e : value) :
  known e = true <->
  field "source_type" e = Str "BBH" \/ field "source_type" e = Str "NSBH"
  \/ field "source_type" e = Str "BNS".
Proof.
  unfold known, typed. rewrite !orb_true_iff, !strict_eq_Str. tauto.
Qed.

Lemma of_type_In (type : string) (l : list value) (e : value) :
  In e (of_type type l) <-> In e l /\ field "source_type" e = Str type.
Proof.
  unfold of_type, typed. rewrite List.filter_In, strict_eq_Str. tauto.
Qed.

Lemma updateStats_docs `{Builtins} (events : list value) (pg : page) :
  records events ->
  present ["totalEvents"; "bbhCount"; "nsbhCount"; "bnsCount"] pg ->
  Docs.updateStats (Arr events) pg = (Ok tt, stats_page events pg).
Proof.
  intros Hrec Hpre. unfold Docs.updateStats, stats_page.
  unfold mbind, M_bind, lift.
  rewrite !(count_type_records _ _ Hrec). cbn [length_of].
  rewrite update_present by there.
  rewrite update_present by there.
  rewrite update_present by there.
  rewrite update_present by there.
  reflexivity.
Qed.

(** C4.  On a sequence of event records [updateStats] writes the length
    of the sequence and, for each of 'BBH', 'NSBH' and 'BNS', the number
    of records whose [source_type] is exactly that string.  The three
    numbers add up to the length exactly when every record has one of
    the three types; a record of any other type adds to the total and
    to none of the three. *)
Theorem updateStats_counts `{Builtins} (events : list value) (pg : page) :
  records events ->
  present ["totalEvents"; "bbhCount"; "nsbhCount"; "bnsCount"] pg ->
  let bbh := length (of_type "BBH" events) in
  let nsbh := length (of_type "NSBH" events) in
  let bns := length (of_type "BNS" events) in
  let other := length (List.filter (fun e => negb (known e)) events) in
  (exists pg',
     Docs.updateStats (Arr events) pg = (Ok tt, pg') /\
     showing pg' "totalEvents" = Some (TextContent (of_nat (length events))) /\
     showing pg' "bbhCount" = Some (TextContent (of_nat bbh)) /\
     showing pg' "nsbhCount" = Some (TextContent (of_nat nsbh)) /\
     showing pg' "bnsCount" = Some (TextContent (of_nat bns))) /\
  (forall type e,
     In e (of_type type events) <->
     In e events /\ field "source_type" e = Str type) /\
  (bbh + nsbh + bns = length events <->
   Forall (fun e => field "source_type" e = Str "BBH"
                    \/ field "source_type" e = Str "NSBH"
                    \/ field "source_type" e = Str "BNS") events) /\
  bbh + nsbh + bns + other = length events.
Proof.
  intros Hrec Hpre bbh nsbh bns other.
  split; [|split; [|split]].
  - exists (stats_page events pg). split; [exact (updateStats_docs _ _ Hrec Hpre)|].
    unfold stats_page. repeat split.
    + rewrite !showing_write_ne by discriminate.
      apply showing_write_const; [reflexivity | there].
    + rewrite !showing_write_ne by discriminate.
      apply showing_write_const; [reflexivity | there].
    + rewrite !showing_write_ne by discriminate.
      apply showing_write_const; [reflexivity | there].
    + apply showing_write_const; [reflexivity | there].
  - intros type e. apply of_type_In.
  - pose proof (partition_by_type events) as Hsum.
    fold bbh nsbh bns other in Hsum.
    assert (Hk : Forall (fun e => known e = true) events <->
                 Forall (fun e => field "source_type" e = Str "BBH"
                    \/ field "source_type" e = Str "NSBH"
                    \/ field "source_type" e = Str "BNS") events).
    { rewrite !List.Forall_forall. split; intros Hall e He;
        apply known_iff, Hall, He. }
    rewrite <- Hk, <- unknown_none. fold other. lia.
  - apply partition_by_type.
Qed.

End Aggregator.

(** ** The catalogue filter *)

Module CatalogFilter.
Import JS Page Common Records RecordFacts.

Lemma filter_sublist {A} (q : A -> bool) (l : list A) :
  List.filter q l `sublist_of` l.
Proof.
  induction l as [|a l IH]; simpl; [constructor|].
  destruct (q a); constructor; exact IH.
Qed.

Lemma not_all (tag : string) :
  tag <> "all" -> strict_eq (Str tag) (Str "all") = false.
Proof.
  intros Hne. simpl. apply String.eqb_neq. exact Hne.
Qed.

Lemma in_catalog_record (tag : string) (e : value) :
  is_record e = true ->
  Docs.in_catalog tag e = Ok (strict_eq (field "catalog" e) (Str tag)).
Proof.
  intros He. unfold Docs.in_catalog. rewrite (get_record _ _ He). reflexivity.
Qed.

(** The first revision does the same on the [version] member of the
    snapshot's [events]. *)
Lemma version_filter_exact (events : list value) (tag : string)
    (data : value) (pg : page) :
  allEventsData pg = data -> is_record data = true ->
  field "events" data = Arr events -> records events -> tag <> "all" ->
  Versioned.selected_events tag pg
  = (Ok (Arr (List.filter
                (fun e => strict_eq (field "version" e) (Str tag)) events)),
     pg).
Proof.
  intros Hdata Hobj Hev Hrec Hne. unfold Versioned.selected_events.
  unfold mbind, M_bind, read_allEventsData, lift. simpl.
  rewrite Hdata, (get_record _ _ Hobj), Hev. simpl.
  rewrite (proj2 (String.eqb_neq _ _) Hne). simpl.
  erewrite filterM_pure; [reflexivity|].
  eapply List.Forall_impl; [|exact Hrec]. intros e He.
  unfold Versioned.in_catalog. rewrite (get_record _ _ He). reflexivity.
Qed.

(** C6.  For a flat sequence of event records and a tag other than
    "all", the change handler passes on exactly the records whose
    [catalog] member is that tag: the same records, as often and in the
    same order as in the flat sequence, and nothing else. *)
Theorem catalog_filter_exact (all : list value) (tag : string) (pg : page) :
  allEventsList pg = Arr all -> records all -> tag <> "all" ->
  exists selected,
    Docs.selected_events tag pg = (Ok (Arr selected), pg) /\
    selected
    = List.filter (fun e => strict_eq (field "catalog" e) (Str tag)) all /\
    (forall e, In e selected <-> In e all /\ field "catalog" e = Str tag) /\
    selected `sublist_of` all.
Proof.
  intros Hall Hrec Hne. eexists. split; [|split; [reflexivity|split]].
  - unfold Docs.selected_events. rewrite (not_all _ Hne).
    unfold mbind, M_bind, read_allEventsList, lift. simpl.
    rewrite Hall. simpl.
    erewrite filterM_pure; [reflexivity|].
    eapply List.Forall_impl; [|exact Hrec]. intros e He.
    apply in_catalog_record, He.
  - intros e. rewrite List.filter_In, strict_eq_Str. tauto.
  - apply filter_sublist.
Qed.

End CatalogFilter.

(** ** The scatter markers *)

Module Marker.
Import JS Page Common Records RecordFacts.

Lemma clamp_bounds (s : Q) : (8 <= clamp s)%Q /\ (clamp s <= 25)%Q.
Proof.
  unfold clamp. split.
  - apply Q.le_max_l.
  - apply Q.max_lub; [discriminate | apply Q.le_min_l].
Qed.

Section WithHost.
Context `{Builtins}.

Lemma marker_size_record (e : value) :
  is_record e = true -> snr_of_schema e ->
  marker_size e = Ok (Some (clamp (effective_snr e))).
Proof.
  intros He Hsnr. unfold marker_size. rewrite (get_record _ _ He). simpl.
  unfold effective_snr, clamp, or_else.
  destruct Hsnr as [-> | [-> | [q ->]]]; simpl; try reflexivity.
  destruct (Qeq_bool q 0); reflexivity.
Qed.

(** C9.  For event records with a schema [snr], every marker size that
    [createTrace] computes is [max(8, min(25, s))], [s] being the
    record's [snr] when it is present and not zero and 10 otherwise; so
    every size lies between 8 and 25. *)
Theorem createTrace_marker_sizes (events : list value) (name color : string) :
  records events -> Forall snr_of_schema events ->
  exists t,
    createTrace events name color = Ok t /\
    tr_size t
    = Some (List.map (fun e => Some (Qmax 8 (Qmin 25 (effective_snr e))))
              events) /\
    Forall (fun e => (8 <= Qmax 8 (Qmin 25 (effective_snr e)))%Q /\
                     (Qmax 8 (Qmin 25 (effective_snr e)) <= 25)%Q) events.
Proof.
  intros Hrec Hsnr. unfold createTrace.
  assert (Hget : forall k, Forall (fun e => get e k = Ok (field k e)) events).
  { intros k. eapply List.Forall_impl; [|exact Hrec].
    intros e He. apply get_record, He. }
  rewrite (mapM_pure (fun e => get e "m1") (field "m1") events) by apply Hget.
  rewrite (mapM_pure (fun e => get e "m2") (field "m2") events) by apply Hget.
  rewrite (mapM_pure marker_size
             (fun e => Some (clamp (effective_snr e))) events).
  - eexists. split; [reflexivity|]. split; [reflexivity|].
    apply List.Forall_forall. intros e _. apply clamp_bounds.
  - apply List.Forall_forall. intros e He.
    apply marker_size_record.
    + exact (proj1 (List.Forall_forall _ _) Hrec e He).
    + exact (proj1 (List.Forall_forall _ _) Hsnr e He).
Qed.

End WithHost.
End Marker.

(** ** The mass plot *)

Module MassPlot.
Import JS Page Common Records RecordFacts PageFacts.

Section WithHost.
Context `{Builtins}.

Lemma createTrace_records (events : list value) (name color : string) :
  records events -> createTrace events name color = Ok (scatter events name color).
Proof.
  intros Hrec. unfold createTrace.
  assert (Hget : forall k, Forall (fun e => get e k = Ok (field k e)) events).
  { intros k. eapply List.Forall_impl; [|exact Hrec].
    intros e He. apply get_record, He. }
  rewrite (mapM_pure (fun e => get e "m1") (field "m1") events) by apply Hget.
  rewrite (mapM_pure (fun e => get e "m2") (field "m2") events) by apply Hget.
  rewrite (mapM_pure marker_size size_of events); [reflexivity|].
  eapply List.Forall_impl; [|exact Hrec]. intros e He.
  unfold marker_size, size_of. rewrite (get_record _ _ He). reflexivity.
Qed.

Lemma push_trace_records (events : list value) (type name color : string)
    (traces : list trace) :
  records events ->
  Docs.push_trace (of_type type events) name color traces
  = Ok (traces ++ trace_of events type name color).
Proof.
  intros Hrec. unfold Docs.push_trace, trace_of.
  pose proof (records_filter (typed type) _ Hrec) as Hsub.
  fold (of_type type events) in Hsub.
  destruct (of_type type events) as [|e l] eqn:E.
  - rewrite app_nil_r. reflexivity.
  - rewrite (createTrace_records _ _ _ Hsub). reflexivity.
Qed.

Lemma mass_traces_records (events : list value) :
  records events -> Docs.mass_traces (Arr events) = Ok (mass_plot events).
Proof.
  intros Hrec. unfold Docs.mass_traces. simpl.
  rewrite !(filter_type_records _ _ Hrec). simpl.
  rewrite (push_trace_records _ _ _ _ _ Hrec). simpl.
  rewrite (push_trace_records _ _ _ _ _ Hrec). simpl.
  rewrite (push_trace_records _ _ _ _ _ Hrec).
  unfold mass_plot. rewrite <- app_assoc. reflexivity.
Qed.

Lemma push_traces_records (events : list value) :
  records events ->
  Robust.push_traces events Robust.groups [] = Ok (mass_plot events).
Proof.
  intros Hrec.
  assert (Hstep : forall type name color gs traces,
    Robust.push_traces events ((type, (name, color)) :: gs) traces
    = Robust.push_traces events gs (traces ++ trace_of events type name color)).
  { intros type name color gs traces. simpl.
    rewrite (filter_type_records _ _ Hrec). simpl. unfold trace_of.
    pose proof (records_filter (typed type) _ Hrec) as Hsub.
    fold (of_type type events) in Hsub.
    destruct (of_type type events) as [|e l] eqn:E.
    - rewrite app_nil_r. reflexivity.
    - rewrite (createTrace_records _ _ _ Hsub). reflexivity. }
  unfold Robust.groups. rewrite !Hstep. simpl.
  unfold mass_plot. rewrite <- app_assoc. reflexivity.
Qed.

(** What the two revisions of [createPlot] leave on the page. *)
Lemma createPlot_docs (events : list value) (pg : page) :
  records events -> is_Some (document pg !! "massPlot") ->
  Docs.createPlot (Arr events) pg
  = (Ok tt,
     write "massPlot" addEventListener
       (write "massPlot" (newPlot (mass_plot events)) pg)).
Proof.
  intros Hrec Hel. unfold Docs.createPlot.
  unfold mbind, M_bind, lift, getElementById.
  rewrite (mass_traces_records _ Hrec).
  destruct Hel as [el Hel]. rewrite Hel.
  rewrite update_present by (rewrite Hel; eauto).
  rewrite update_present by (apply is_Some_write; rewrite Hel; eauto).
  reflexivity.
Qed.

Lemma createPlot_robust (events : list value) (pg : page) :
  records events ->
  Robust.createPlot (Arr events) pg
  = (Ok tt, write "massPlot" (newPlot (mass_plot events)) pg).
Proof.
  intros Hrec. unfold Robust.createPlot.
  unfold mbind, M_bind, lift, getElementById.
  cbn [array_of mbind result_bind].
  rewrite (push_traces_records _ Hrec).
  destruct (document pg !! "massPlot") as [el|] eqn:E.
  - apply update_present. rewrite E. eauto.
  - rewrite (write_absent _ _ _ E). reflexivity.
Qed.

Lemma in_trace_of (t : trace) (events : list value) (type name color : string) :
  In t (trace_of events type name color) <->
  of_type type events <> [] /\ t = scatter (of_type type events) name color.
Proof.
  unfold trace_of. destruct (of_type type events) as [|e l]; simpl.
  - split; [intros [] | intros [Hne _]; apply Hne; reflexivity].
  - split.
    + intros [<- | []]. split; [discriminate | reflexivity].
    + intros [_ ->]. left. reflexivity.
Qed.

Lemma of_type_nonempty (type : string) (events : list value) :
  of_type type events <> [] <->
  exists e, In e events /\ field "source_type" e = Str type.
Proof.
  split.
  - destruct (of_type type events) as [|e l] eqn:E; [intros Hne; exfalso; apply Hne; reflexivity|].
    intros _. exists e. apply Aggregator.of_type_In. rewrite E. left. reflexivity.
  - intros [e He] Hnil. apply Aggregator.of_type_In in He.
    rewrite Hnil in He. destruct He.
Qed.

Lemma points_trace_of (events : list value) (type name color : string) :
  points (trace_of events type name color) = length (of_type type events).
Proof.
  unfold trace_of, points.
  destruct (of_type type events) as [|e l]; [reflexivity|].
  simpl. rewrite length_map. lia.
Qed.

Lemma points_app (l1 l2 : list trace) :
  points (l1 ++ l2) = points l1 + points l2.
Proof. unfold points. rewrite List.map_app, list_sum_app. reflexivity. Qed.

(** C8.  On a sequence of event records both revisions of [createPlot]
    plot the same traces.  The trace named for a source type is there
    exactly when some displayed record has that type; it is the scatter
    trace of the records of that type, in input order; every trace is
    one of these three, so a record of any other type is in no trace and
    the plotted points are as many as the records of a known type. *)
Theorem createPlot_partition (events : list value) (pg : page) :
  records events -> present ["massPlot"] pg ->
  (exists pg1 pg2,
     Docs.createPlot (Arr events) pg = (Ok tt, pg1) /\
     showing pg1 "massPlot" = Some (Plotly (mass_plot events)) /\
     Robust.createPlot (Arr events) pg = (Ok tt, pg2) /\
     showing pg2 "massPlot" = Some (Plotly (mass_plot events))) /\
  (forall type name color,
     In (type, (name, color)) Robust.groups ->
     ((exists t, In t (mass_plot events) /\ tr_name t = Some name) <->
      (exists e, In e events /\ field "source_type" e = Str type)) /\
     (forall t, In t (mass_plot events) -> tr_name t = Some name ->
        t = scatter (of_type type events) name color) /\
     of_type type events `sublist_of` events /\
     (forall e, In e (of_type type events) <->
                In e events /\ field "source_type" e = Str type)) /\
  (forall t, In t (mass_plot events) ->
     exists type name color,
       In (type, (name, color)) Robust.groups /\ tr_name t = Some name) /\
  (forall e type name color,
     In e events -> known e = false ->
     In (type, (name, color)) Robust.groups ->
     ~ In e (of_type type events)) /\
  points (mass_plot events)
    + length (List.filter (fun e => negb (known e)) events)
  = length events.
Proof.
  intros Hrec Hpre.
  assert (Hnamed : forall t, In t (mass_plot events) ->
    (of_type "BBH" events <> [] /\
     t = scatter (of_type "BBH" events) "BBH (Binary Black Hole)" "#9b59b6")
    \/ (of_type "NSBH" events <> [] /\
        t = scatter (of_type "NSBH" events) "NSBH (NS-BH)" "#e67e22")
    \/ (of_type "BNS" events <> [] /\
        t = scatter (of_type "BNS" events) "BNS (Binary NS)" "#3498db")).
  { intros t Ht. unfold mass_plot in Ht.
    apply List.in_app_or in Ht as [Ht | Ht];
      [|apply List.in_app_or in Ht as [Ht | Ht]];
      apply in_trace_of in Ht; tauto. }
  split; [|split; [|split; [|split]]].
  - do 2 eexists.
    split; [apply (createPlot_docs _ _ Hrec); there|].
    split; [rewrite showing_write_keeps by reflexivity;
            apply showing_write_const; [reflexivity | there]|].
    split; [exact (createPlot_robust _ _ Hrec)|].
    apply showing_write_const; [reflexivity | there].
  - intros type name color Hg.
    assert (Hin : of_type type events <> [] ->
              In (scatter (of_type type events) name color) (mass_plot events)).
    { intros Hne. unfold mass_plot. rewrite !List.in_app_iff, !in_trace_of.
      simpl in Hg. destruct Hg as [[= <- <- <-] | [[= <- <- <-] | [[= <- <- <-] | []]]];
        tauto. }
    split; [|split; [|split]].
    + rewrite <- of_type_nonempty. split.
      * intros [t [Ht Hname]].
        destruct (Hnamed t Ht) as [[Hne ->] | [[Hne ->] | [Hne ->]]];
          simpl in Hg, Hname;
          destruct Hg as [[= <- <- <-] | [[= <- <- <-] | [[= <- <- <-] | []]]];
          try discriminate; exact Hne.
      * intros Hne. eexists. split; [apply Hin, Hne | reflexivity].
    + intros t Ht Hname.
      destruct (Hnamed t Ht) as [[Hne ->] | [[Hne ->] | [Hne ->]]];
        simpl in Hg, Hname;
        destruct Hg as [[= <- <- <-] | [[= <- <- <-] | [[= <- <- <-] | []]]];
        try discriminate; reflexivity.
    + apply CatalogFilter.filter_sublist.
    + intros e. apply Aggregator.of_type_In.
  - intros t Ht.
    destruct (Hnamed t Ht) as [[_ ->] | [[_ ->] | [_ ->]]];
      do 3 eexists; (split; [|reflexivity]); simpl; tauto.
  - intros e type name color He Hk Hg Hin.
    apply List.filter_In in Hin as [_ Hty]. unfold known in Hk.
    simpl in Hg.
    destruct Hg as [[= <- <- <-] | [[= <- <- <-] | [[= <- <- <-] | []]]];
      rewrite Hty in Hk; simpl in Hk; try discriminate;
      rewrite ?orb_true_r in Hk; discriminate.
  - unfold mass_plot. rewrite !points_app, !points_trace_of.
    pose proof (partition_by_type events). lia.
Qed.

End WithHost.
End MassPlot.

(** ** The effective-spin view *)

Module SpinPlot.
Import JS Page Common Records RecordFacts PageFacts.



Section WithHost.
Context `{Builtins}.

Lemma get_all (k : string) (l : list value) :
  records l -> mapM (fun e => get e k) l = Ok (List.map (field k) l).
Proof.
  intros Hrec. apply mapM_pure. eapply List.Forall_impl; [|exact Hrec].
  intros e He. apply get_record, He.
Qed.



End WithHost.
End SpinPlot.

(** ** Sorting on a key *)

Module Sorting.
Import JS Records.

Section OnKey.
Variable key : value -> Z.

Lemma insert_on_perm (a : value) (l : list value) :
  Permutation (insert_on key a l) (a :: l).
Proof.
  induction l as [|b l IH]; simpl; [reflexivity|].
  destruct (key b <? key a)%Z; [|reflexivity].
  rewrite IH. apply perm_swap.
Qed.

Lemma sort_on_perm (l : list value) : Permutation (sort_on key l) l.
Proof.
  induction l as [|a l IH]; simpl; [reflexivity|].
  rewrite insert_on_perm, IH. reflexivity.
Qed.

Lemma insert_on_sorted (a : value) (l : list value) :
  StronglySorted (le_on key) l -> StronglySorted (le_on key) (insert_on key a l).
Proof.
  induction 1 as [|b l Hs IH Hb]; simpl.
  - constructor; constructor.
  - destruct (Z.ltb_spec (key b) (key a)) as [Hlt | Hge].
    + constructor; [exact IH|].
      apply List.Forall_forall. intros x Hx.
      apply (Permutation_in _ (insert_on_perm a l)) in Hx.
      destruct Hx as [<- | Hx].
      * unfold le_on. lia.
      * exact (proj1 (List.Forall_forall _ _) Hb x Hx).
    + constructor; [constructor; assumption|].
      constructor; [exact Hge|].
      eapply List.Forall_impl; [|exact Hb]. unfold le_on. intros x Hx. lia.
Qed.

Lemma sort_on_sorted (l : list value) : StronglySorted (le_on key) (sort_on key l).
Proof.
  induction l as [|a l IH]; simpl; [constructor|].
  apply insert_on_sorted, IH.
Qed.

(** Stability: the records of one key keep their input order. *)
Lemma insert_on_stable (k : Z) (a : value) (l : list value) :
  List.filter (fun e => (key e =? k)%Z) (insert_on key a l)
  = List.filter (fun e => (key e =? k)%Z) (a :: l).
Proof.
  induction l as [|b l IH]; [reflexivity|].
  simpl insert_on. destruct (Z.ltb_spec (key b) (key a)) as [Hlt | Hge];
    [|reflexivity].
  simpl. simpl in IH. rewrite IH.
  destruct (Z.eqb_spec (key a) k), (Z.eqb_spec (key b) k);
    try reflexivity. lia.
Qed.

Lemma sort_on_stable (k : Z) (l : list value) :
  List.filter (fun e => (key e =? k)%Z) (sort_on key l)
  = List.filter (fun e => (key e =? k)%Z) l.
Proof.
  induction l as [|a l IH]; [reflexivity|].
  simpl sort_on. rewrite insert_on_stable. simpl. rewrite IH. reflexivity.
Qed.

(** Two sorted lists in which the records of every key come in the same
    order are the same list: a sort that is stable has one result, and
    [sort_on] computes it. *)
Lemma sorted_stable_eq (l1 l2 : list value) :
  StronglySorted (le_on key) l1 -> StronglySorted (le_on key) l2 ->
  (forall k, List.filter (fun e => (key e =? k)%Z) l1
             = List.filter (fun e => (key e =? k)%Z) l2) ->
  l1 = l2.
Proof.
  intros Hs1. revert l2.
  induction Hs1 as [|a t1 Hs1 IH Ha]; intros l2 Hs2 Hf.
  - destruct l2 as [|b t2]; [reflexivity|].
    specialize (Hf (key b)). simpl in Hf. rewrite Z.eqb_refl in Hf.
    discriminate Hf.
  - destruct Hs2 as [|b t2 Hs2 Hb].
    { specialize (Hf (key a)). simpl in Hf. rewrite Z.eqb_refl in Hf.
      discriminate Hf. }
    assert (Hab : key a = key b).
    { assert (Hle1 : (key b <= key a)%Z).
      { assert (Hin : In a (b :: t2)).
        { apply (proj1 (List.filter_In (fun e => (key e =? key a)%Z) a (b :: t2))).
          rewrite <- Hf. simpl. rewrite Z.eqb_refl. left. reflexivity. }
        destruct Hin as [<- | Hin]; [lia|].
        exact (proj1 (List.Forall_forall _ _) Hb a Hin). }
      assert (Hle2 : (key a <= key b)%Z).
      { assert (Hin : In b (a :: t1)).
        { apply (proj1 (List.filter_In (fun e => (key e =? key b)%Z) b (a :: t1))).
          rewrite Hf. simpl. rewrite Z.eqb_refl. left. reflexivity. }
        destruct Hin as [<- | Hin]; [lia|].
        exact (proj1 (List.Forall_forall _ _) Ha b Hin). }
      lia. }
    assert (Heq : a = b).
    { specialize (Hf (key a)). simpl in Hf.
      rewrite <- Hab, Z.eqb_refl in Hf. injection Hf as Heq _. exact Heq. }
    subst b. f_equal. apply IH; [exact Hs2|].
    intros k. specialize (Hf k). simpl in Hf.
    destruct (key a =? k)%Z; [injection Hf as Hf|]; exact Hf.
Qed.

Lemma stable_sort_unique (l l' : list value) :
  StronglySorted (le_on key) l' ->
  (forall k, List.filter (fun e => (key e =? k)%Z) l'
             = List.filter (fun e => (key e =? k)%Z) l) ->
  l' = sort_on key l.
Proof.
  intros Hs Hf. apply sorted_stable_eq; [exact Hs | apply sort_on_sorted|].
  intros k. rewrite Hf, sort_on_stable. reflexivity.
Qed.

(** [sort_by] on a comparator that returns the difference of the keys
    is the sort on the key. *)
Lemma negative_difference (x y : Z) :
  negative (Some (x - y)%Z) = (x <? y)%Z.
Proof.
  simpl. destruct (Z.ltb_spec (x - y) 0), (Z.ltb_spec x y); try reflexivity; lia.
Qed.

Variable cmp : value -> value -> result (option Z).

Lemma insert_sorted_on (a : value) (l : list value) :
  (forall b, In b l -> cmp b a = Ok (Some (key b - key a)%Z)) ->
  insert_sorted cmp a l = Ok (insert_on key a l).
Proof.
  induction l as [|b l IH]; intros Hcmp; [reflexivity|].
  cbn [insert_sorted insert_on]. rewrite (Hcmp b (or_introl eq_refl)).
  cbn [mbind result_bind]. rewrite negative_difference.
  destruct (key b <? key a)%Z; [|reflexivity].
  rewrite IH; [reflexivity|]. intros x Hx. apply Hcmp. right. exact Hx.
Qed.

Lemma sort_by_on (l : list value) :
  (forall a b, In a l -> In b l -> cmp a b = Ok (Some (key a - key b)%Z)) ->
  sort_by cmp l = Ok (sort_on key l).
Proof.
  induction l as [|a l IH]; intros Hcmp; [reflexivity|].
  simpl. rewrite IH.
  - simpl. apply insert_sorted_on. intros b Hb. apply Hcmp.
    + right. exact (Permutation_in _ (sort_on_perm l) Hb).
    + left. reflexivity.
  - intros x y Hx Hy. apply Hcmp; right; assumption.
Qed.

End OnKey.
End Sorting.

(** ** The timeline *)

Module Timeline.
Import JS Page Common Records RecordFacts Sorting.

Section WithHost.
Context `{Builtins}.

Lemma dated_calendar (e : value) :
  schema_dated e -> dated e = true -> calendar_dated e.
Proof.
  intros [Hu | Hc] Hd; [|exact Hc].
  unfold dated in Hd. rewrite Hu in Hd. discriminate.
Qed.

Lemma has_date_schema (e : value) :
  is_record e = true -> schema_dated e -> Robust.has_date e = Ok (dated e).
Proof.
  intros He Hs. unfold Robust.has_date, dated.
  rewrite (get_record _ _ He). simpl.
  destruct Hs as [-> | (s & -> & Hne & Hnu & _)]; [reflexivity|].
  unfold and_then. simpl.
  apply String.eqb_neq in Hne, Hnu. rewrite Hne, Hnu. reflexivity.
Qed.

Lemma by_date_calendar (a b : value) :
  is_record a = true -> is_record b = true ->
  calendar_dated a -> calendar_dated b ->
  Robust.by_date a b = Ok (Some (time_of a - time_of b)%Z).
Proof.
  intros Ha Hb (sa & Hsa & _ & _ & [ta Hta]) (sb & Hsb & _ & _ & [tb Htb]).
  unfold Robust.by_date, time_of.
  rewrite (get_record _ _ Ha), (get_record _ _ Hb). simpl.
  rewrite Hsa, Hsb, Hta, Htb. reflexivity.
Qed.

Lemma accumulate_records (l : list value) (n : nat) (ds ts : list value) :
  records l ->
  Robust.accumulate l n ds ts
  = Ok (ds ++ List.map (field "detection_date") l,
        ts ++ List.map of_nat (seq (S n) (length l))).
Proof.
  intros Hrec. revert n ds ts.
  induction Hrec as [|e l He _ IH]; intros n ds ts; simpl.
  - rewrite !app_nil_r. reflexivity.
  - rewrite (get_record _ _ He). simpl. rewrite IH.
    rewrite <- !app_assoc. reflexivity.
Qed.

Lemma sorted_events_schema (events : list value) :
  records events -> Forall schema_dated events ->
  Robust.sorted_events (Arr events)
  = Ok (sort_on time_of (List.filter dated events)).
Proof.
  intros Hrec Hsch. unfold Robust.sorted_events. simpl.
  rewrite (filterM_pure _ dated).
  - simpl. apply sort_by_on. intros a b Ha Hb.
    apply List.filter_In in Ha as [Ha Hda], Hb as [Hb Hdb].
    rewrite List.Forall_forall in Hsch. unfold records in Hrec.
    rewrite List.Forall_forall in Hrec.
    apply by_date_calendar; auto using dated_calendar.
  - apply List.Forall_forall. intros e He. apply has_date_schema.
    + exact (proj1 (List.Forall_forall _ _) Hrec e He).
    + exact (proj1 (List.Forall_forall _ _) Hsch e He).
Qed.

(** The timeline of the fail-soft script.  On event records dated as
    the schema says, it drops the records whose date is "Unknown",
    orders the others by the time value of their date, earliest first
    and records of equal time in input order, and plots their dates
    against the counts 1..n. *)
Lemma timeline_sorted (events : list value) :
  records events -> Forall schema_dated events ->
  exists sorted,
    Robust.sorted_events (Arr events) = Ok sorted /\
    (forall e, In e sorted <->
               In e events /\ field "detection_date" e <> Str "Unknown") /\
    Permutation sorted (List.filter dated events) /\
    (forall e, In e sorted ->
               Date_time (field "detection_date" e) = Some (time_of e)) /\
    StronglySorted (le_on time_of) sorted /\
    (forall t,
       List.filter (fun e => (time_of e =? t)%Z) sorted
       = List.filter (fun e => (time_of e =? t)%Z)
           (List.filter dated events)) /\
    Robust.timeline (Arr events)
    = Ok {| tr_x := List.map (field "detection_date") sorted;
            tr_y := Some (List.map of_nat (seq 1 (length sorted)));
            tr_type := "scatter";
            tr_mode := Some "lines";
            tr_name := Some "Cumulative detections";
            tr_size := None;
            tr_color := None |}.
Proof.
  intros Hrec Hsch.
  pose proof (sorted_events_schema _ Hrec Hsch) as Hsorted.
  pose proof (sort_on_perm time_of (List.filter dated events)) as Hperm.
  assert (Hin : forall e, In e (sort_on time_of (List.filter dated events))
                          <-> In e events /\ dated e = true).
  { intros e. rewrite <- List.filter_In. split; apply Permutation_in;
      [exact Hperm | symmetry; exact Hperm]. }
  eexists. split; [exact Hsorted|].
  split; [|split; [exact Hperm|split; [|split; [|split]]]].
  - intros e. rewrite Hin. unfold dated.
    rewrite negb_true_iff, <- not_true_iff_false, strict_eq_Str. tauto.
  - intros e He. apply Hin in He as [He Hd].
    rewrite List.Forall_forall in Hsch.
    destruct (dated_calendar e (Hsch e He) Hd) as (s & Hs & _ & _ & [t Ht]).
    unfold time_of. rewrite Hs, Ht. reflexivity.
  - apply sort_on_sorted.
  - intros t. apply sort_on_stable.
  - unfold Robust.timeline. rewrite Hsorted. simpl.
    rewrite accumulate_records; [reflexivity|].
    apply List.Forall_forall. intros e He. apply Hin in He as [He _].
    exact (proj1 (List.Forall_forall _ _) Hrec e He).
Qed.

End WithHost.
End Timeline.

(** ** The loader *)

Module Loader.
Import JS Page Common Records RecordFacts PageFacts.

Section WithHost.
Context `{Builtins}.





(** *** The published script on a malformed document *)














End WithHost.
End Loader.

(** ** No failure on event records *)

Module Totality.
Import JS Page Common Records RecordFacts PageFacts Sorting.



Lemma records_perm (l l' : list value) :
  Permutation l' l -> records l -> records l'.
Proof.
  unfold records. rewrite !List.Forall_forall. intros Hperm Hl e He.
  apply Hl. exact (Permutation_in _ Hperm He).
Qed.

Section WithHost.
Context `{Builtins}.

Lemma setText_run (id : string) (v : value) (pg : page) :
  Robust.setText id v pg = (Ok tt, write id (set_textContent v) pg).
Proof.
  unfold Robust.setText, mbind, M_bind, getElementById. apply guarded_write.
Qed.

Lemma updateStats_robust (events : list value) (pg : page) :
  records events ->
  Robust.updateStats (Arr events) pg = (Ok tt, stats_page events pg).
Proof.
  intros Hrec. unfold Robust.updateStats, stats_page.
  unfold mbind, M_bind, lift. cbn [length_of].
  rewrite !(count_type_records _ _ Hrec), !setText_run. reflexivity.
Qed.




(** The guarded plots of the fail-soft revision: nothing when the
    container is missing, the write otherwise. *)
Lemma guarded_plot {A} (id : string) (r : result A) (a : A)
    (k : A -> M unit) (f : element -> element) (pg : page) :
  r = Ok a -> (forall pg', is_Some (document pg' !! id) ->
                           k a pg' = (Ok tt, write id f pg')) ->
  (container ← getElementById id;
   match container with
   | None => mret tt
   | Some _ => x ← lift r; k x
   end) pg = (Ok tt, write id f pg).
Proof.
  intros -> Hk. unfold mbind, M_bind, getElementById, lift.
  destruct (document pg !! id) as [el|] eqn:E.
  - apply Hk. rewrite E. eauto.
  - rewrite (write_absent _ _ _ E). reflexivity.
Qed.










End WithHost.
End Totality.

(** ** The default view of the published script *)

Module DefaultView.
Import JS Page Common Records RecordFacts PageFacts.

Section WithHost.
Context `{Builtins}.

Lemma updateFilterInfo_docs (displayed : value) (data : value) (pg : page) :
  allEventsData pg = data -> is_record data = true ->
  is_Some (document pg !! "filterInfo") ->
  Docs.updateFilterInfo displayed (field "event_count" data) pg
  = (Ok tt,
     write "filterInfo"
       (set_textContent (Str (info_line displayed (unique_count data)))) pg).
Proof.
  intros Hdata Hobj Hel. unfold Docs.updateFilterInfo.
  unfold mbind, M_bind, read_allEventsData, lift.
  rewrite Hdata, (get_record _ _ Hobj).
  rewrite update_present by exact Hel. reflexivity.
Qed.

Lemma displayEvents_docs (events : list value) (data : value) (pg : page) :
  records events -> allEventsData pg = data -> is_record data = true ->
  present view_ids pg ->
  Docs.displayEvents (Arr events) pg = (Ok tt, docs_view events data pg).
Proof.
  intros Hrec Hdata Hobj Hpre. unfold Docs.displayEvents, docs_view.
  unfold mbind at 1. unfold M_bind at 1.
  rewrite (Aggregator.updateStats_docs events pg Hrec)
    by (eapply present_incl; [exact Hpre | unfold view_ids; intros x Hx; simpl in *; tauto]).
  unfold mbind at 1. unfold M_bind at 1.
  rewrite (MassPlot.createPlot_docs events _ Hrec)
    by (unfold stats_page; unfold view_ids in Hpre; there).
  unfold mbind at 1. unfold M_bind at 1. unfold lift at 1. cbn [length_of].
  unfold mbind at 1. unfold M_bind at 1. unfold read_allEventsData at 1.
  unfold mbind at 1. unfold M_bind at 1. unfold lift at 1.
  change (allEventsData (write "massPlot" addEventListener
            (write "massPlot" (newPlot (mass_plot events))
               (stats_page events pg)))) with (allEventsData pg).
  rewrite Hdata, (get_record _ _ Hobj).
  apply updateFilterInfo_docs; [exact Hdata | exact Hobj |].
  unfold stats_page. unfold view_ids in Hpre. there.
Qed.

Lemma showing_docs_view (events : list value) (data : value) (pg : page) :
  present view_ids pg ->
  showing (docs_view events data pg) "totalEvents"
  = Some (TextContent (of_nat (length events))) /\
  showing (docs_view events data pg) "massPlot"
  = Some (Plotly (mass_plot events)) /\
  showing (docs_view events data pg) "filterInfo"
  = Some (TextContent
            (Str (info_line (of_nat (length events)) (unique_count data)))).
Proof.
  intros Hpre. unfold docs_view, stats_page, view_ids in *.
  repeat match goal with |- _ /\ _ => split end.
  - rewrite !showing_write_ne by discriminate.
    apply showing_write_const; [reflexivity | there].
  - rewrite showing_write_ne by discriminate.
    rewrite showing_write_keeps by reflexivity.
    apply showing_write_const; [reflexivity | there].
  - apply showing_write_const; [reflexivity | there].
Qed.

(** C3, as the script has it.  Selecting "all" displays the [events]
    member of the snapshot as it is, whatever the flat sequence of all
    versions holds, so the view has one record per name exactly when
    that member has.  The filter line reports N, the declared
    [unique_events] when it is there and not zero and [event_count]
    otherwise: "Showing all N unique events" when the number of
    displayed records is N, "Showing n of N events" when it is not. *)
Theorem select_all_shows_events (events : list value) (data : value)
    (pg : page) :
  allEventsData pg = data -> is_record data = true ->
  field "events" data = Arr events -> records events ->
  present view_ids pg ->
  let n := of_nat (length events) in
  let N := unique_count data in
  Docs.selected_events "all" pg = (Ok (Arr events), pg) /\
  exists pg',
    Docs.onCatalogChange "all" pg = (Ok tt, pg') /\
    showing pg' "totalEvents" = Some (TextContent n) /\
    showing pg' "massPlot" = Some (Plotly (mass_plot events)) /\
    showing pg' "filterInfo" = Some (TextContent (Str (info_line n N))) /\
    (strict_eq n N = true ->
     info_line n N = "Showing all " +:+ ToString N +:+ " unique events") /\
    (strict_eq n N = false ->
     info_line n N
     = "Showing " +:+ ToString n +:+ " of " +:+ ToString N +:+ " events").
Proof.
  intros Hdata Hobj Hev Hrec Hpre n N.
  assert (Hsel : Docs.selected_events "all" pg = (Ok (Arr events), pg)).
  { unfold Docs.selected_events.
    change (strict_eq (Str "all") (Str "all")) with true. cbv iota.
    unfold mbind, M_bind, read_allEventsData, lift.
    rewrite Hdata, (get_record _ _ Hobj), Hev. reflexivity. }
  split; [exact Hsel|].
  exists (docs_view events data pg).
  destruct (showing_docs_view events data pg Hpre) as (Ht & Hm & Hi).
  split; [|split; [exact Ht|split; [exact Hm|split; [exact Hi|]]]].
  - unfold Docs.onCatalogChange. unfold mbind at 1. unfold M_bind at 1.
    rewrite Hsel. apply displayEvents_docs; assumption.
  - unfold info_line. split; intros ->; reflexivity.
Qed.

End WithHost.
End DefaultView.

Module DefaultViewExample.
Import JS Page Records.

(** C3, as the specification states it, fails on a snapshot whose
    [events] member lists two versions of one event: both are
    displayed, and the filter line counts two where [unique_events]
    declares one. *)
Lemma select_all_keeps_repeated_names :
  exists l,
    Docs.selected_events "all" (Samples.loaded Samples.repeated)
    = (Ok (Arr l), Samples.loaded Samples.repeated) /\
    ~ one_per_name l /\
    field "unique_events" Samples.repeated = Num 1 /\
    length l = 2 /\
    showing (Samples.loaded Samples.repeated) "filterInfo"
    = Some (TextContent (Str "Showing 2 of 1 events")).
Proof.
  exists [Samples.gw190521_v1; Samples.gw190521_v2].
  split; [vm_compute; reflexivity|].
  split.
  - unfold one_per_name. simpl. intros Hnd.
    apply NoDup_cons in Hnd as [Hnotin _]. apply Hnotin. left.
  - split; [reflexivity|]. split; [reflexivity|]. vm_compute. reflexivity.
Qed.

End DefaultViewExample.

(** ** The timeline of the per-type revision *)

Module UndatedInSort.
Import JS Page Records.

(** C5.  The per-type revision sorts the array while the records dated
    "Unknown" are still in it and skips them afterwards.  On the dates
    2023-05-01, Unknown, 2020-01-01, 2015-09-14 its comparator answers
    [NaN] whenever the undated record takes part, so it is not a
    consistent order (the first and the last record both tie with the
    undated one but not with each other), and the stable sort leaves
    2023-05-01 in front: the plotted dates are 2023-05-01, 2015-09-14,
    2020-01-01, where the fail-soft revision, which drops the undated
    record first, plots 2015-09-14, 2020-01-01, 2023-05-01. *)
Theorem undated_record_breaks_order :
  Plots.by_date (H := Host.sample) Samples.gw230529 Samples.gw170817 = Ok None /\
  Plots.by_date (H := Host.sample) Samples.gw170817 Samples.gw150914 = Ok None /\
  (exists d, Plots.by_date (H := Host.sample) Samples.gw230529 Samples.gw150914
             = Ok (Some d) /\ (0 < d)%Z) /\
  Plots.timeline (H := Host.sample) (Arr Samples.events)
  = Ok (let dates := [Str "2023-05-01"; Str "2015-09-14"; Str "2020-01-01"] in
        [ Plots.line dates [of_nat 1; of_nat 2; of_nat 3] "Total";
          Plots.line dates [of_nat 0; of_nat 1; of_nat 1] "BBH";
          Plots.line dates [of_nat 0; of_nat 0; of_nat 1] "NSBH";
          Plots.line dates [of_nat 0; of_nat 0; of_nat 0] "BNS" ]) /\
  Robust.timeline (H := Host.sample) (Arr Samples.events)
  = Ok {| tr_x := [Str "2015-09-14"; Str "2020-01-01"; Str "2023-05-01"];
          tr_y := Some [of_nat 1; of_nat 2; of_nat 3];
          tr_type := "scatter";
          tr_mode := Some "lines";
          tr_name := Some "Cumulative detections";
          tr_size := None;
          tr_color := None |}.
Proof.
  split; [reflexivity|]. split; [reflexivity|].
  split; [eexists; split; [reflexivity | reflexivity]|].
  split; reflexivity.
Qed.

End UndatedInSort.

(** ** The theorems at work on the sample pages *)

Module Witnesses.
Import JS Page Common Records.

Ltac sample_records := repeat constructor.
Ltac sample_present :=
  repeat (constructor; [vm_compute; eexists; reflexivity|]); constructor.

(** The statistics cards of the four sample events: one BBH, one NSBH,
    one BNS and one record typed in lower case, which only the total
    counts. *)
Lemma updateStats_counts_witness :
  records Samples.events /\
  present ["totalEvents"; "bbhCount"; "nsbhCount"; "bnsCount"] Samples.fresh /\
  length (of_type "BBH" Samples.events)
    + length (of_type "NSBH" Samples.events)
    + length (of_type "BNS" Samples.events)
    + length (List.filter (fun e => negb (known e)) Samples.events)
  = length Samples.events.
Proof.
  assert (Hrec : records Samples.events) by sample_records.
  assert (Hpre : present ["totalEvents"; "bbhCount"; "nsbhCount"; "bnsCount"]
                   Samples.fresh) by sample_present.
  split; [exact Hrec|]. split; [exact Hpre|].
  exact (proj2 (proj2 (proj2
    (Aggregator.updateStats_counts (H := Host.sample)
       Samples.events Samples.fresh Hrec Hpre)))).
Defined.

(** The catalogue filter on the loaded sample snapshot. *)
Lemma catalog_filter_exact_witness :
  allEventsList (Samples.loaded Samples.snapshot) = Arr Samples.events /\
  records Samples.events /\
  "GWTC-1-confident" <> "all" /\
  exists selected,
    Docs.selected_events "GWTC-1-confident" (Samples.loaded Samples.snapshot)
    = (Ok (Arr selected), Samples.loaded Samples.snapshot) /\
    selected
    = List.filter
        (fun e => strict_eq (field "catalog" e) (Str "GWTC-1-confident"))
        Samples.events /\
    (forall e, In e selected <->
               In e Samples.events
               /\ field "catalog" e = Str "GWTC-1-confident") /\
    selected `sublist_of` Samples.events.
Proof.
  assert (Hall : allEventsList (Samples.loaded Samples.snapshot)
                 = Arr Samples.events) by (vm_compute; reflexivity).
  assert (Hrec : records Samples.events) by sample_records.
  assert (Hne : "GWTC-1-confident" <> "all") by discriminate.
  split; [exact Hall|]. split; [exact Hrec|]. split; [exact Hne|].
  exact (CatalogFilter.catalog_filter_exact Samples.events
           "GWTC-1-confident" (Samples.loaded Samples.snapshot) Hall Hrec Hne).
Defined.

(** The marker sizes of the sample events: 23.7, and 10 for the records
    without a ratio or with a ratio of zero, and 25 for the ratio 30. *)
Lemma createTrace_marker_sizes_witness :
  records Samples.events /\ Forall snr_of_schema Samples.events /\
  exists t,
    createTrace (H := Host.sample) Samples.events "all" "#000000" = Ok t /\
    tr_size t
    = Some (List.map (fun e => Some (Qmax 8 (Qmin 25 (effective_snr e))))
              Samples.events) /\
    Forall (fun e => (8 <= Qmax 8 (Qmin 25 (effective_snr e)))%Q /\
                     (Qmax 8 (Qmin 25 (effective_snr e)) <= 25)%Q)
      Samples.events.
Proof.
  assert (Hrec : records Samples.events) by sample_records.
  assert (Hsnr : Forall snr_of_schema Samples.events).
  { unfold Samples.events.
    repeat (apply List.Forall_cons; [unfold snr_of_schema; simpl; eauto|]).
    apply List.Forall_nil. }
  split; [exact Hrec|]. split; [exact Hsnr|].
  exact (Marker.createTrace_marker_sizes (H := Host.sample)
           Samples.events "all" "#000000" Hrec Hsnr).
Defined.

(** The mass plot of the sample events has as many points as there are
    records of a known type. *)
Lemma createPlot_partition_witness :
  records Samples.events /\ present ["massPlot"] Samples.fresh /\
  points (mass_plot (H := Host.sample) Samples.events)
    + length (List.filter (fun e => negb (known e)) Samples.events)
  = length Samples.events.
Proof.
  assert (Hrec : records Samples.events) by sample_records.
  assert (Hpre : present ["massPlot"] Samples.fresh) by sample_present.
  split; [exact Hrec|]. split; [exact Hpre|].
  exact (proj2 (proj2 (proj2 (proj2
    (MassPlot.createPlot_partition (H := Host.sample)
       Samples.events Samples.fresh Hrec Hpre))))).
Defined.



(** The default view of the snapshot that repeats an event name. *)
Lemma select_all_shows_events_witness :
  allEventsData (Samples.loaded Samples.repeated) = Samples.repeated /\
  is_record Samples.repeated = true /\
  field "events" Samples.repeated
  = Arr [Samples.gw190521_v1; Samples.gw190521_v2] /\
  records [Samples.gw190521_v1; Samples.gw190521_v2] /\
  present view_ids (Samples.loaded Samples.repeated) /\
  Docs.selected_events "all" (Samples.loaded Samples.repeated)
  = (Ok (Arr [Samples.gw190521_v1; Samples.gw190521_v2]),
     Samples.loaded Samples.repeated).
Proof.
  assert (Hdata : allEventsData (Samples.loaded Samples.repeated)
                  = Samples.repeated) by (vm_compute; reflexivity).
  assert (Hrec : records [Samples.gw190521_v1; Samples.gw190521_v2])
    by sample_records.
  assert (Hpre : present view_ids (Samples.loaded Samples.repeated))
    by sample_present.
  split; [exact Hdata|]. split; [reflexivity|]. split; [reflexivity|].
  split; [exact Hrec|]. split; [exact Hpre|].
  exact (proj1 (DefaultView.select_all_shows_events (H := Host.sample)
                  _ _ _ Hdata eq_refl eq_refl Hrec Hpre)).
Defined.


End Witnesses.

(** ** Where the hypotheses are needed *)

Module Remarks.
Import JS Page Common Records.

(** An array element that is not a record but [null] makes the counts
    throw: member access on [null] is a [TypeError]. *)
Example null_element_throws :
  count_type "BBH" (Arr [Samples.gw150914; Null]) = Throw TypeError.
Proof. reflexivity. Qed.

(** A document without a usable [events] member but with an array
    [all_events]: the published script fails as for every malformed
    document, after it has rebuilt the catalogue selector and registered
    its handler. *)
Example selector_rebuilt_before_failure :
  let data := Obj [ ("events", Str "not-an-array");
                    ("all_events", Arr [Samples.gw150914]) ] in
  let pg' := snd (Docs.loadData (H := Host.sample)
                    (Response true (Json data)) Samples.fresh) in
  showing pg' "massPlot" = Some (InnerHTML Docs.failure_notice) /\
  showing pg' "totalEvents" = Some Static /\
  document pg' !! "catalogFilter"
  = Some {| shown := InnerHTML Docs.all_option;
            appended := [ {| opt_value := Str "GWTC-1-confident";
                             opt_text := Str "GWTC-1 Confident (O1 Run)" |} ];
            listeners := 1 |}.
Proof. vm_compute. repeat split; reflexivity. Qed.

(** The sample timeline of the fail-soft script, end to end. *)
Example sample_timeline_plotted :
  showing (snd (Robust.loadData (H := Host.sample)
                  (Response true (Json Samples.snapshot)) Samples.fresh))
    "timelinePlot"
  = Some (Plotly
      [ {| tr_x := [Str "2015-09-14"; Str "2020-01-01"; Str "2023-05-01"];
           tr_y := Some [of_nat 1; of_nat 2; of_nat 3];
           tr_type := "scatter";
           tr_mode := Some "lines";
           tr_name := Some "Cumulative detections";
           tr_size := None;
           tr_color := None |} ]).
Proof. vm_compute. reflexivity. Qed.

End Remarks.

(** ** Clicking a point of the mass plot *)

Module ClickFacts.
Import JS Page Common Records RecordFacts.

Lemma onPlotClick_records (events : list value) (c i : nat) :
  records events ->
  Click.onPlotClick (Arr events) c i
  = Ok (Click.clickedEvent (of_type "BBH" events) (of_type "NSBH" events)
          (of_type "BNS" events) c i).
Proof.
  intros Hrec. unfold Click.onPlotClick. cbn [array_of mbind result_bind].
  rewrite !(filter_type_records _ _ Hrec). reflexivity.
Qed.

Lemma at_index_lookup (l : list value) (i : nat) (e : value) :
  l !! i = Some e -> Click.at_index l i = e.
Proof. intros Hl. unfold Click.at_index. rewrite Hl. reflexivity. Qed.

Section WithHost.
Context `{Builtins}.

(** The trace of a type is empty or the one scatter trace of its
    records. *)
Lemma trace_of_cases (events : list value) (type name color : string) :
  (of_type type events = [] /\ trace_of events type name color = [])
  \/ (of_type type events <> []
      /\ trace_of events type name color
         = [scatter (of_type type events) name color]).
Proof.
  unfold trace_of. destruct (of_type type events) as [|e l] eqn:E.
  - left. split; reflexivity.
  - right. split; [discriminate | reflexivity].
Qed.

Lemma nonempty_length (l : list value) : l <> [] -> (0 <? length l) = true.
Proof. destruct l; [congruence | reflexivity]. Qed.

(** X1 (docs/script.js, click handler of createPlot).  With at least
    one BBH record on the plot, or no BNS record, the handler finds the
    record of the clicked point: for the trace number
    [c] and the point [i] of that trace, it answers the [i]-th record of
    the list the trace was drawn from. *)
Theorem click_finds_plotted_record (events : list value) (c i : nat)
    (t : trace) (x : value) :
  records events ->
  of_type "BBH" events <> [] \/ of_type "BNS" events = [] ->
  mass_plot events !! c = Some t -> tr_x t !! i = Some x ->
  exists type name color e,
    t = scatter (of_type type events) name color /\
    of_type type events !! i = Some e /\
    x = field "m1" e /\
    Click.onPlotClick (Arr events) c i = Ok e.
Proof.
  intros Hrec Hok Ht Hx. rewrite (onPlotClick_records _ _ _ Hrec).
  unfold mass_plot in Ht. unfold Click.clickedEvent.
  assert (Hpoint : forall type name color,
            t = scatter (of_type type events) name color ->
            exists e, of_type type events !! i = Some e /\ x = field "m1" e).
  { intros type name color ->. simpl in Hx.
    rewrite list_lookup_fmap in Hx.
    destruct (of_type type events !! i) as [e|]; [|discriminate].
    injection Hx as <-. eauto. }
  destruct (trace_of_cases events "BBH" "BBH (Binary Black Hole)" "#9b59b6")
    as [[Eb Tb] | [Eb Tb]];
  destruct (trace_of_cases events "NSBH" "NSBH (NS-BH)" "#e67e22")
    as [[En Tn] | [En Tn]];
  destruct (trace_of_cases events "BNS" "BNS (Binary NS)" "#3498db")
    as [[Es Ts] | [Es Ts]];
  rewrite Tb, Tn, Ts in Ht; clear Tb Tn Ts; simpl in Ht;
  try (destruct Hok as [Hok | Hok]; congruence);
  rewrite ?Eb, ?En, ?Es; rewrite ?(nonempty_length _ Eb), ?(nonempty_length _ En);
  (destruct c as [|[|[|c]]]; simpl in Ht; try discriminate;
   injection Ht as <-;
   match goal with
   | |- context [scatter (of_type ?ty events) ?n ?col] =>
       destruct (Hpoint ty n col eq_refl) as (e & He & Hxe);
       exists ty, n, col, e; repeat split; try assumption;
       simpl; rewrite ?Eb, ?En, ?Es in *; simpl;
       f_equal; apply at_index_lookup; assumption
   end).
Qed.

(** X2 (docs/script.js, click handler of createPlot).  Without a BBH
    record on the plot and with a BNS one, the handler does not find the
    record of a clicked BNS point.  The BNS trace is
    then trace 0 (no NSBH record) or trace 1, and for its point [i] the
    handler answers the [i]-th NSBH record, or [undefined] when there
    is none: never the record [e] that was clicked. *)
Theorem click_on_BNS_point_misresolved (events : list value) (i : nat)
    (e : value) :
  records events ->
  of_type "BBH" events = [] ->
  of_type "BNS" events !! i = Some e ->
  let c := match of_type "NSBH" events with [] => 0 | _ :: _ => 1 end in
  mass_plot events !! c
    = Some (scatter (of_type "BNS" events) "BNS (Binary NS)" "#3498db") /\
  Click.onPlotClick (Arr events) c i
    = Ok (Click.at_index (of_type "NSBH" events) i) /\
  Click.at_index (of_type "NSBH" events) i <> e.
Proof.
  intros Hrec Eb He c.
  assert (Hin : In e (of_type "BNS" events)).
  { apply list_elem_of_In. eapply list_elem_of_lookup_2. exact He. }
  assert (Es : of_type "BNS" events <> []).
  { intros E. rewrite E in He. discriminate. }
  split; [|split].
  - unfold mass_plot.
    destruct (trace_of_cases events "BBH" "BBH (Binary Black Hole)" "#9b59b6")
      as [[_ Tb] | [Eb' _]]; [|congruence].
    destruct (trace_of_cases events "BNS" "BNS (Binary NS)" "#3498db")
      as [[Es' _] | [_ Ts]]; [congruence|].
    rewrite Tb, Ts. subst c.
    destruct (trace_of_cases events "NSBH" "NSBH (NS-BH)" "#e67e22")
      as [[En Tn] | [En Tn]]; rewrite Tn.
    + rewrite En. reflexivity.
    + destruct (of_type "NSBH" events); [congruence | reflexivity].
  - rewrite (onPlotClick_records _ _ _ Hrec). unfold Click.clickedEvent.
    rewrite Eb. subst c.
    destruct (of_type "NSBH" events); reflexivity.
  - unfold Click.at_index.
    destruct (of_type "NSBH" events !! i) as [e'|] eqn:E'; simpl.
    + intros ->.
      assert (Hin' : In e (of_type "NSBH" events)).
      { apply list_elem_of_In. eapply list_elem_of_lookup_2. exact E'. }
      unfold of_type in Hin, Hin'.
      apply List.filter_In in Hin as [_ H1].
      apply List.filter_In in Hin' as [_ H2].
      pose proof (typed_exclusive _ _ _ H1 H2). discriminate.
    + intros <-. unfold of_type in Hin. apply List.filter_In in Hin as [_ H1].
      discriminate.
Qed.

End WithHost.

Lemma click_finds_plotted_record_witness :
  exists e, Click.onPlotClick (Arr Samples.events) 2 0 = Ok e.
Proof.
  assert (Hrec : records Samples.events).
  { repeat (apply List.Forall_cons; [reflexivity|]). apply List.Forall_nil. }
  assert (Hok : of_type "BBH" Samples.events <> []
                \/ of_type "BNS" Samples.events = []).
  { left. discriminate. }
  destruct (click_finds_plotted_record (H := Host.sample) Samples.events 2 0
              (scatter (H := Host.sample) [Samples.gw170817]
                 "BNS (Binary NS)" "#3498db")
              (Num (146 # 100)) Hrec Hok eq_refl eq_refl)
    as (type & name & color & e & _ & _ & _ & Hclick).
  exists e. exact Hclick.
Defined.

Lemma click_on_BNS_point_misresolved_witness :
  Click.onPlotClick (Arr [Samples.gw170817; Samples.gw200115]) 1 0
  = Ok Samples.gw200115.
Proof.
  assert (Hrec : records [Samples.gw170817; Samples.gw200115]).
  { repeat (apply List.Forall_cons; [reflexivity|]). apply List.Forall_nil. }
  exact (proj1 (proj2 (click_on_BNS_point_misresolved (H := Host.sample)
                         [Samples.gw170817; Samples.gw200115] 0
                         Samples.gw170817 Hrec eq_refl eq_refl))).
Defined.

End ClickFacts.

(** ** Writes to one element, one after the other *)

Module WriteFacts.
Import JS Page Records PageFacts.

Lemma write_write (id : string) (f g h : element -> element) (pg : page) :
  (forall el, h el = f (g el)) ->
  write id f (write id g pg) = write id h pg.
Proof.
  intros Hh. unfold write. simpl. f_equal.
  rewrite alter_alter_eq. apply alter_ext. intros el _. symmetry. apply Hh.
Qed.

Lemma write_ext (id : string) (f g : element -> element) (pg : page) :
  (forall el, document pg !! id = Some el -> f el = g el) ->
  write id f pg = write id g pg.
Proof. intros Hfg. unfold write. f_equal. apply alter_ext. exact Hfg. Qed.

Lemma write_same (id : string) (f : element -> element) (pg : page) :
  (forall el, f el = el) -> write id f pg = pg.
Proof.
  intros Hf. destruct pg as [doc d l]. unfold write. simpl. f_equal.
  apply map_eq. intros i. destruct (decide (id = i)) as [<- | Hne].
  - rewrite lookup_alter_eq. destruct (doc !! id); simpl; [|reflexivity].
    rewrite Hf. reflexivity.
  - rewrite lookup_alter_ne by exact Hne. reflexivity.
Qed.

Lemma forEach_ext {A} (f g : A -> M unit) (l : list A) (pg : page) :
  Forall (fun a => forall pg', f a pg' = g a pg') l ->
  forEach f l pg = forEach g l pg.
Proof.
  intros Hfg. revert pg. induction Hfg as [|a l Ha _ IH]; intros pg;
    [reflexivity|].
  simpl. unfold mbind, M_bind. rewrite Ha. destruct (g a pg) as [[[]|e] pg'];
    [apply IH | reflexivity].
Qed.

Lemma forEach_append {A} (id : string) (mk : A -> option_element)
    (l : list A) (pg : page) :
  is_Some (document pg !! id) ->
  forEach (fun a => update id (appendChild (mk a))) l pg
  = (Ok tt, write id (Selector.append_all (List.map mk l)) pg).
Proof.
  revert pg. induction l as [|a l IH]; intros pg Hid; simpl.
  - rewrite write_same; [reflexivity|].
    intros [s a n]. unfold Selector.append_all. simpl.
    rewrite app_nil_r. reflexivity.
  - unfold mbind, M_bind. rewrite (update_present _ _ _ Hid).
    rewrite IH by (apply is_Some_write; exact Hid).
    f_equal. apply write_write. intros el.
    unfold Selector.append_all, appendChild. simpl.
    rewrite <- app_assoc. reflexivity.
Qed.

End WriteFacts.
(** ** The options of the catalogue selector *)

Module SelectorFacts.
Import JS Page Common Records PageFacts RecordFacts SpinPlot Sorting
  WriteFacts Selector.

Lemma strict_eq_simple (a b : value) :
  simple a -> (strict_eq a b = true <-> a = b).
Proof.
  destruct a, b; simpl; intros Ha; try contradiction;
    try (split; [discriminate | intros [=]]); try tauto.
  rewrite String.eqb_eq. split; [intros ->; reflexivity | intros [=]; assumption].
Qed.

Lemma existsb_strict (v : value) (seen : list value) :
  simple v -> (existsb (strict_eq v) seen = true <-> In v seen).
Proof.
  intros Hv. rewrite existsb_exists. split.
  - intros (x & Hx & Heq). apply (strict_eq_simple _ _ Hv) in Heq.
    subst x. exact Hx.
  - intros Hin. exists v. split; [exact Hin|].
    apply (strict_eq_simple _ _ Hv). reflexivity.
Qed.

Lemma set_of_In (l seen : list value) (x : value) :
  Forall simple l ->
  (In x (set_of seen l) <-> In x l /\ ~ In x seen).
Proof.
  intros Hl. revert seen. induction Hl as [|v l Hv _ IH]; intros seen; simpl.
  - tauto.
  - destruct (existsb (strict_eq v) seen) eqn:E.
    + apply (existsb_strict _ _ Hv) in E. rewrite IH. split.
      * intros [Hx Hn]. split; [right; exact Hx | exact Hn].
      * intros [[-> | Hx] Hn]; [contradiction | split; assumption].
    + assert (Hn : ~ In v seen).
      { intros Hin. apply (existsb_strict _ _ Hv) in Hin. congruence. }
      simpl. rewrite IH. simpl. split.
      * intros [<- | [Hx Hnx]]; [split; [left; reflexivity | exact Hn]|].
        split; [right; exact Hx | tauto].
      * intros [[<- | Hx] Hnx]; [left; reflexivity|].
        destruct (strict_eq v x) eqn:Evx.
        -- left. apply (strict_eq_simple _ _ Hv). exact Evx.
        -- right. split; [exact Hx|]. intros [<- | Hs]; [|contradiction].
           assert (Hvv : strict_eq v v = true)
             by (apply (strict_eq_simple _ _ Hv); reflexivity).
           congruence.
Qed.

Lemma set_of_NoDup (l seen : list value) :
  Forall simple l -> List.NoDup (set_of seen l).
Proof.
  intros Hl. revert seen. induction Hl as [|v l Hv Hl IH]; intros seen; simpl.
  - constructor.
  - destruct (existsb (strict_eq v) seen); [apply IH|].
    constructor; [|apply IH].
    intros Hin. apply (set_of_In _ _ _ Hl) in Hin as [_ Hn].
    apply Hn. left. reflexivity.
Qed.

Lemma simple_catalog (e : value) :
  catalog_of_schema e -> simple (field "catalog" e).
Proof. intros [-> | [-> | (s & -> & _)]]; exact I. Qed.

Section WithHost.
Context `{Builtins}.

Lemma listed_Str (s : string) :
  listed (Str s) = true <-> In s listed_tags.
Proof.
  unfold listed, Docs.info_of. rewrite bool_decide_eq_true.
  cbn [ToString]. unfold listed_tags.
  induction Docs.catalogInfo as [|[k v] t IH]; simpl.
  - split; [intros [x [=]] | tauto].
  - destruct (String.eqb_spec s k) as [-> | Hne]; simpl.
    + split; [left; reflexivity | eauto].
    + rewrite IH. split; [tauto | intros [Hk | Ht]; [congruence | exact Ht]].
Qed.

Lemma listed_info (c : value) :
  listed c = true ->
  exists d p, Docs.info_of c = Some (d, p)
              /\ priority c = p /\ display c = Str d.
Proof.
  unfold listed, priority, display. rewrite bool_decide_eq_true.
  intros [[d p] Hi]. rewrite Hi. eauto.
Qed.

Lemma by_priority_listed (a b : value) :
  listed a = true -> listed b = true ->
  Docs.by_priority a b = Ok (Some (priority a - priority b)%Z).
Proof.
  intros Ha Hb.
  destruct (listed_info _ Ha) as (da & pa & Ia & <- & _).
  destruct (listed_info _ Hb) as (db & pb & Ib & <- & _).
  unfold Docs.by_priority, priority. rewrite Ia, Ib. reflexivity.
Qed.

Lemma offered_perm (all : list value) :
  Permutation (offered all)
    (List.filter listed
       (List.filter Docs.named_catalog
          (set_of [] (List.map (field "catalog") all)))).
Proof. apply sort_on_perm. Qed.

Lemma offered_listed (all : list value) (c : value) :
  In c (offered all) -> listed c = true.
Proof.
  intros Hc. apply (Permutation_in _ (offered_perm all)) in Hc.
  apply List.filter_In in Hc. apply Hc.
Qed.

(** What [populateCatalogFilter] leaves on the page. *)
Lemma populateCatalogFilter_docs (events : value) (all : list value)
    (pg : page) (el : element) :
  records all -> allEventsList pg = Arr all ->
  document pg !! "catalogFilter" = Some el ->
  Docs.populateCatalogFilter events pg
  = (Ok tt, write "catalogFilter" (fun _ => selector all el) pg).
Proof.
  intros Hrec Hall Hel.
  assert (Hid : is_Some (document pg !! "catalogFilter")) by (rewrite Hel; eauto).
  unfold Docs.populateCatalogFilter.
  unfold mbind at 1. unfold M_bind at 1. unfold read_allEventsList.
  rewrite Hall.
  unfold mbind at 1. unfold M_bind at 1. unfold lift.
  cbn [array_of]. cbn [mbind result_bind].
  rewrite (get_all "catalog" all Hrec). cbn [mbind result_bind].
  change (fun c : value => bool_decide (is_Some (Docs.info_of c))) with listed.
  rewrite (sort_by_on priority Docs.by_priority).
  2:{ intros a b Ha Hb. apply by_priority_listed.
      - apply List.filter_In in Ha. apply Ha.
      - apply List.filter_In in Hb. apply Hb. }
  fold (offered all).
  unfold mbind at 1. unfold M_bind at 1.
  rewrite (update_present _ _ _ Hid).
  unfold mbind at 1. unfold M_bind at 1.
  rewrite (forEach_ext _ (fun c => update "catalogFilter"
                                     (appendChild (option_of c)))).
  2:{ apply List.Forall_forall. intros c Hc pg'.
      destruct (listed_info _ (offered_listed _ _ Hc)) as (d & p & Hi & _ & Hd).
      rewrite Hi. unfold option_of. rewrite Hd. reflexivity. }
  rewrite forEach_append by (apply is_Some_write; exact Hid).
  rewrite update_present by (do 2 apply is_Some_write; exact Hid).
  f_equal.
  rewrite (write_write _ _ _
             (fun el0 => addEventListener
                           (append_all (List.map option_of (offered all)) el0)))
    by reflexivity.
  rewrite (write_write _ _ _
             (fun el0 => addEventListener
                           (append_all (List.map option_of (offered all))
                              (set_innerHTML Docs.all_option el0))))
    by reflexivity.
  apply write_ext. intros el0 Hel0. rewrite Hel in Hel0.
  injection Hel0 as <-. reflexivity.
Qed.

Lemma offered_In (all : list value) (c : value) :
  Forall catalog_of_schema all ->
  (In c (offered all) <->
   exists s, c = Str s /\ In s listed_tags
             /\ exists e, In e all /\ field "catalog" e = Str s).
Proof.
  intros Hsch.
  assert (Hsimple : Forall simple (List.map (field "catalog") all)).
  { apply List.Forall_map. eapply List.Forall_impl; [|exact Hsch].
    intros e. apply simple_catalog. }
  split.
  - intros Hc. apply (Permutation_in _ (offered_perm all)) in Hc.
    apply List.filter_In in Hc as [Hc Hl].
    apply List.filter_In in Hc as [Hc Hn].
    apply (set_of_In _ _ _ Hsimple) in Hc as [Hc _].
    apply List.in_map_iff in Hc as (e & He & Hin).
    rewrite List.Forall_forall in Hsch.
    destruct (Hsch e Hin) as [Hu | [Hu | (s & Hs & _)]];
      rewrite Hu in He || rewrite Hs in He; subst c; try discriminate.
    exists s. split; [reflexivity|]. split; [apply listed_Str; exact Hl|].
    exists e. split; assumption.
  - intros (s & -> & Hs & e & Hin & He).
    apply (Permutation_in _ (Permutation_sym (offered_perm all))).
    apply List.filter_In. split; [|apply listed_Str; exact Hs].
    apply List.filter_In. split.
    + apply (set_of_In _ _ _ Hsimple). split; [|tauto].
      apply List.in_map_iff. exists e. split; assumption.
    + unfold listed_tags in Hs. simpl in Hs.
      repeat (destruct Hs as [<- | Hs]; [reflexivity|]). contradiction.
Qed.

(** X3 (docs/script.js, populateCatalogFilter).  On a page that has the
    selector, with the flat list [allEventsList] holding records whose
    [catalog] is a catalogue tag, [null] or absent, the function (which
    ignores its argument) replaces the selector's content by the default
    entry and appends one option per catalogue that the [catalogInfo]
    table lists and that at least one record carries: no other option,
    none twice, in ascending priority, each with the table's display
    name; it registers one more listener and touches no other element. *)
Theorem selector_offers_listed_catalogs (events : value) (all : list value)
    (pg : page) (el : element) :
  records all -> Forall catalog_of_schema all ->
  allEventsList pg = Arr all ->
  document pg !! "catalogFilter" = Some el ->
  exists pg',
    Docs.populateCatalogFilter events pg = (Ok tt, pg') /\
    document pg' !! "catalogFilter"
    = Some {| shown := InnerHTML Docs.all_option;
              appended := List.map option_of (offered all);
              listeners := S (listeners el) |} /\
    unchanged_outside ["catalogFilter"] pg pg' /\
    (forall c, In c (offered all) <->
       exists s, c = Str s /\ In s listed_tags
                 /\ exists e, In e all /\ field "catalog" e = Str s) /\
    (forall c, In c (offered all) ->
       exists d p, In (ToString c, (d, p)) Docs.catalogInfo
                   /\ opt_text (option_of c) = Str d /\ priority c = p) /\
    List.NoDup (offered all) /\
    StronglySorted (le_on priority) (offered all).
Proof.
  intros Hrec Hsch Hall Hel.
  exists (write "catalogFilter" (fun _ => selector all el) pg).
  split; [exact (populateCatalogFilter_docs events all pg el Hrec Hall Hel)|].
  split.
  { unfold write. simpl. rewrite lookup_alter_eq, Hel. reflexivity. }
  split.
  { intros id Hid. apply document_write_ne. intros <-. apply Hid. left.
    reflexivity. }
  split; [intros c; apply offered_In; exact Hsch|].
  split.
  { intros c Hc.
    destruct (listed_info _ (offered_listed _ _ Hc)) as (d & p & Hi & Hp & Hd).
    exists d, p. split; [|split; [exact Hd | exact Hp]].
    unfold Docs.info_of in Hi.
    destruct (List.find _ Docs.catalogInfo) as [[k v]|] eqn:E; [|discriminate].
    apply List.find_some in E as [Hin Hk]. simpl in Hk.
    apply String.eqb_eq in Hk. simpl in Hi. injection Hi as ->.
    rewrite Hk. exact Hin. }
  split.
  - apply (Permutation_NoDup (Permutation_sym (offered_perm all))).
    do 2 apply List.NoDup_filter. apply set_of_NoDup.
    apply List.Forall_map. eapply List.Forall_impl; [|exact Hsch].
    intros e. apply simple_catalog.
  - apply sort_on_sorted.
Qed.

Lemma selected_carrying (all : list value) (pg : page) (s : string) :
  records all -> allEventsList pg = Arr all -> s <> "all" ->
  Docs.selected_events s pg = (Ok (Arr (carrying s all)), pg).
Proof.
  intros Hrec Hall Hne. unfold Docs.selected_events.
  rewrite (CatalogFilter.not_all _ Hne).
  unfold mbind, M_bind, read_allEventsList, lift. rewrite Hall.
  cbn [array_of result_bind].
  rewrite (filterM_pure _ (fun e => strict_eq (field "catalog" e) (Str s)));
    [reflexivity|].
  eapply List.Forall_impl; [|exact Hrec].
  intros e He. apply CatalogFilter.in_catalog_record, He.
Qed.

(** X4 (docs/script.js, populateCatalogFilter and its change handler).
    No option of the selector is dead, and none is missing: choosing an
    offered catalogue other than the default passes on the records of
    [allEventsList] that carry its tag, of which there is at least one;
    and a listed catalogue that at least one record carries is
    offered. *)
Theorem offered_option_selects_records (all : list value) (pg : page)
    (s : string) :
  records all -> Forall catalog_of_schema all ->
  allEventsList pg = Arr all -> s <> "all" ->
  (In (Str s) (offered all) ->
   Docs.selected_events s pg = (Ok (Arr (carrying s all)), pg)
   /\ carrying s all <> []) /\
  (In s listed_tags -> carrying s all <> [] -> In (Str s) (offered all)).
Proof.
  intros Hrec Hsch Hall Hne. split.
  - intros Hs. split; [exact (selected_carrying all pg s Hrec Hall Hne)|].
    apply (offered_In _ _ Hsch) in Hs as (s' & [= <-] & _ & e & Hin & He).
    intros Hnil.
    assert (Hc : In e (carrying s all)).
    { apply List.filter_In. split; [exact Hin|].
      apply strict_eq_Str. exact He. }
    rewrite Hnil in Hc. exact Hc.
  - intros Hs Hcar. apply (offered_In _ _ Hsch).
    exists s. split; [reflexivity|]. split; [exact Hs|].
    destruct (carrying s all) as [|e l] eqn:E; [congruence|].
    assert (Hc : In e (carrying s all)) by (rewrite E; left; reflexivity).
    apply List.filter_In in Hc as [Hin He].
    exists e. split; [exact Hin|]. apply strict_eq_Str. exact He.
Qed.

End WithHost.

Lemma sample_catalogs : Forall catalog_of_schema Samples.events.
Proof.
  unfold Samples.events.
  repeat (apply List.Forall_cons;
          [right; right; eexists; split; [reflexivity|];
           intros Hin; simpl in Hin;
           repeat (destruct Hin as [Hin | Hin]; [discriminate|]); exact Hin|]).
  apply List.Forall_nil.
Qed.

Lemma selector_offers_listed_catalogs_witness :
  List.NoDup (offered (H := Host.sample) Samples.events).
Proof.
  assert (Hrec : records Samples.events) by repeat constructor.
  destruct (selector_offers_listed_catalogs (H := Host.sample) Null
              Samples.events
              {| document := document Samples.fresh;
                 allEventsData := Samples.snapshot;
                 allEventsList := Arr Samples.events |}
              blank Hrec sample_catalogs eq_refl eq_refl)
    as (pg' & _ & _ & _ & _ & _ & Hnd & _).
  exact Hnd.
Defined.

Lemma offered_option_selects_records_witness :
  In (Str "GWTC-3-confident") (offered (H := Host.sample) Samples.events).
Proof.
  assert (Hrec : records Samples.events) by repeat constructor.
  assert (Hne : "GWTC-3-confident" <> "all") by discriminate.
  assert (Hs : In "GWTC-3-confident" listed_tags) by (simpl; tauto).
  assert (Hc : carrying "GWTC-3-confident" Samples.events <> [])
    by discriminate.
  exact (proj2 (offered_option_selects_records (H := Host.sample)
                  Samples.events
                  {| document := document Samples.fresh;
                     allEventsData := Samples.snapshot;
                     allEventsList := Arr Samples.events |}
                  "GWTC-3-confident" Hrec sample_catalogs eq_refl Hne)
           Hs Hc).
Defined.

End SelectorFacts.

(** ** The display of the fail-soft script *)

Module DisplayFacts.
Import JS Page Common Records PageFacts RecordFacts SpinPlot WriteFacts
  Display.

Lemma insert_sorted_with (cmp : value -> value -> result (option Z))
    (d : value -> value -> option Z) (a : value) (l : list value) :
  (forall b, In b l -> cmp b a = Ok (d b a)) ->
  insert_sorted cmp a l = Ok (insert_with d a l).
Proof.
  induction l as [|b l IH]; intros Hcmp; [reflexivity|].
  cbn [insert_sorted insert_with]. rewrite (Hcmp b (or_introl eq_refl)).
  cbn [mbind result_bind]. destruct (negative (d b a)); [|reflexivity].
  rewrite IH; [reflexivity|]. intros x Hx. apply Hcmp. right. exact Hx.
Qed.

Lemma insert_with_perm (d : value -> value -> option Z) (a : value)
    (l : list value) :
  Permutation (insert_with d a l) (a :: l).
Proof.
  induction l as [|b l IH]; simpl; [reflexivity|].
  destruct (negative (d b a)); [|reflexivity].
  rewrite IH. apply perm_swap.
Qed.

Lemma sort_with_perm (d : value -> value -> option Z) (l : list value) :
  Permutation (sort_with d l) l.
Proof.
  induction l as [|a l IH]; simpl; [reflexivity|].
  rewrite insert_with_perm, IH. reflexivity.
Qed.

Lemma sort_by_with (cmp : value -> value -> result (option Z))
    (d : value -> value -> option Z) (l : list value) :
  (forall a b, In a l -> In b l -> cmp a b = Ok (d a b)) ->
  sort_by cmp l = Ok (sort_with d l).
Proof.
  induction l as [|a l IH]; intros Hcmp; [reflexivity|].
  simpl. rewrite IH.
  - simpl. apply insert_sorted_with. intros b Hb. apply Hcmp.
    + right. exact (Permutation_in _ (sort_with_perm d l) Hb).
    + left. reflexivity.
  - intros x y Hx Hy. apply Hcmp; right; assumption.
Qed.

Section WithHost.
Context `{Builtins}.

Lemma has_date_record (e : value) :
  is_record e = true -> Robust.has_date e = Ok (has_date e).
Proof.
  intros He. unfold Robust.has_date, has_date.
  rewrite (get_record _ _ He). reflexivity.
Qed.

Lemma by_date_record (a b : value) :
  is_record a = true -> is_record b = true ->
  Robust.by_date a b = Ok (date_difference a b).
Proof.
  intros Ha Hb. unfold Robust.by_date, date_difference.
  rewrite (get_record _ _ Ha), (get_record _ _ Hb). reflexivity.
Qed.

Lemma sorted_events_records (events : list value) :
  records events ->
  Robust.sorted_events (Arr events) = Ok (on_timeline events).
Proof.
  intros Hrec. unfold Robust.sorted_events, on_timeline. simpl.
  rewrite (filterM_pure _ has_date).
  2:{ eapply List.Forall_impl; [|exact Hrec]. intros e. apply has_date_record. }
  simpl. apply sort_by_with. intros a b Ha Hb.
  unfold records in Hrec. rewrite List.Forall_forall in Hrec.
  apply List.filter_In in Ha, Hb.
  apply by_date_record; apply Hrec; tauto.
Qed.

Lemma on_timeline_records (events : list value) :
  records events -> records (on_timeline events).
Proof.
  intros Hrec. unfold on_timeline.
  apply (Totality.records_perm _ _ (sort_with_perm _ _)).
  apply records_filter. exact Hrec.
Qed.

Lemma timeline_records (events : list value) :
  records events -> Robust.timeline (Arr events) = Ok (timeline events).
Proof.
  intros Hrec. unfold Robust.timeline.
  rewrite (sorted_events_records _ Hrec). cbn [mbind result_bind].
  rewrite (Timeline.accumulate_records _ _ _ _ (on_timeline_records _ Hrec)).
  reflexivity.
Qed.

Lemma updateFilterInfo_line (displayed total : value) (pg : page) :
  Robust.updateFilterInfo displayed total pg
  = (Ok tt,
     write "filterInfo"
       (set_textContent (Str (filter_line displayed total))) pg).
Proof.
  unfold Robust.updateFilterInfo, mbind, M_bind, getElementById.
  apply guarded_write.
Qed.

Lemma createMassHistograms_view (events : list value) (pg : page) :
  records events ->
  Robust.createMassHistograms (Arr events) pg
  = (Ok tt, write "massHistogram" (newPlot (histograms events)) pg).
Proof.
  intros Hrec. unfold Robust.createMassHistograms.
  eapply Totality.guarded_plot.
  - cbn [array_of mbind result_bind].
    rewrite !(get_all _ _ Hrec). cbn [mbind result_bind].
    rewrite (mapM_pure _ (fun e => js_plus (field "m1" e) (field "m2" e))).
    + reflexivity.
    + eapply List.Forall_impl; [|exact Hrec]. intros e He.
      rewrite !(get_record _ _ He). reflexivity.
  - intros pg' Hel. apply update_present, Hel.
Qed.

Lemma createSpinPlot_view (events : list value) (pg : page) :
  records events ->
  Robust.createSpinPlot (Arr events) pg
  = (Ok tt, write "spinPlot" (spin events) pg).
Proof.
  intros Hrec. unfold spin, Robust.createSpinPlot.
  destruct (spin_values events) as [|v vs] eqn:E;
    (eapply Totality.guarded_plot;
     [ cbn [array_of mbind result_bind];
       rewrite (get_all _ _ Hrec); cbn [mbind result_bind];
       fold (spin_values events); rewrite E; reflexivity
     | intros pg' Hel; apply update_present, Hel ]).
Qed.

Lemma createTimelinePlot_view (events : list value) (pg : page) :
  records events ->
  Robust.createTimelinePlot (Arr events) pg
  = (Ok tt, write "timelinePlot" (newPlot [timeline events]) pg).
Proof.
  intros Hrec. unfold Robust.createTimelinePlot.
  eapply Totality.guarded_plot; [exact (timeline_records _ Hrec)|].
  intros pg' Hel. apply update_present, Hel.
Qed.

(** The fail-soft [displayEvents] on event records, on any page. *)
Lemma displayEvents_view (events all : list value) (data : value)
    (pg : page) :
  records events -> allEventsData pg = data -> is_record data = true ->
  field "events" data = Arr all ->
  Robust.displayEvents (Arr events) pg
  = (Ok tt, view events (of_nat (length all)) pg).
Proof.
  intros Hrec Hdata Hobj Hall. unfold Robust.displayEvents.
  unfold mbind at 1. unfold M_bind at 1.
  rewrite (Totality.updateStats_robust _ _ Hrec).
  unfold mbind at 1. unfold M_bind at 1. unfold lift at 1. cbn [length_of].
  unfold mbind at 1. unfold M_bind at 1. unfold read_allEventsData at 1.
  change (allEventsData (stats_page events pg)) with (allEventsData pg).
  rewrite Hdata.
  unfold mbind at 1. unfold M_bind at 1. unfold lift at 1.
  rewrite (get_record _ _ Hobj), Hall. cbn [mbind result_bind length_of].
  unfold mbind at 1. unfold M_bind at 1.
  rewrite updateFilterInfo_line.
  unfold mbind at 1. unfold M_bind at 1.
  rewrite (MassPlot.createPlot_robust _ _ Hrec).
  unfold mbind at 1. unfold M_bind at 1.
  rewrite (createMassHistograms_view _ _ Hrec).
  unfold mbind at 1. unfold M_bind at 1.
  rewrite (createSpinPlot_view _ _ Hrec).
  rewrite (createTimelinePlot_view _ _ Hrec).
  reflexivity.
Qed.

Lemma view_globals (events : list value) (total : value) (pg : page) :
  allEventsData (view events total pg) = allEventsData pg /\
  allEventsList (view events total pg) = allEventsList pg.
Proof. split; reflexivity. Qed.


Lemma strict_eq_of_nat (a b : nat) :
  strict_eq (of_nat a) (of_nat b) = true <-> a = b.
Proof.
  unfold of_nat. simpl. rewrite Qeq_bool_iff, inject_Z_injective.
  lia.
Qed.

Lemma onCatalogChange_view (selected : string) (events : list value)
    (data : value) (pg : page) :
  records events -> allEventsData pg = data -> is_record data = true ->
  field "events" data = Arr events ->
  Robust.onCatalogChange selected pg
  = (Ok tt, view (selection selected events) (of_nat (length events)) pg).
Proof.
  intros Hrec Hdata Hobj Hev. unfold Robust.onCatalogChange, selection.
  unfold mbind at 1. unfold M_bind at 1. unfold read_allEventsData at 1.
  rewrite Hdata.
  destruct (strict_eq (Str selected) (Str "all")).
  - unfold mbind at 1. unfold M_bind at 1. unfold lift at 1.
    rewrite (get_record _ _ Hobj), Hev.
    apply (displayEvents_view events events data pg Hrec Hdata Hobj Hev).
  - unfold mbind at 1. unfold M_bind at 1. unfold lift at 1.
    rewrite (get_record _ _ Hobj), Hev. cbn [mbind result_bind array_of].
    rewrite (filterM_pure _
               (fun e => strict_eq (field "catalog" e) (Str selected))).
    2:{ eapply List.Forall_impl; [|exact Hrec]. intros e He.
        rewrite (get_record _ _ He). reflexivity. }
    apply (displayEvents_view _ events data pg); try assumption.
    apply records_filter. exact Hrec.
Qed.

End WithHost.
End DisplayFacts.

(** ** Frame rules for the page monad *)

Module FrameFacts.
Import JS Page Common Records PageFacts WriteFacts Display Frame.

Lemma lookup_write (id : string) (f : element -> element) (pg : page)
    (i : string) :
  document (write id f pg) !! i
  = if decide (id = i) then f <$> document pg !! i else document pg !! i.
Proof.
  unfold write. simpl. destruct (decide (id = i)) as [<- | Hne].
  - apply lookup_alter_eq.
  - apply lookup_alter_ne. exact Hne.
Qed.

Lemma lookup_write_eqb (id : string) (f : element -> element) (pg : page)
    (i : string) :
  document (write id f pg) !! i
  = if String.eqb id i then f <$> document pg !! i else document pg !! i.
Proof.
  rewrite lookup_write. destruct (String.eqb_spec id i);
    [rewrite decide_True by assumption | rewrite decide_False by assumption];
    reflexivity.
Qed.

Lemma lookup_write_same (id : string) (f : element -> element) (pg : page) :
  document (write id f pg) !! id = f <$> document pg !! id.
Proof. apply lookup_alter_eq. Qed.

Lemma lookup_write_other (id : string) (f : element -> element) (pg : page)
    (i : string) :
  String.eqb id i = false ->
  document (write id f pg) !! i = document pg !! i.
Proof. intros E. rewrite lookup_write_eqb, E. reflexivity. Qed.



Lemma wrote_only_refl (ids : list string) (pg : page) :
  wrote_only ids pg pg.
Proof. split; [intros id _; reflexivity | tauto]. Qed.

Lemma wrote_only_trans (ids : list string) (pg1 pg2 pg3 : page) :
  wrote_only ids pg1 pg2 -> wrote_only ids pg2 pg3 ->
  wrote_only ids pg1 pg3.
Proof.
  intros [U1 N1] [U2 N2]. split.
  - intros id Hid. rewrite (U2 id Hid). apply U1, Hid.
  - intros id. rewrite N2. apply N1.
Qed.

Lemma wrote_only_write (ids : list string) (id : string)
    (f : element -> element) (pg : page) :
  In id ids -> wrote_only ids pg (write id f pg).
Proof.
  intros Hin. split.
  - intros i Hi. apply document_write_ne. intros <-. contradiction.
  - intros i. rewrite lookup_write. destruct (decide (id = i)); [|tauto].
    apply fmap_None.
Qed.

Lemma wrote_only_incl (ids ids' : list string) (pg pg' : page) :
  incl ids ids' -> wrote_only ids pg pg' -> wrote_only ids' pg pg'.
Proof.
  intros Hincl [U N]. split; [|exact N].
  intros id Hid. apply U. intros Hin. apply Hid, Hincl, Hin.
Qed.

Section Rules.
Variable R : page -> page -> Prop.
Hypothesis R_refl : forall pg, R pg pg.
Hypothesis R_trans : forall pg1 pg2 pg3, R pg1 pg2 -> R pg2 pg3 -> R pg1 pg3.

Lemma stays_pure {A} (m : M A) :
  (forall pg, snd (m pg) = pg) -> stays R m.
Proof.
  intros Hm pg r pg' E. specialize (Hm pg). rewrite E in Hm. simpl in Hm.
  subst pg'. apply R_refl.
Qed.

Lemma stays_ret {A} (a : A) : stays R (mret a).
Proof. apply stays_pure. reflexivity. Qed.

Lemma stays_lift {A} (r : result A) : stays R (lift r).
Proof. apply stays_pure. reflexivity. Qed.

Lemma stays_throw {A} (e : error) : stays R (throw (A := A) e).
Proof. apply stays_pure. reflexivity. Qed.

Lemma stays_getElementById (id : string) : stays R (getElementById id).
Proof. apply stays_pure. reflexivity. Qed.

Lemma stays_read_data : stays R read_allEventsData.
Proof. apply stays_pure. reflexivity. Qed.

Lemma stays_read_list : stays R read_allEventsList.
Proof. apply stays_pure. reflexivity. Qed.

Lemma stays_bind {A B} (m : M A) (k : A -> M B) :
  stays R m -> (forall a, stays R (k a)) -> stays R (m ≫= k).
Proof.
  intros Hm Hk pg r pg'. unfold mbind, M_bind.
  destruct (m pg) as [[a|e] pg1] eqn:E; intros E'.
  - eapply R_trans; [eapply Hm, E | eapply Hk, E'].
  - injection E' as <- <-. eapply Hm, E.
Qed.

Lemma stays_try_catch {A} (body : M A) (handler : error -> M A) :
  stays R body -> (forall e, stays R (handler e)) ->
  stays R (try_catch body handler).
Proof.
  intros Hb Hh pg r pg'. unfold try_catch.
  destruct (body pg) as [[a|e] pg1] eqn:E; intros E'.
  - injection E' as <- <-. eapply Hb, E.
  - eapply R_trans; [eapply Hb, E | eapply Hh, E'].
Qed.

Lemma stays_forEach {A} (f : A -> M unit) (l : list A) :
  (forall a, stays R (f a)) -> stays R (forEach f l).
Proof.
  intros Hf. induction l as [|a l IH]; simpl.
  - apply stays_ret.
  - apply stays_bind; [apply Hf | intros _; exact IH].
Qed.

Lemma stays_update (id : string) (f : element -> element) :
  (forall pg, R pg (write id f pg)) -> stays R (update id f).
Proof.
  intros Hw pg r pg'. unfold update.
  destruct (document pg !! id); intros [= <- <-]; [apply Hw | apply R_refl].
Qed.

End Rules.

Lemma within_refl (ids : list string) (pg : page) : within ids pg pg.
Proof. split; [apply wrote_only_refl | reflexivity]. Qed.

Lemma within_trans (ids : list string) (pg1 pg2 pg3 : page) :
  within ids pg1 pg2 -> within ids pg2 pg3 -> within ids pg1 pg3.
Proof.
  intros [W1 L1] [W2 L2]. split.
  - eapply wrote_only_trans; eassumption.
  - congruence.
Qed.

Lemma display_only_refl (ids : list string) (pg : page) :
  display_only ids pg pg.
Proof. split; [apply within_refl | reflexivity]. Qed.

Lemma display_only_trans (ids : list string) (pg1 pg2 pg3 : page) :
  display_only ids pg1 pg2 -> display_only ids pg2 pg3 ->
  display_only ids pg1 pg3.
Proof.
  intros [W1 L1] [W2 L2]. split.
  - eapply within_trans; eassumption.
  - congruence.
Qed.

Lemma display_only_write (ids : list string) (id : string)
    (f : element -> element) (pg : page) :
  In id ids -> display_only ids pg (write id f pg).
Proof.
  intros Hin. split; [split|]; [apply wrote_only_write, Hin | |]; reflexivity.
Qed.

Lemma display_only_within (ids : list string) {A} (m : M A) :
  stays (display_only ids) m -> stays (within ids) m.
Proof. intros Hm pg r pg' E. apply (Hm pg r pg' E). Qed.

End FrameFacts.
(** ** What the scripts never touch *)

Module Confined.
Import JS Page Common Records PageFacts WriteFacts Display Frame FrameFacts.

Lemma stays_weaken {A} (R R' : page -> page -> Prop) (m : M A) :
  (forall pg pg', R pg pg' -> R' pg pg') -> stays R m -> stays R' m.
Proof. intros HR Hm pg r pg' E. apply HR. exact (Hm pg r pg' E). Qed.

Lemma display_only_incl (ids ids' : list string) (pg pg' : page) :
  incl ids ids' -> display_only ids pg pg' -> display_only ids' pg pg'.
Proof.
  intros Hincl [[W L] D]. split; [split|]; try assumption.
  eapply wrote_only_incl; eassumption.
Qed.

(** Splits a computation along its binds and branches; what is left are
    the calls of other functions. *)
Ltac confine ids :=
  repeat match goal with
  | |- stays _ (_ ≫= _) =>
      apply stays_bind; [apply display_only_trans | | intros ?]
  | |- stays _ (mret _) => apply stays_ret, display_only_refl
  | |- stays _ (lift _) => apply stays_lift, display_only_refl
  | |- stays _ (throw _) => apply stays_throw, display_only_refl
  | |- stays _ (getElementById _) =>
      apply stays_getElementById, display_only_refl
  | |- stays _ read_allEventsData =>
      apply stays_read_data, display_only_refl
  | |- stays _ read_allEventsList =>
      apply stays_read_list, display_only_refl
  | |- stays _ (update _ _) =>
      apply stays_update;
      [apply display_only_refl
      | intros ?; apply display_only_write; simpl; tauto]
  | |- stays _ (forEach _ _) =>
      apply stays_forEach;
      [apply display_only_refl | apply display_only_trans | intros ?]
  | |- stays _ (match ?x with _ => _ end) => destruct x
  end.

Section WithHost.
Context `{Builtins}.

Lemma updateStats_robust_confined (events : value) :
  stays (display_only Display.view_ids) (Robust.updateStats events).
Proof. unfold Robust.updateStats, Robust.setText. confine Display.view_ids. Qed.

Lemma displayEvents_robust_confined (events : value) :
  stays (display_only Display.view_ids) (Robust.displayEvents events).
Proof.
  unfold Robust.displayEvents.
  apply stays_bind;
    [apply display_only_trans | apply updateStats_robust_confined | intros _].
  unfold Robust.updateFilterInfo, Robust.createPlot,
    Robust.createMassHistograms, Robust.createSpinPlot,
    Robust.createTimelinePlot.
  confine Display.view_ids.
Qed.

Lemma populateCatalogFilter_robust_confined (events : value) :
  stays (display_only Display.loader_ids) (Robust.populateCatalogFilter events).
Proof.
  unfold Robust.populateCatalogFilter. confine Display.loader_ids.
Qed.

Lemma updateLastUpdate_confined (updated : value) :
  stays (display_only Display.loader_ids) (Robust.updateLastUpdate updated).
Proof. unfold Robust.updateLastUpdate. confine Display.loader_ids. Qed.

Lemma displayEvents_docs_confined (events : value) :
  stays (display_only Records.view_ids) (Docs.displayEvents events).
Proof.
  unfold Docs.displayEvents, Docs.updateStats, Docs.createPlot,
    Docs.updateFilterInfo.
  confine Records.view_ids.
Qed.

End WithHost.
End Confined.
(** ** The fail-soft script on the page *)

Module RobustPage.
Import JS Page Common Records PageFacts RecordFacts SpinPlot WriteFacts
  Display Frame FrameFacts DisplayFacts Confined.

(** Looks an element up in a page given by its writes. *)
Ltac element_of_view :=
  repeat first
    [ rewrite lookup_write_same
    | rewrite lookup_write_other by (reflexivity || assumption) ];
  try reflexivity.


Section WithHost.
Context `{Builtins}.

Lemma view_elements (events : list value) (total : value) (pg : page) :
  let n := of_nat (length events) in
  document (view events total pg) !! "totalEvents"
  = set_textContent n <$> document pg !! "totalEvents" /\
  document (view events total pg) !! "bbhCount"
  = set_textContent (of_nat (length (of_type "BBH" events)))
      <$> document pg !! "bbhCount" /\
  document (view events total pg) !! "nsbhCount"
  = set_textContent (of_nat (length (of_type "NSBH" events)))
      <$> document pg !! "nsbhCount" /\
  document (view events total pg) !! "bnsCount"
  = set_textContent (of_nat (length (of_type "BNS" events)))
      <$> document pg !! "bnsCount" /\
  document (view events total pg) !! "filterInfo"
  = set_textContent (Str (filter_line n total))
      <$> document pg !! "filterInfo" /\
  document (view events total pg) !! "massPlot"
  = newPlot (mass_plot events) <$> document pg !! "massPlot" /\
  document (view events total pg) !! "massHistogram"
  = newPlot (histograms events) <$> document pg !! "massHistogram" /\
  document (view events total pg) !! "spinPlot"
  = spin events <$> document pg !! "spinPlot" /\
  document (view events total pg) !! "timelinePlot"
  = newPlot [timeline events] <$> document pg !! "timelinePlot".
Proof.
  unfold view, stats_page.
  repeat match goal with |- _ /\ _ => split end; element_of_view.
Qed.


Lemma selection_records (selected : string) (events : list value) :
  records events -> records (selection selected events).
Proof.
  intros Hrec. unfold selection.
  destruct (strict_eq (Str selected) (Str "all")); [exact Hrec|].
  apply records_filter, Hrec.
Qed.





Lemma loadData_catch_robust (e : error) (pg : page) :
  Robust.loadData_catch e pg
  = (Ok tt, write "massPlot" (set_innerHTML Robust.failure_notice) pg).
Proof.
  unfold Robust.loadData_catch, mbind, M_bind, getElementById.
  apply guarded_write.
Qed.

Lemma loadData_robust_confined (response : fetched) :
  stays (within loader_ids) (Robust.loadData response).
Proof.
  unfold Robust.loadData. apply stays_try_catch; [apply within_trans | |].
  - unfold Robust.loadData_try.
    apply stays_bind; [apply within_trans | | intros data].
    { destruct response as [|[|] [|d]]; apply stays_pure;
        try apply within_refl; reflexivity. }
    apply stays_bind; [apply within_trans | apply stays_lift, within_refl|].
    intros [|]; [apply stays_throw, within_refl|].
    apply stays_bind; [apply within_trans | | intros _].
    { intros pg r pg' [= <- <-].
      split; [split; [intros id _; reflexivity | intros id; simpl; tauto]
             | reflexivity]. }
    apply stays_bind;
      [apply within_trans | apply stays_lift, within_refl | intros events].
    apply stays_bind; [apply within_trans | | intros _].
    { apply display_only_within, populateCatalogFilter_robust_confined. }
    apply stays_bind; [apply within_trans | | intros _].
    { apply display_only_within.
      eapply stays_weaken; [|apply displayEvents_robust_confined].
      intros pg pg'. apply display_only_incl.
      intros id Hid. right. right. exact Hid. }
    apply stays_bind;
      [apply within_trans | apply stays_lift, within_refl | intros updated].
    apply display_only_within, updateLastUpdate_confined.
  - intros e. apply display_only_within.
    unfold Robust.loadData_catch. confine loader_ids.
Qed.

(** X7 (fail-soft script, loadData).  The fail-soft loader never throws
    and keeps to its own elements: whatever the fetch delivers (no
    answer, an error status, text that is not JSON, JSON of any shape,
    events that are no records) and whichever elements the page has, it
    returns normally; the elements outside its own eleven are as they
    were, no element appears or disappears. *)
Theorem robust_loader_fail_soft (response : fetched) (pg : page) :
  exists pg',
    Robust.loadData response pg = (Ok tt, pg') /\
    unchanged_outside loader_ids pg pg' /\
    (forall id, document pg' !! id = None <-> document pg !! id = None) /\
    allEventsList pg' = allEventsList pg.
Proof.
  destruct (Robust.loadData response pg) as [r pg'] eqn:E.
  destruct (loadData_robust_confined response pg r pg' E) as [[U N] L].
  exists pg'. split; [|split; [exact U | split; [exact N | exact L]]].
  f_equal. unfold Robust.loadData, try_catch in E.
  destruct (Robust.loadData_try response pg) as [[[]|e] pg1].
  - injection E as <- _. reflexivity.
  - rewrite loadData_catch_robust in E. injection E as <- _. reflexivity.
Qed.

(** X8 (loadData of the fail-soft and of the published script).  When
    the fetch delivers no document (the request fails or the status is
    no success; the body is then never read), both loaders only put
    their notice into the plot area.  The fail-soft one returns normally
    also without a plot area; the published one then fails with a
    TypeError from inside its catch block. *)
Theorem fetch_failure_notice (response : fetched) (pg : page) :
  unreachable response ->
  Robust.loadData response pg
  = (Ok tt, write "massPlot" (set_innerHTML Robust.failure_notice) pg) /\
  Docs.loadData response pg
  = (match document pg !! "massPlot" with
     | Some _ => Ok tt
     | None => Throw TypeError
     end,
     write "massPlot" (set_innerHTML Docs.failure_notice) pg).
Proof.
  intros Hun.
  assert (Hr : exists e, Robust.loadData_try response pg = (Throw e, pg)).
  { destruct response as [|[|] b]; simpl in Hun; try discriminate; eauto. }
  assert (Hd : exists e, Docs.loadData_try response pg = (Throw e, pg)).
  { destruct response as [|[|] b]; simpl in Hun; try discriminate; eauto. }
  destruct Hr as [e1 Hr], Hd as [e2 Hd]. split.
  - unfold Robust.loadData, try_catch. rewrite Hr.
    apply loadData_catch_robust.
  - unfold Docs.loadData, try_catch. rewrite Hd.
    unfold Docs.loadData_catch, update.
    destruct (document pg !! "massPlot") eqn:E; [reflexivity|].
    rewrite (write_absent _ _ _ E). reflexivity.
Qed.

End WithHost.



Lemma fetch_failure_notice_witness :
  Robust.loadData (H := Host.sample) NetworkFailure Samples.fresh
  = (Ok tt,
     write "massPlot" (set_innerHTML Robust.failure_notice) Samples.fresh).
Proof.
  exact (proj1 (fetch_failure_notice (H := Host.sample) NetworkFailure
                  Samples.fresh I)).
Defined.

End RobustPage.
(** ** Loading a catalogue document *)

Module Loading.
Import JS Page Common Records PageFacts RecordFacts SpinPlot WriteFacts
  Display Frame FrameFacts DisplayFacts Confined RobustPage.

Ltac listed_in := intros ? ?; simpl in *; tauto.

Section WithHost.
Context `{Builtins}.







Lemma bind_ok {A B} (m : M A) (k : A -> M B) (pg pg' : page) (b : B) :
  (m ≫= k) pg = (Ok b, pg') ->
  exists a pg1, m pg = (Ok a, pg1) /\ k a pg1 = (Ok b, pg').
Proof.
  unfold mbind, M_bind. destruct (m pg) as [[a|e] pg1]; [eauto | discriminate].
Qed.

Lemma updateStats_docs_confined (events : value) :
  stays (display_only Records.view_ids) (Docs.updateStats events).
Proof. unfold Docs.updateStats. confine Records.view_ids. Qed.

Lemma populateCatalogFilter_docs_confined (events : value) :
  stays (display_only ["catalogFilter"]) (Docs.populateCatalogFilter events).
Proof. unfold Docs.populateCatalogFilter. confine ["catalogFilter"]. Qed.

Lemma display_only_wrote (ids ids' : list string) {A} (m : M A) :
  incl ids ids' -> stays (display_only ids) m -> stays (wrote_only ids') m.
Proof.
  intros Hincl Hm pg r pg' E. eapply wrote_only_incl; [exact Hincl|].
  apply (Hm pg r pg' E).
Qed.

Lemma wrote_only_assign (ids : list string) (pg pg' : page) :
  document pg' = document pg -> wrote_only ids pg pg'.
Proof.
  intros Hd. split; [intros id _ | intros id]; rewrite Hd; tauto.
Qed.

Lemma loadData_try_docs_confined (response : fetched) :
  stays (wrote_only docs_ids) (Docs.loadData_try response).
Proof.
  unfold Docs.loadData_try.
  apply stays_bind; [apply wrote_only_trans | | intros data].
  { destruct response as [|[|] [|d]]; apply stays_pure;
      try apply wrote_only_refl; reflexivity. }
  apply stays_bind; [apply wrote_only_trans | | intros _].
  { intros pg r pg' [= <- <-]. apply wrote_only_assign. reflexivity. }
  apply stays_bind;
    [apply wrote_only_trans | apply stays_lift, wrote_only_refl|].
  intros all_events.
  apply stays_bind; [apply wrote_only_trans | | intros all].
  { destruct (truthy all_events);
      [apply stays_ret | apply stays_lift]; apply wrote_only_refl. }
  apply stays_bind; [apply wrote_only_trans | | intros _].
  { intros pg r pg' [= <- <-]. apply wrote_only_assign. reflexivity. }
  apply stays_bind;
    [apply wrote_only_trans | apply stays_lift, wrote_only_refl|].
  intros events.
  apply stays_bind; [apply wrote_only_trans | | intros _].
  { eapply display_only_wrote; [|apply populateCatalogFilter_docs_confined].
    listed_in. }
  apply stays_bind; [apply wrote_only_trans | | intros _].
  { eapply display_only_wrote; [|apply displayEvents_docs_confined].
    listed_in. }
  apply stays_bind;
    [apply wrote_only_trans | apply stays_lift, wrote_only_refl|].
  intros updated.
  apply stays_bind; [apply wrote_only_trans | | intros _];
    (apply stays_update;
     [apply wrote_only_refl
     | intros pg; apply wrote_only_write; simpl; tauto]).
Qed.

Lemma createPlot_needs_plot_area (events : value) (pg pg' : page) :
  Docs.createPlot events pg = (Ok tt, pg') ->
  is_Some (document pg !! "massPlot").
Proof.
  unfold Docs.createPlot. intros E.
  apply bind_ok in E as (traces & pg1 & E1 & E).
  injection E1 as _ <-.
  apply bind_ok in E as (plot & pg2 & E2 & E).
  injection E2 as <- <-.
  destruct (document pg !! "massPlot"); [eauto | discriminate].
Qed.

Lemma displayEvents_needs_plot_area (events : value) (pg pg' : page) :
  Docs.displayEvents events pg = (Ok tt, pg') ->
  is_Some (document pg !! "massPlot").
Proof.
  unfold Docs.displayEvents. intros E.
  apply bind_ok in E as ([] & pg1 & E1 & E).
  apply bind_ok in E as ([] & pg2 & E2 & _).
  apply createPlot_needs_plot_area in E2.
  destruct (updateStats_docs_confined events pg _ _ E1) as [[[_ N] _] _].
  destruct (document pg !! "massPlot") eqn:Em; [eauto|].
  apply N in Em. rewrite Em in E2. destruct E2 as [x [=]].
Qed.

Lemma loadData_try_needs_plot_area (response : fetched) (pg pg' : page) :
  Docs.loadData_try response pg = (Ok tt, pg') ->
  is_Some (document pg !! "massPlot").
Proof.
  unfold Docs.loadData_try. intros E.
  apply bind_ok in E as (data & pg1 & E1 & E).
  assert (pg1 = pg) as ->.
  { destruct response as [|[|] [|d]]; try discriminate.
    injection E1 as _ <-. reflexivity. }
  apply bind_ok in E as ([] & pg2 & [= <-] & E).
  apply bind_ok in E as (ae & pg3 & [= _ <-] & E).
  apply bind_ok in E as (all & pg4 & E4 & E).
  assert (pg4 = {| document := document pg; allEventsData := data;
                   allEventsList := allEventsList pg |}) as ->.
  { destruct (truthy ae); injection E4 as _ <-; reflexivity. }
  apply bind_ok in E as ([] & pg5 & [= <-] & E).
  apply bind_ok in E as (events & pg6 & [= _ <-] & E).
  apply bind_ok in E as ([] & pg7 & E7 & E).
  apply bind_ok in E as ([] & pg8 & E8 & _).
  apply displayEvents_needs_plot_area in E8.
  destruct (populateCatalogFilter_docs_confined events _ _ _ E7)
    as [[[_ N] _] _].
  destruct (document pg !! "massPlot") eqn:Em; [eauto|].
  specialize (N "massPlot"). simpl in N. apply N in Em.
  rewrite Em in E8. destruct E8 as [x [=]].
Qed.

(** X10 (docs/script.js, loadData).  On a page without the plot area
    the published loader never completes: whatever the fetch delivers,
    the try block fails (at the latest in [Plotly.newPlot]), the catch
    block then fails on the missing element, and the call ends in a
    TypeError.  Also then only the script's own elements can have
    changed, and none appeared or disappeared. *)
Theorem docs_loader_needs_plot_area (response : fetched) (pg : page) :
  document pg !! "massPlot" = None ->
  exists pg',
    Docs.loadData response pg = (Throw TypeError, pg') /\
    unchanged_outside docs_ids pg pg' /\
    (forall id, document pg' !! id = None <-> document pg !! id = None).
Proof.
  intros Hno. unfold Docs.loadData, try_catch.
  destruct (Docs.loadData_try response pg) as [[[]|e] pg1] eqn:E.
  - apply loadData_try_needs_plot_area in E. rewrite Hno in E.
    destruct E as [x [=]].
  - destruct (loadData_try_docs_confined response pg _ _ E) as [U N].
    exists pg1. split; [|split; assumption].
    unfold Docs.loadData_catch, update.
    rewrite (proj2 (N "massPlot") Hno). reflexivity.
Qed.



End WithHost.


Lemma docs_loader_needs_plot_area_witness :
  exists pg',
    Docs.loadData (H := Host.sample)
      (Response true (Json Samples.snapshot))
      {| document := ∅; allEventsData := Null; allEventsList := Arr [] |}
    = (Throw TypeError, pg').
Proof.
  assert (Hno : document {| document := ∅; allEventsData := Null;
                            allEventsList := Arr [] |} !! "massPlot" = None)
    by apply lookup_empty.
  destruct (docs_loader_needs_plot_area (H := Host.sample)
              (Response true (Json Samples.snapshot))
              {| document := ∅; allEventsData := Null;
                 allEventsList := Arr [] |} Hno)
    as (pg' & Hrun & _).
  exists pg'. exact Hrun.
Defined.


End Loading.

(** ** The per-type timeline *)

Module TallyFacts.
Import JS Page Common Records PageFacts RecordFacts SpinPlot Display
  DisplayFacts Tallies.



Lemma filter_perm {A} (p : A -> bool) (l l' : list A) :
  Permutation l l' -> Permutation (List.filter p l) (List.filter p l').
Proof.
  induction 1 as [|x l l' _ IH|x y l|l1 l2 l3 _ IH1 _ IH2]; simpl.
  - reflexivity.
  - destruct (p x); [constructor|]; exact IH.
  - destruct (p x), (p y); try reflexivity. apply perm_swap.
  - etransitivity; eassumption.
Qed.

Lemma step_record (t : Plots.tally) (e : value) :
  is_record e = true ->
  Plots.step t e
  = Ok (if dated e
        then {| Plots.dates := Plots.dates t ++ [field "detection_date" e];
                Plots.counts :=
                  Plots.counts t ++ [of_nat (S (Plots.totalCount t))];
                Plots.bbhCounts :=
                  Plots.bbhCounts t ++ running "BBH" (Plots.bbhCount t) [e];
                Plots.nsbhCounts :=
                  Plots.nsbhCounts t ++ running "NSBH" (Plots.nsbhCount t) [e];
                Plots.bnsCounts :=
                  Plots.bnsCounts t ++ running "BNS" (Plots.bnsCount t) [e];
                Plots.totalCount := S (Plots.totalCount t);
                Plots.bbhCount :=
                  if typed "BBH" e then S (Plots.bbhCount t)
                  else Plots.bbhCount t;
                Plots.nsbhCount :=
                  if typed "NSBH" e then S (Plots.nsbhCount t)
                  else Plots.nsbhCount t;
                Plots.bnsCount :=
                  if typed "BNS" e then S (Plots.bnsCount t)
                  else Plots.bnsCount t |}
        else t).
Proof.
  intros He. unfold Plots.step, dated.
  rewrite !(get_record _ _ He). cbn [mbind result_bind].
  destruct (strict_eq (field "detection_date" e) (Str "Unknown"));
    reflexivity.
Qed.

Lemma run_records (l : list value) (t : Plots.tally) :
  records l ->
  Plots.run l t
  = Ok {| Plots.dates :=
            Plots.dates t
            ++ List.map (field "detection_date") (List.filter dated l);
          Plots.counts :=
            Plots.counts t
            ++ List.map of_nat
                 (seq (S (Plots.totalCount t))
                    (length (List.filter dated l)));
          Plots.bbhCounts :=
            Plots.bbhCounts t
            ++ running "BBH" (Plots.bbhCount t) (List.filter dated l);
          Plots.nsbhCounts :=
            Plots.nsbhCounts t
            ++ running "NSBH" (Plots.nsbhCount t) (List.filter dated l);
          Plots.bnsCounts :=
            Plots.bnsCounts t
            ++ running "BNS" (Plots.bnsCount t) (List.filter dated l);
          Plots.totalCount :=
            Plots.totalCount t + length (List.filter dated l);
          Plots.bbhCount :=
            Plots.bbhCount t
            + length (of_type "BBH" (List.filter dated l));
          Plots.nsbhCount :=
            Plots.nsbhCount t
            + length (of_type "NSBH" (List.filter dated l));
          Plots.bnsCount :=
            Plots.bnsCount t
            + length (of_type "BNS" (List.filter dated l)) |}.
Proof.
  intros Hrec. revert t. induction Hrec as [|e l He _ IH]; intros t.
  - destruct t. simpl. rewrite !app_nil_r, !Nat.add_0_r. reflexivity.
  - cbn [Plots.run]. rewrite (step_record _ _ He). cbn [mbind result_bind].
    cbn [List.filter]. destruct (dated e); [|apply IH].
    rewrite IH. cbn [Plots.dates Plots.counts Plots.bbhCounts
                     Plots.nsbhCounts Plots.bnsCounts Plots.totalCount
                     Plots.bbhCount Plots.nsbhCount Plots.bnsCount].
    unfold of_type. cbn [List.filter List.map length running seq].
    rewrite <- !app_assoc. cbn [app].
    f_equal. f_equal; try lia;
      destruct (typed _ e); cbn [length]; lia.
Qed.

Section WithHost.
Context `{Builtins}.

Lemma by_date_plots (a b : value) :
  is_record a = true -> is_record b = true ->
  Plots.by_date a b = Ok (date_difference a b).
Proof.
  intros Ha Hb. unfold Plots.by_date, date_difference.
  rewrite (get_record _ _ Ha), (get_record _ _ Hb). reflexivity.
Qed.

Lemma timeline_lines (events : list value) :
  records events -> Plots.timeline (Arr events) = Ok (lines events).
Proof.
  intros Hrec. unfold Plots.timeline. cbn [spread mbind result_bind].
  rewrite (sort_by_with _ date_difference).
  2:{ intros a b Ha Hb. unfold records in Hrec.
      rewrite List.Forall_forall in Hrec.
      apply by_date_plots; apply Hrec; assumption. }
  cbn [mbind result_bind].
  rewrite run_records.
  2:{ apply (Totality.records_perm _ _ (sort_with_perm _ _)). exact Hrec. }
  reflexivity.
Qed.

Lemma has_date_iff (e : value) :
  has_date e = true <->
  truthy (field "detection_date" e) = true
  /\ field "detection_date" e <> Str "Unknown".
Proof.
  unfold has_date, and_then.
  destruct (truthy (field "detection_date" e)) eqn:T.
  - cbn [truthy]. rewrite negb_true_iff, <- not_true_iff_false, strict_eq_Str.
    tauto.
  - rewrite T. split; [discriminate | intros [[=] _]].
Qed.

Lemma dated_iff (e : value) :
  dated e = true <-> field "detection_date" e <> Str "Unknown".
Proof.
  unfold dated. rewrite negb_true_iff, <- not_true_iff_false, strict_eq_Str.
  tauto.
Qed.

Lemma has_date_dated (e : value) : has_date e = true -> dated e = true.
Proof. rewrite has_date_iff, dated_iff. tauto. Qed.


Lemma filter_length_impl {A} (p q : A -> bool) (l : list A) :
  (forall a, p a = true -> q a = true) ->
  length (List.filter p l) <= length (List.filter q l).
Proof.
  intros Hpq. induction l as [|a l IH]; simpl; [lia|].
  destruct (p a) eqn:P.
  - rewrite (Hpq a P). simpl. lia.
  - destruct (q a); simpl; lia.
Qed.

Lemma plotted_perm (events : list value) :
  Permutation (plotted events) (List.filter dated events).
Proof. apply filter_perm, sort_with_perm. Qed.

Lemma on_timeline_perm (events : list value) :
  Permutation (on_timeline events) (List.filter has_date events).
Proof. apply sort_with_perm. Qed.



(** X15 (createTimelinePlot of the fail-soft and of the per-type
    revision).  The two revisions differ on records without a usable
    date.  The fail-soft timeline has a point for a record exactly when
    its date is truthy and not 'Unknown'; the per-type timeline has one
    whenever the date is not the string 'Unknown', so also for a record
    whose date is missing, null or empty.  It never has fewer points. *)
Theorem timelines_on_undated (events : list value) :
  records events ->
  exists t total bbh nsbh bns,
    Robust.timeline (Arr events) = Ok t /\
    Plots.timeline (Arr events) = Ok [total; bbh; nsbh; bns] /\
    (forall x, In x (tr_x t) <->
       exists e, In e events /\ field "detection_date" e = x
                 /\ truthy x = true /\ x <> Str "Unknown") /\
    (forall x, In x (tr_x total) <->
       exists e, In e events /\ field "detection_date" e = x
                 /\ x <> Str "Unknown") /\
    length (tr_x t) = length (List.filter has_date events) /\
    length (tr_x total) = length (List.filter dated events) /\
    length (tr_x t) <= length (tr_x total).
Proof.
  intros Hrec. do 5 eexists.
  split; [exact (timeline_records events Hrec)|].
  split; [exact (timeline_lines events Hrec)|].
  cbn [tr_x Plots.line timeline].
  assert (L1 : length (on_timeline events)
               = length (List.filter has_date events))
    by apply Permutation_length, on_timeline_perm.
  assert (L2 : length (plotted events) = length (List.filter dated events))
    by apply Permutation_length, plotted_perm.
  repeat match goal with |- _ /\ _ => split end.
  - intros x. rewrite List.in_map_iff. split.
    + intros (e & <- & He).
      apply (Permutation_in _ (on_timeline_perm events)) in He.
      apply List.filter_In in He as [He Hd]. apply has_date_iff in Hd.
      exists e. tauto.
    + intros (e & He & <- & Ht & Hu). exists e. split; [reflexivity|].
      apply (Permutation_in _ (Permutation_sym (on_timeline_perm events))).
      apply List.filter_In. split; [exact He|]. apply has_date_iff. tauto.
  - intros x. rewrite List.in_map_iff. split.
    + intros (e & <- & He).
      apply (Permutation_in _ (plotted_perm events)) in He.
      apply List.filter_In in He as [He Hd]. apply dated_iff in Hd.
      exists e. tauto.
    + intros (e & He & <- & Hu). exists e. split; [reflexivity|].
      apply (Permutation_in _ (Permutation_sym (plotted_perm events))).
      apply List.filter_In. split; [exact He|]. apply dated_iff. exact Hu.
  - rewrite length_map. exact L1.
  - rewrite length_map. exact L2.
  - rewrite !length_map, L1, L2. apply filter_length_impl.
    intros e. apply has_date_dated.
Qed.

End WithHost.


Lemma timelines_on_undated_witness :
  exists t,
    Robust.timeline (H := Host.sample) (Arr Samples.events) = Ok t.
Proof.
  assert (Hrec : records Samples.events) by repeat constructor.
  destruct (timelines_on_undated (H := Host.sample) Samples.events Hrec)
    as (t & _ & _ & _ & _ & Ht & _).
  exists t. exact Ht.
Defined.

End TallyFacts.

(** ** The statistics cards on an array that holds more than records *)

Module StatsFacts.
Import JS Page Common Records PageFacts RecordFacts Shape.

Lemma has_type_throws (type : string) (e : value) (err : error) :
  has_type type e = Throw err -> err = TypeError.
Proof.
  unfold has_type. destruct e; simpl; intros [=]; congruence.
Qed.

Lemma filter_type_throws (type : string) (l : list value) :
  (exists e, In e l /\ no_object e) ->
  filterM (has_type type) l = Throw TypeError.
Proof.
  intros (e & Hin & He). induction l as [|a l IH]; [contradiction|].
  simpl. destruct (has_type type a) as [b|err] eqn:E.
  - simpl. rewrite IH; [reflexivity|].
    destruct Hin as [-> | Hin]; [|exact Hin].
    destruct He as [-> | ->]; discriminate.
  - simpl. f_equal. eapply has_type_throws, E.
Qed.

(** X12 (updateStats of the published and of the fail-soft script).
    On an array with an element that is no object (a [null] among the
    events), both fail with a TypeError at the first count.  The
    published script has written nothing by then; the fail-soft one,
    which writes each card as soon as its count is known, has already
    put the length of the array into the card of the total. *)
Theorem updateStats_on_missing_record (l : list value) (pg : page) :
  (exists e, In e l /\ no_object e) ->
  Docs.updateStats (Arr l) pg = (Throw TypeError, pg) /\
  Robust.updateStats (Arr l) pg
  = (Throw TypeError,
     write "totalEvents" (set_textContent (of_nat (length l))) pg).
Proof.
  intros Hbad. split.
  - unfold Docs.updateStats, mbind, M_bind, lift. cbn [length_of].
    unfold count_type. cbn [array_of mbind result_bind].
    rewrite (filter_type_throws _ _ Hbad). reflexivity.
  - unfold Robust.updateStats.
    unfold mbind at 1. unfold M_bind at 1. unfold lift at 1. cbn [length_of].
    unfold mbind at 1. unfold M_bind at 1.
    rewrite Totality.setText_run.
    unfold mbind at 1. unfold M_bind at 1. unfold lift at 1.
    unfold count_type. cbn [array_of mbind result_bind].
    rewrite (filter_type_throws _ _ Hbad). reflexivity.
Qed.

Lemma updateStats_on_missing_record_witness :
  Docs.updateStats (Arr [Samples.gw150914; Null]) Samples.fresh
  = (Throw TypeError, Samples.fresh).
Proof.
  assert (Hbad : exists e, In e [Samples.gw150914; Null] /\ no_object e).
  { exists Null. split; [right; left; reflexivity | left; reflexivity]. }
  exact (proj1 (updateStats_on_missing_record
                  [Samples.gw150914; Null] Samples.fresh Hbad)).
Defined.

End StatsFacts.

(** ** Edges of the display *)

Module DisplayEdges.
Import JS Page Common Records PageFacts RecordFacts SpinPlot WriteFacts
  Display Frame FrameFacts DisplayFacts Confined RobustPage.

Lemma filter_none {A} (p : A -> bool) (l : list A) :
  (forall a, In a l -> p a = false) -> List.filter p l = [].
Proof.
  induction l as [|a l IH]; intros Hp; simpl; [reflexivity|].
  rewrite (Hp a (or_introl eq_refl)). apply IH.
  intros x Hx. apply Hp. right. exact Hx.
Qed.

Section WithHost.
Context `{Builtins}.

(** X16 (displayEvents of the fail-soft and of the published script).
    Whatever value it is called on (an array of records or not) and
    whether it returns or throws, [displayEvents] only writes to its own
    elements: every other element is as it was, no element appears or
    disappears, and the two globals keep their values. *)
Theorem display_keeps_to_its_elements (events : value) (pg : page) :
  let robust := snd (Robust.displayEvents events pg) in
  let docs := snd (Docs.displayEvents events pg) in
  (unchanged_outside Display.view_ids pg robust /\
   (forall id, document robust !! id = None <-> document pg !! id = None) /\
   allEventsData robust = allEventsData pg /\
   allEventsList robust = allEventsList pg) /\
  (unchanged_outside Records.view_ids pg docs /\
   (forall id, document docs !! id = None <-> document pg !! id = None) /\
   allEventsData docs = allEventsData pg /\
   allEventsList docs = allEventsList pg).
Proof.
  intros robust docs. split.
  - subst robust.
    destruct (Robust.displayEvents events pg) as [r pg'] eqn:E.
    destruct (displayEvents_robust_confined events pg r pg' E)
      as [[[U N] L] D].
    simpl. tauto.
  - subst docs.
    destruct (Docs.displayEvents events pg) as [r pg'] eqn:E.
    destruct (displayEvents_docs_confined events pg r pg' E)
      as [[[U N] L] D].
    simpl. tauto.
Qed.

(** X17 (fail-soft script, change handler and the plot functions on an
    empty selection).  Choosing a tag that no record of the loaded
    document carries shows the empty view: all four counts are 0, the
    mass plot has no trace, the spin plot is replaced by the notice "No
    spin data", the timeline has no point, and with a non-empty document
    the filter line reads "Showing 0 of N events". *)
Theorem robust_change_on_unused_tag (selected : string)
    (events : list value) (data : value) (pg : page) :
  records events -> allEventsData pg = data -> is_record data = true ->
  field "events" data = Arr events ->
  selected <> "all" ->
  (forall e, In e events -> field "catalog" e <> Str selected) ->
  let N := of_nat (length events) in
  exists pg',
    Robust.onCatalogChange selected pg = (Ok tt, pg') /\
    document pg' !! "totalEvents"
    = set_textContent (of_nat 0) <$> document pg !! "totalEvents" /\
    document pg' !! "bbhCount"
    = set_textContent (of_nat 0) <$> document pg !! "bbhCount" /\
    document pg' !! "nsbhCount"
    = set_textContent (of_nat 0) <$> document pg !! "nsbhCount" /\
    document pg' !! "bnsCount"
    = set_textContent (of_nat 0) <$> document pg !! "bnsCount" /\
    document pg' !! "massPlot" = newPlot [] <$> document pg !! "massPlot" /\
    document pg' !! "spinPlot"
    = set_innerHTML Robust.no_spin_notice <$> document pg !! "spinPlot" /\
    document pg' !! "timelinePlot"
    = newPlot [ {| tr_x := []; tr_y := Some []; tr_type := "scatter";
                   tr_mode := Some "lines";
                   tr_name := Some "Cumulative detections";
                   tr_size := None; tr_color := None |} ]
        <$> document pg !! "timelinePlot" /\
    document pg' !! "filterInfo"
    = set_textContent (Str (filter_line (of_nat 0) N))
        <$> document pg !! "filterInfo" /\
    (events <> [] ->
     filter_line (of_nat 0) N
     = "Showing " +:+ ToString (of_nat 0) +:+ " of " +:+ ToString N
         +:+ " events").
Proof.
  intros Hrec Hdata Hobj Hev Hne Hnone N.
  assert (Hsel : selection selected events = []).
  { unfold selection. rewrite (CatalogFilter.not_all _ Hne).
    apply filter_none. intros e He.
    apply not_true_iff_false. rewrite strict_eq_Str. apply Hnone, He. }
  exists (view [] N pg). split.
  { rewrite <- Hsel.
    exact (onCatalogChange_view selected events data pg Hrec Hdata Hobj Hev). }
  destruct (view_elements [] N pg)
    as (Ht & Hb & Hn & Hs & Hf & Hm & _ & Hsp & Hl).
  repeat match goal with |- _ /\ _ => split end; try assumption.
  intros Hnonempty. unfold filter_line.
  destruct (strict_eq (of_nat 0) N) eqn:E; [|reflexivity].
  apply strict_eq_of_nat in E. destruct events; [congruence | discriminate].
Qed.

End WithHost.

Lemma robust_change_on_unused_tag_witness :
  exists pg',
    Robust.onCatalogChange (H := Host.sample) "GWTC-2.1-confident"
      {| document := document Samples.fresh;
         allEventsData := Samples.snapshot;
         allEventsList := Arr [] |}
    = (Ok tt, pg').
Proof.
  assert (Hrec : records Samples.events) by repeat constructor.
  assert (Hne : "GWTC-2.1-confident" <> "all") by discriminate.
  assert (Hnone : forall e, In e Samples.events ->
                            field "catalog" e <> Str "GWTC-2.1-confident").
  { intros e He. simpl in He.
    repeat (destruct He as [<- | He]; [discriminate|]). contradiction. }
  destruct (robust_change_on_unused_tag (H := Host.sample)
              "GWTC-2.1-confident" Samples.events Samples.snapshot
              {| document := document Samples.fresh;
                 allEventsData := Samples.snapshot;
                 allEventsList := Arr [] |}
              Hrec eq_refl eq_refl eq_refl Hne Hnone)
    as (pg' & Hrun & _).
  exists pg'. exact Hrun.
Defined.

End DisplayEdges.

(** ** The detail panel *)

Module DetailFacts.
Import JS Page Common Records PageFacts RecordFacts Details.

Section WithHost.
Context `{Builtins}.

Lemma parameters_record (event : value) :
  is_record event = true -> exists ps, parameters event = Ok ps.
Proof.
  intros He. unfold parameters. rewrite !(get_record _ _ He).
  cbn [mbind result_bind]. eauto.
Qed.

Lemma same_name_record (event e : value) (s : string) :
  is_record event = true -> field "name" event = Str s ->
  is_record e = true ->
  same_name event e = Ok (strict_eq (field "name" e) (Str s)).
Proof.
  intros Hev Hs He. unfold same_name.
  rewrite (get_record _ _ He), (get_record _ _ Hev), Hs. reflexivity.
Qed.

Lemma version_card_record (event version : value) :
  is_record event = true -> is_record version = true ->
  exists c,
    version_card event version = Ok c /\
    card_catalog c = field "catalog" version /\
    card_primary c
    = strict_eq (field "catalog" version) (field "catalog" event).
Proof.
  intros Hev Hv. unfold version_card.
  rewrite !(get_record _ _ Hv), !(get_record _ _ Hev).
  cbn [mbind result_bind]. eexists. split; [reflexivity|].
  split; reflexivity.
Qed.

Lemma version_cards (event : value) (l : list value) :
  is_record event = true -> records l ->
  exists cards,
    mapM (version_card event) l = Ok cards /\
    List.map card_catalog cards = List.map (field "catalog") l /\
    List.map card_primary cards
    = List.map (fun v => strict_eq (field "catalog" v)
                           (field "catalog" event)) l.
Proof.
  intros Hev Hl. induction Hl as [|v l Hv _ (cards & Hc & H1 & H2)].
  - exists []. repeat split; reflexivity.
  - destruct (version_card_record event v Hev Hv) as (c & Hcard & Hcat & Hp).
    exists (c :: cards). cbn [mapM]. rewrite Hcard, Hc.
    cbn [mbind result_bind List.map]. rewrite Hcat, Hp, H1, H2.
    repeat split; reflexivity.
Qed.

(** X18 (docs/script.js, showEventDetails).  For an event record with a
    string as name, on a page that has the panel's elements: the panel
    is filled under the event's name, and the list of versions is shown
    exactly when [allEventsList] holds more than one record of this
    name.  It then has one card per such record, in the order of the
    list, each with the record's catalogue, and a card is marked as
    primary exactly when its catalogue is the one of the event. *)
Theorem details_list_versions (event : value) (s : string)
    (all : list value) (pg : page) :
  is_record event = true -> field "name" event = Str s ->
  allEventsList pg = Arr all -> records all -> present detail_ids pg ->
  exists d,
    showEventDetails event pg = (Ok d, pg) /\
    detail_name d = Str s /\
    (length (named s all) <= 1 -> detail_versions d = None) /\
    (1 < length (named s all) ->
     exists cards,
       detail_versions d = Some cards /\
       List.map card_catalog cards
       = List.map (field "catalog") (named s all) /\
       List.map card_primary cards
       = List.map (fun v => strict_eq (field "catalog" v)
                              (field "catalog" event)) (named s all)).
Proof.
  intros Hev Hs Hall Hrec Hpre.
  assert (Hel : forall id, In id detail_ids ->
                           exists el, document pg !! id = Some el).
  { intros id Hid. exact (present_In _ _ _ Hpre Hid). }
  destruct (Hel "eventDetailPanel") as [e1 E1]; [simpl; tauto|].
  destruct (Hel "detailEventName") as [e2 E2]; [simpl; tauto|].
  destruct (Hel "primaryParameters") as [e3 E3]; [simpl; tauto|].
  destruct (Hel "versionsSection") as [e4 E4]; [simpl; tauto|].
  destruct (Hel "versionsList") as [e5 E5]; [simpl; tauto|].
  destruct (parameters_record event Hev) as [ps Hps].
  assert (Hfilter : filterM (same_name event) all = Ok (named s all)).
  { apply filterM_pure. eapply List.Forall_impl; [|exact Hrec].
    intros e He. apply same_name_record; assumption. }
  destruct (version_cards event (named s all) Hev
              (records_filter _ _ Hrec)) as (cards & Hcards & Hcat & Hprim).
  unfold showEventDetails, mbind, M_bind, getElementById, lift,
    read_allEventsList.
  rewrite E1, E2, E3, E4, E5, (get_record _ _ Hev), Hs, Hps.
  cbn [assigned mret M_ret]. rewrite Hall.
  cbn [array_of mbind result_bind]. rewrite Hfilter.
  destruct (1 <? length (named s all)) eqn:L.
  - apply Nat.ltb_lt in L. cbn [assigned mret M_ret]. rewrite Hcards.
    eexists. split; [reflexivity|]. split; [reflexivity|].
    split; [intros; lia|]. intros _. exists cards.
    split; [reflexivity|]. split; assumption.
  - apply Nat.ltb_ge in L. cbn [assigned mret M_ret].
    eexists. split; [reflexivity|]. split; [reflexivity|].
    split; [reflexivity|]. intros; lia.
Qed.

(** X19 (docs/script.js, click handler of createPlot with
    showEventDetails).  When the displayed records hold BNS records only
    (none of type BBH or NSBH), a click on any point of the plot opens
    no panel: the handler looks the point up in the empty NSBH list,
    passes [undefined] on, and [showEventDetails] fails with a TypeError
    on its first member access. *)
Theorem click_on_lone_BNS_fails (events : list value) (i : nat)
    (pg : page) :
  records events ->
  of_type "BBH" events = [] -> of_type "NSBH" events = [] ->
  Click.onPlotClick (Arr events) 0 i = Ok Undefined /\
  onClick (Arr events) 0 i pg = (Throw TypeError, pg).
Proof.
  intros Hrec Hb Hn.
  assert (Hclick : Click.onPlotClick (Arr events) 0 i = Ok Undefined).
  { rewrite (ClickFacts.onPlotClick_records _ _ _ Hrec).
    unfold Click.clickedEvent. rewrite Hb, Hn. reflexivity. }
  split; [exact Hclick|].
  unfold onClick, mbind, M_bind, lift. rewrite Hclick.
  unfold showEventDetails, mbind, M_bind, getElementById, lift.
  reflexivity.
Qed.

End WithHost.

Lemma details_list_versions_witness :
  exists d,
    showEventDetails (H := Host.sample) Samples.gw190521_v2
      (panel_page [Samples.gw190521_v1; Samples.gw190521_v2])
    = (Ok d, panel_page [Samples.gw190521_v1; Samples.gw190521_v2]).
Proof.
  assert (Hrec : records [Samples.gw190521_v1; Samples.gw190521_v2])
    by repeat constructor.
  assert (Hpre : present detail_ids
                   (panel_page [Samples.gw190521_v1; Samples.gw190521_v2])).
  { repeat (constructor; [vm_compute; eexists; reflexivity|]). constructor. }
  destruct (details_list_versions (H := Host.sample) Samples.gw190521_v2
              "GW190521" [Samples.gw190521_v1; Samples.gw190521_v2]
              (panel_page [Samples.gw190521_v1; Samples.gw190521_v2])
              eq_refl eq_refl eq_refl Hrec Hpre)
    as (d & Hrun & _).
  exists d. exact Hrun.
Defined.

Lemma click_on_lone_BNS_fails_witness :
  onClick (H := Host.sample) (Arr [Samples.gw170817]) 0 0 Samples.fresh
  = (Throw TypeError, Samples.fresh).
Proof.
  assert (Hrec : records [Samples.gw170817]) by repeat constructor.
  exact (proj2 (click_on_lone_BNS_fails (H := Host.sample)
                  [Samples.gw170817] 0 Samples.fresh Hrec eq_refl eq_refl)).
Defined.

End DetailFacts.

(** ** The classification rule and the order of the masses *)

Module ClassifierOrder.
Import Classifier.

Lemma not_both_sides (a : Q) :
  Qltb a NS_THRESHOLD = true -> Qltb NS_THRESHOLD a = true -> False.
Proof.
  rewrite !Qltb_lt. intros H1 H2.
  exact (Qlt_irrefl _ (Qlt_trans _ _ _ H1 H2)).
Qed.

Ltac order_absurd :=
  match goal with
  | H1 : (?x < ?y)%Q, H2 : (?y <= ?x)%Q |- _ => exact (Qlt_not_le _ _ H1 H2)
  | H1 : (?x < ?y)%Q, H2 : (?y < ?x)%Q |- _ =>
      exact (Qlt_irrefl _ (Qlt_trans _ _ _ H1 H2))
  end.

(** X20 (data schema, source classification logic).  The rule depends
    on the order of its arguments exactly for a pair with one mass
    below and one above the threshold: with the heavier mass first it
    answers NSBH, with the lighter mass first BBH.  On every other pair
    the order makes no difference. *)
Theorem classify_order (a b : Q) :
  (classify a b = classify b a <->
   ~ ((a < NS_THRESHOLD /\ NS_THRESHOLD < b)
      \/ (b < NS_THRESHOLD /\ NS_THRESHOLD < a))%Q) /\
  ((a < NS_THRESHOLD /\ NS_THRESHOLD < b)%Q ->
   classify b a = NSBH /\ classify a b = BBH).
Proof.
  unfold classify.
  destruct (Qltb a NS_THRESHOLD) eqn:A1, (Qltb NS_THRESHOLD a) eqn:A2,
    (Qltb b NS_THRESHOLD) eqn:B1, (Qltb NS_THRESHOLD b) eqn:B2;
    try (exfalso; eapply not_both_sides; eassumption);
    cbn [andb];
    repeat match goal with
    | E : Qltb _ _ = true |- _ => apply Qltb_lt in E
    | E : Qltb _ _ = false |- _ => apply Qltb_ge in E
    end;
    (split;
     [ split;
       [ intros E;
         first [ discriminate E
               | intros [[H1 H2] | [H1 H2]]; order_absurd ]
       | intros Hn; first [ reflexivity | exfalso; apply Hn; tauto ] ]
     | intros [H1 H2];
       first [ split; reflexivity | exfalso; order_absurd ] ]).
Qed.

Lemma classify_order_witness :
  classify 5 (14 # 10) = NSBH /\ classify (14 # 10) 5 = BBH.
Proof.
  assert (Hlt : ((14 # 10) < NS_THRESHOLD /\ NS_THRESHOLD < 5)%Q)
    by (split; reflexivity).
  exact (proj2 (classify_order (14 # 10) 5) Hlt).
Defined.

End ClassifierOrder.
